(** * vsce packaging core: ignore engine and processor stages of [src/package.ts]

    A shallow embedding of the parts of [package.ts] that decide which files
    go into a package ([collectFiles]) and of the Markdown, License, Icon and
    Localization processors, with the properties of the specification stated
    and proved (or refuted) over it.  The embedding goes on with the Manifest
    and Tags processors, [validateManifest], the table of [toContentTypes],
    [collectAllFiles] and the helpers [getRepositoryUrl], [toExtensionTags],
    [toLanguagePackTags] and [escapeRegExp], with properties read off the
    code.

    Strings.  A JavaScript string is a sequence of UTF-16 code units.  The
    embedding uses [string], one [ascii] per code unit, and therefore covers
    the code units below 256.  Within that range white space ([\s], [trim])
    is the set 9..13, 32, 160 and the line terminators are 10 and 13.

    Libraries.  [minimatch], [url-join], [markdown-it] with [cheerio],
    [url.parse], [decodeURI], [path.extname], [new RegExp], the case
    conversions and [util.normalize] are not defined in [package.ts]; the
    general theorems take them as section variables, and the closed examples
    instantiate them with small executable models that are declared as such.

    Layout.  The model comes first (strings, errors, regular expressions,
    glob matching, the ignore engine, the processors, the library models and
    the sample inputs), then the facts, one module per component.  What
    reads or writes files, runs a script or renders a template ([read],
    [readManifest], [toVsixManifest], [writeVsix], [prepublish], [pack]) is
    not part of the model. *)

From Stdlib Require Import Strings.String Strings.Ascii Lists.List Bool.Bool.
From Stdlib Require Import Arith.Arith Arith.PeanoNat NArith.NArith micromega.Lia.
Import ListNotations.

Local Open Scope string_scope.
Local Open Scope list_scope.
Local Open Scope bool_scope.
Local Open Scope nat_scope.

(** String concatenation, written apart from list concatenation. *)
Infix "+++" := String.append (right associativity, at level 60).

(* ================================================================== *)
(** ** Strings *)

Module Str.

Definition LF : ascii := "010"%char.
Definition CR : ascii := "013"%char.

(** Line terminators of ECMAScript (below 256). *)
Definition isLineTerminator (c : ascii) : bool :=
  Ascii.eqb c LF || Ascii.eqb c CR.

(** White space as [\s] and [String.prototype.trim] see it (below 256). *)
Definition isWhite (c : ascii) : bool :=
  let n := nat_of_ascii c in
  ((9 <=? n) && (n <=? 13)) || (n =? 32) || (n =? 160).

Definition isDigit (c : ascii) : bool :=
  let n := nat_of_ascii c in (48 <=? n) && (n <=? 57).

Definition isUpper (c : ascii) : bool :=
  let n := nat_of_ascii c in (65 <=? n) && (n <=? 90).

Definition isLower (c : ascii) : bool :=
  let n := nat_of_ascii c in (97 <=? n) && (n <=? 122).

(** [\w] is [A-Za-z0-9_]. *)
Definition isWord (c : ascii) : bool :=
  isDigit c || isUpper c || isLower c || Ascii.eqb c "_"%char.

Definition upperChar (c : ascii) : ascii :=
  if isLower c then ascii_of_nat (nat_of_ascii c - 32) else c.

Definition lowerChar (c : ascii) : ascii :=
  if isUpper c then ascii_of_nat (nat_of_ascii c + 32) else c.

Fixpoint take (n : nat) (s : string) : string :=
  match n, s with
  | S n', String c s' => String c (take n' s')
  | _, _ => EmptyString
  end.

Fixpoint drop (n : nat) (s : string) : string :=
  match n, s with
  | S n', String c s' => drop n' s'
  | _, _ => s
  end.

Fixpoint all (p : ascii -> bool) (s : string) : bool :=
  match s with
  | EmptyString => true
  | String c s' => p c && all p s'
  end.

Fixpoint mem (c : ascii) (s : string) : bool :=
  match s with
  | EmptyString => false
  | String d s' => Ascii.eqb c d || mem c s'
  end.

Fixpoint last (s : string) : option ascii :=
  match s with
  | EmptyString => None
  | String c EmptyString => Some c
  | String _ s' => last s'
  end.

(** The last character of [w], or [pv] when [w] is empty. *)
Definition lastOr (pv : option ascii) (w : string) : option ascii :=
  match last w with Some c => Some c | None => pv end.

Definition head (s : string) : option ascii :=
  match s with
  | EmptyString => None
  | String c _ => Some c
  end.

(** [s.startsWith(p)] written as the library's [prefix]. *)
Definition startsWith (p s : string) : bool := String.prefix p s.

(** A string is truthy in JavaScript when it is not empty. *)
Definition truthy (s : string) : bool :=
  match s with EmptyString => false | _ => true end.

(** [a || b] on optional strings: the first truthy operand. *)
Definition orElse (a b : option string) : option string :=
  match a with
  | Some s => if truthy s then a else b
  | None => b
  end.

Definition truthyOpt (a : option string) : bool :=
  match a with Some s => truthy s | None => false end.

End Str.

(* ================================================================== *)
(** ** Errors

    A thrown [Error] or a rejected promise aborts the run; the embedding
    returns [Fatal] with the message. *)

Inductive result (A : Type) : Type :=
| OK (a : A)
| Fatal (msg : string).

Arguments OK {A} a.
Arguments Fatal {A} msg.

Definition bind {A B : Type} (r : result A) (f : A -> result B) : result B :=
  match r with
  | OK a => f a
  | Fatal m => Fatal m
  end.

Notation "x <- r ;; k" := (bind r (fun x => k))
  (at level 61, r at next level, right associativity).

Definition isFatal {A : Type} (r : result A) : bool :=
  match r with OK _ => false | Fatal _ => true end.

(* ================================================================== *)
(** ** Regular expressions

    The regular expression literals of [package.ts] are written as syntax
    trees; [RegExp.rmatch] is a backtracking matcher in continuation style
    with the priorities of ECMAScript (left alternative first, greedy
    repetition, an empty iteration of a star is rejected). *)

Module RegExp.

(** Members of a character class. *)
Inductive citem : Type :=
| CChar (c : ascii)
| CRange (lo hi : ascii)
| CDigit                       (* \d *)
| CWord                        (* \w *)
| CSpace.                      (* \s *)

Inductive regex : Type :=
| REmpty
| RSet (neg : bool) (items : list citem)   (* [..] and [^..]; one character *)
| RSeq (r1 r2 : regex)
| RAlt (r1 r2 : regex)
| RStar (r : regex)
| RGroup (i : nat) (r : regex)             (* capturing group number i *)
| RBol                                     (* ^ *)
| REol                                     (* $ *)
| RWordB.                                  (* \b *)

Definition RChar (c : ascii) : regex := RSet false [CChar c].
(** [.] is every character but a line terminator. *)
Definition RAny : regex := RSet true [CChar Str.LF; CChar Str.CR].
Definition RPlus (r : regex) : regex := RSeq r (RStar r).
Definition ROpt (r : regex) : regex := RAlt r REmpty.

Fixpoint RLit (s : string) : regex :=
  match s with
  | EmptyString => REmpty
  | String c EmptyString => RChar c
  | String c s' => RSeq (RChar c) (RLit s')
  end.

Fixpoint RSeqs (rs : list regex) : regex :=
  match rs with
  | [] => REmpty
  | [r] => r
  | r :: rs' => RSeq r (RSeqs rs')
  end.

Definition item_has (c : ascii) (it : citem) : bool :=
  match it with
  | CChar d => Ascii.eqb c d
  | CRange lo hi => (nat_of_ascii lo <=? nat_of_ascii c) && (nat_of_ascii c <=? nat_of_ascii hi)
  | CDigit => Str.isDigit c
  | CWord => Str.isWord c
  | CSpace => Str.isWhite c
  end.

(** With the [i] flag a character belongs to a class when one of its case
    variants does. *)
Definition item_ok (ic : bool) (c : ascii) (it : citem) : bool :=
  item_has c it
  || (ic && (item_has (Str.upperChar c) it || item_has (Str.lowerChar c) it)).

Definition class_ok (ic neg : bool) (items : list citem) (c : ascii) : bool :=
  xorb neg (existsb (item_ok ic c) items).

(** Flags [i] and [m] of a regular expression. *)
Record flags : Type := { ignoreCase : bool; multiline : bool }.

Definition noFlags : flags := {| ignoreCase := false; multiline := false |}.
Definition flagI : flags := {| ignoreCase := true; multiline := false |}.
Definition flagM : flags := {| ignoreCase := false; multiline := true |}.

(** The matcher state: the character before the current position, the rest
    of the input, and the captures made so far (latest first). *)
Record mstate : Type := {
  m_prev : option ascii;
  m_rest : string;
  m_caps : list (nat * string)
}.

Definition advance (c : ascii) (rest : string) (st : mstate) : mstate :=
  {| m_prev := Some c; m_rest := rest; m_caps := m_caps st |}.

Definition consumed (st st' : mstate) : string :=
  Str.take (String.length (m_rest st) - String.length (m_rest st')) (m_rest st).

Definition set_cap (i : nat) (st st' : mstate) : mstate :=
  {| m_prev := m_prev st'; m_rest := m_rest st';
     m_caps := (i, consumed st st') :: m_caps st' |}.

Definition optWord (c : option ascii) : bool :=
  match c with Some x => Str.isWord x | None => false end.

Definition optLT (c : option ascii) : bool :=
  match c with Some x => Str.isLineTerminator x | None => false end.

Definition atBol (f : flags) (st : mstate) : bool :=
  match m_prev st with
  | None => true
  | Some c => multiline f && Str.isLineTerminator c
  end.

Definition atEol (f : flags) (st : mstate) : bool :=
  match m_rest st with
  | EmptyString => true
  | String c _ => multiline f && Str.isLineTerminator c
  end.

Definition atWordB (st : mstate) : bool :=
  xorb (optWord (m_prev st)) (optWord (Str.head (m_rest st))).

Definition shorter (st' st : mstate) : bool :=
  String.length (m_rest st') <? String.length (m_rest st).

Definition cont : Type := mstate -> option mstate.

Section Matcher.
Variable f : flags.

(** Greedy iteration of [step]: at most [n] rounds, each of which must
    consume input. *)
Fixpoint star_loop (step : cont -> cont) (n : nat) (k : cont) (st : mstate)
  : option mstate :=
  match n with
  | 0 => k st
  | S n' =>
      match step (fun st' => if shorter st' st then star_loop step n' k st' else None) st with
      | Some res => Some res
      | None => k st
      end
  end.

Fixpoint rmatch (r : regex) (k : cont) (st : mstate) : option mstate :=
  match r with
  | REmpty => k st
  | RSet neg items =>
      match m_rest st with
      | String c rest =>
          if class_ok (ignoreCase f) neg items c then k (advance c rest st) else None
      | EmptyString => None
      end
  | RSeq r1 r2 => rmatch r1 (rmatch r2 k) st
  | RAlt r1 r2 =>
      match rmatch r1 k st with
      | Some res => Some res
      | None => rmatch r2 k st
      end
  | RStar r1 => star_loop (rmatch r1) (S (String.length (m_rest st))) k st
  | RGroup i r1 => rmatch r1 (fun st' => k (set_cap i st st')) st
  | RBol => if atBol f st then k st else None
  | REol => if atEol f st then k st else None
  | RWordB => if atWordB st then k st else None
  end.

End Matcher.

(** The result of a successful match, as [RegExp.prototype.exec] returns it. *)
Record match_result : Type := {
  index : nat;
  matched : string;                 (* the whole match, [$&] *)
  groups : list (nat * string)
}.

(** The capture of group [i]; [None] is JavaScript's [undefined]. *)
Fixpoint lookup (i : nat) (caps : list (nat * string)) : option string :=
  match caps with
  | [] => None
  | (j, s) :: caps' => if i =? j then Some s else lookup i caps'
  end.

Definition group (i : nat) (m : match_result) : option string :=
  lookup i (groups m).

Definition start_state (prev : option ascii) (rest : string) : mstate :=
  {| m_prev := prev; m_rest := rest; m_caps := [] |}.

(** A match that starts exactly at the current position. *)
Definition match_here (f : flags) (r : regex) (prev : option ascii) (rest : string)
  (idx : nat) : option match_result :=
  match rmatch f r Some (start_state prev rest) with
  | Some st' =>
      Some {| index := idx;
              matched := consumed (start_state prev rest) st';
              groups := m_caps st' |}
  | None => None
  end.

(** The leftmost match at or after the current position. *)
Fixpoint search (f : flags) (r : regex) (prev : option ascii) (rest : string)
  (idx : nat) : option match_result :=
  match match_here f r prev rest idx with
  | Some m => Some m
  | None =>
      match rest with
      | EmptyString => None
      | String c rest' => search f r (Some c) rest' (S idx)
      end
  end.

(** [re.exec(s)] and [re.test(s)] for a regular expression without [g]. *)
Definition exec (f : flags) (r : regex) (s : string) : option match_result :=
  search f r None s 0.

Definition test (f : flags) (r : regex) (s : string) : bool :=
  match exec f r s with Some _ => true | None => false end.

(** All matches of a regular expression with the [g] flag, left to right and
    not overlapping; [skip] counts the characters of the previous match that
    are still to be passed. *)
Fixpoint scan (f : flags) (r : regex) (prev : option ascii) (rest : string)
  (idx skip : nat) : list match_result :=
  match skip with
  | S sk =>
      match rest with
      | EmptyString => []
      | String c rest' => scan f r (Some c) rest' (S idx) sk
      end
  | 0 =>
      match match_here f r prev rest idx with
      | Some m =>
          m :: match rest with
               | EmptyString => []
               | String c rest' =>
                   scan f r (Some c) rest' (S idx) (String.length (matched m) - 1)
               end
      | None =>
          match rest with
          | EmptyString => []
          | String c rest' => scan f r (Some c) rest' (S idx) 0
          end
      end
  end.

Definition matchAll (f : flags) (r : regex) (s : string) : list match_result :=
  scan f r None s 0 0.

(** [s.replace(re, fn)] for a regular expression with the [g] flag and a
    replacement function that may throw. *)
Fixpoint replace_from (f : flags) (r : regex) (fn : match_result -> result string)
  (prev : option ascii) (rest : string) (idx skip : nat) : result string :=
  match skip with
  | S sk =>
      match rest with
      | EmptyString => OK EmptyString
      | String c rest' => replace_from f r fn (Some c) rest' (S idx) sk
      end
  | 0 =>
      match match_here f r prev rest idx with
      | Some m =>
          rep <- fn m ;;
          match rest with
          | EmptyString => OK rep
          | String c rest' =>
              tl <- replace_from f r fn (Some c) rest' (S idx)
                      (String.length (matched m) - 1) ;;
              OK (rep +++ (if String.length (matched m) =? 0 then String c tl else tl))
          end
      | None =>
          match rest with
          | EmptyString => OK EmptyString
          | String c rest' =>
              tl <- replace_from f r fn (Some c) rest' (S idx) 0 ;;
              OK (String c tl)
          end
      end
  end.

Definition replace (f : flags) (r : regex) (fn : match_result -> result string)
  (s : string) : result string :=
  replace_from f r fn None s 0 0.

(** A regular expression without capturing groups. *)
Fixpoint groupFree (r : regex) : bool :=
  match r with
  | RSeq r1 r2 | RAlt r1 r2 => groupFree r1 && groupFree r2
  | RStar r1 => groupFree r1
  | RGroup _ _ => false
  | _ => true
  end.

(** [den f r st st']: the regular expression [r] can take the matcher from
    state [st] to state [st']. *)
Inductive den (f : flags) : regex -> mstate -> mstate -> Prop :=
| den_empty st : den f REmpty st st
| den_set neg items c rest st :
    m_rest st = String c rest ->
    class_ok (ignoreCase f) neg items c = true ->
    den f (RSet neg items) st (advance c rest st)
| den_seq r1 r2 st st1 st2 :
    den f r1 st st1 -> den f r2 st1 st2 -> den f (RSeq r1 r2) st st2
| den_alt_l r1 r2 st st' : den f r1 st st' -> den f (RAlt r1 r2) st st'
| den_alt_r r1 r2 st st' : den f r2 st st' -> den f (RAlt r1 r2) st st'
| den_star_nil r st : den f (RStar r) st st
| den_star_cons r st st1 st2 :
    den f r st st1 -> shorter st1 st = true -> den f (RStar r) st1 st2 ->
    den f (RStar r) st st2
| den_group i r st st' : den f r st st' -> den f (RGroup i r) st (set_cap i st st')
| den_bol st : atBol f st = true -> den f RBol st st
| den_eol st : atEol f st = true -> den f REol st st
| den_wordb st : atWordB st = true -> den f RWordB st st.

End RegExp.

Import RegExp.

(* ================================================================== *)
(** ** Regular expressions from their source text (model of the built-in)

    [new RegExp(text)] compiles a pattern at run time.  This is a model of
    the built-in constructor for a fragment of the pattern syntax: literal
    characters, [.], the escapes [\d \w \s \D \W \S \b \t \n \r \v \f] and
    escaped punctuation, character classes with ranges, groups [( )] and
    [(?: )], alternation, and the quantifiers [*], [+] and [?].  Lazy and
    counted quantifiers, look-ahead, back references and [\B] are reported
    as [Unsupported].  It is used to compile the run-time pattern of the
    License processor in the closed examples and to check the syntax trees
    of the literals against their source text. *)

Module RegExpSyntax.

Inductive presult : Type :=
| Parsed (r : regex) (rest : string) (ngroups : nat)
| SyntaxError
| Unsupported.

(** Sequence, without a trailing empty expression. *)
Definition mkSeq (r1 r2 : regex) : regex :=
  match r2 with
  | REmpty => r1
  | _ => RSeq r1 r2
  end.

Definition isAlnum (c : ascii) : bool := Str.isDigit c || Str.isUpper c || Str.isLower c.

(** A character escape outside and inside a class. *)
Definition controlEscape (c : ascii) : option ascii :=
  if Ascii.eqb c "t" then Some "009"%char
  else if Ascii.eqb c "n" then Some "010"%char
  else if Ascii.eqb c "v" then Some "011"%char
  else if Ascii.eqb c "f" then Some "012"%char
  else if Ascii.eqb c "r" then Some "013"%char
  else if isAlnum c then None
  else Some c.

Definition classEscape (c : ascii) : option citem :=
  if Ascii.eqb c "d" then Some CDigit
  else if Ascii.eqb c "w" then Some CWord
  else if Ascii.eqb c "s" then Some CSpace
  else option_map CChar (controlEscape c).

Definition atomEscape (c : ascii) : option regex :=
  if Ascii.eqb c "b" then Some RWordB
  else if Ascii.eqb c "D" then Some (RSet true [CDigit])
  else if Ascii.eqb c "W" then Some (RSet true [CWord])
  else if Ascii.eqb c "S" then Some (RSet true [CSpace])
  else option_map (fun it => RSet false [it]) (classEscape c).

(** The members of a class up to the closing bracket. *)
Fixpoint parseClass (fuel : nat) (s : string) (acc : list citem)
  : option (option (list citem * string)) :=
  match fuel with
  | 0 => Some None
  | S fuel' =>
      match s with
      | EmptyString => None                        (* unterminated class *)
      | String c rest =>
          if Ascii.eqb c "]" then Some (Some (rev acc, rest))
          else
            let item :=
              if Ascii.eqb c "\" then
                match rest with
                | String e rest' => option_map (fun it => (it, rest')) (classEscape e)
                | EmptyString => None
                end
              else Some (CChar c, rest) in
            match item with
            | None => Some None
            | Some (CChar lo, String d (String hi rest')) =>
                if Ascii.eqb d "-" && negb (Ascii.eqb hi "]") && negb (Ascii.eqb hi "\")
                then parseClass fuel' rest' (CRange lo hi :: acc)
                else parseClass fuel' (String d (String hi rest')) (CChar lo :: acc)
            | Some (it, rest') => parseClass fuel' rest' (it :: acc)
            end
      end
  end.

Definition isAssertion (r : regex) : bool :=
  match r with
  | RBol | REol | RWordB => true
  | _ => false
  end.

(** A quantifier after the atom [r]. *)
Definition quantified (r : regex) (s : string) (n : nat) : presult :=
  match s with
  | String q rest =>
      if Ascii.eqb q "*" || Ascii.eqb q "+" || Ascii.eqb q "?" then
        if isAssertion r then SyntaxError
        else
          match rest with
          | String l _ =>
              if Ascii.eqb l "?" then Unsupported
              else if Ascii.eqb l "*" || Ascii.eqb l "+" then SyntaxError
              else Parsed (if Ascii.eqb q "*" then RStar r
                           else if Ascii.eqb q "+" then RPlus r else ROpt r) rest n
          | EmptyString =>
              Parsed (if Ascii.eqb q "*" then RStar r
                      else if Ascii.eqb q "+" then RPlus r else ROpt r) rest n
          end
      else if Ascii.eqb q "{" then Unsupported
      else Parsed r s n
  | EmptyString => Parsed r s n
  end.

Fixpoint parseDisjunction (fuel : nat) (s : string) (n : nat) : presult :=
  match fuel with
  | 0 => Unsupported
  | S fuel' =>
      match parseAlternative fuel' s n with
      | Parsed r1 (String c rest) n1 =>
          if Ascii.eqb c "|" then
            match parseDisjunction fuel' rest n1 with
            | Parsed r2 rest2 n2 => Parsed (RAlt r1 r2) rest2 n2
            | e => e
            end
          else Parsed r1 (String c rest) n1
      | res => res
      end
  end
with parseAlternative (fuel : nat) (s : string) (n : nat) : presult :=
  match fuel with
  | 0 => Unsupported
  | S fuel' =>
      match s with
      | EmptyString => Parsed REmpty s n
      | String c _ =>
          if Ascii.eqb c "|" || Ascii.eqb c ")" then Parsed REmpty s n
          else
            match parseTerm fuel' s n with
            | Parsed r1 rest1 n1 =>
                match parseAlternative fuel' rest1 n1 with
                | Parsed r2 rest2 n2 => Parsed (mkSeq r1 r2) rest2 n2
                | e => e
                end
            | e => e
            end
      end
  end
with parseTerm (fuel : nat) (s : string) (n : nat) : presult :=
  match fuel with
  | 0 => Unsupported
  | S fuel' =>
      match s with
      | EmptyString => SyntaxError
      | String c rest =>
          if Ascii.eqb c "^" then quantified RBol rest n
          else if Ascii.eqb c "$" then quantified REol rest n
          else if Ascii.eqb c "." then quantified RAny rest n
          else if Ascii.eqb c "*" || Ascii.eqb c "+" || Ascii.eqb c "?" then SyntaxError
          else if Ascii.eqb c "{" || Ascii.eqb c "}" then Unsupported
          else if Ascii.eqb c "\" then
            match rest with
            | String e rest' =>
                match atomEscape e with
                | Some r => quantified r rest' n
                | None => Unsupported
                end
            | EmptyString => SyntaxError
            end
          else if Ascii.eqb c "[" then
            let (neg, body) :=
              match rest with
              | String x rest' => if Ascii.eqb x "^" then (true, rest') else (false, rest)
              | EmptyString => (false, rest)
              end in
            match parseClass (S (String.length body)) body [] with
            | Some (Some (items, rest')) => quantified (RSet neg items) rest' n
            | Some None => Unsupported
            | None => SyntaxError
            end
          else if Ascii.eqb c "(" then
            match rest with
            | String q (String k rest') =>
                if Ascii.eqb q "?" then
                  if Ascii.eqb k ":" then
                    match parseDisjunction fuel' rest' n with
                    | Parsed r (String d rest2) n2 =>
                        if Ascii.eqb d ")" then quantified r rest2 n2 else SyntaxError
                    | Parsed _ EmptyString _ => SyntaxError
                    | e => e
                    end
                  else Unsupported
                else
                  match parseDisjunction fuel' rest (S n) with
                  | Parsed r (String d rest2) n2 =>
                      if Ascii.eqb d ")" then quantified (RGroup (S n) r) rest2 n2
                      else SyntaxError
                  | Parsed _ EmptyString _ => SyntaxError
                  | e => e
                  end
            | _ =>
                match parseDisjunction fuel' rest (S n) with
                | Parsed r (String d rest2) n2 =>
                    if Ascii.eqb d ")" then quantified (RGroup (S n) r) rest2 n2
                    else SyntaxError
                | Parsed _ EmptyString _ => SyntaxError
                | e => e
                end
            end
          else if Ascii.eqb c ")" then SyntaxError
          else quantified (RChar c) rest n
      end
  end.

(** The whole pattern; what is left over is an unmatched [)]. *)
Definition parse (text : string) : presult :=
  match parseDisjunction (3 * String.length text + 3) text 0 with
  | Parsed r EmptyString n => Parsed r EmptyString n
  | Parsed _ _ _ => SyntaxError
  | e => e
  end.

(** [new RegExp(text)]: a syntax error is thrown. *)
Definition newRegExp (text : string) : result regex :=
  match parse text with
  | Parsed r _ _ => OK r
  | SyntaxError => Fatal "SyntaxError: Invalid regular expression"
  | Unsupported => Fatal "pattern outside the modelled fragment"
  end.

(** Sequences in right-nested form, to compare syntax trees. *)
Fixpoint seqApp (r tail : regex) : regex :=
  match r with
  | RSeq r1 r2 => seqApp r1 (seqApp r2 tail)
  | REmpty => tail
  | _ => mkSeq r tail
  end.

Fixpoint seqNorm (r : regex) : regex :=
  match r with
  | RSeq r1 r2 => seqApp (seqNorm r1) (seqNorm r2)
  | RAlt r1 r2 => RAlt (seqNorm r1) (seqNorm r2)
  | RStar r1 => RStar (seqNorm r1)
  | RGroup i r1 => RGroup i (seqNorm r1)
  | _ => r
  end.

(** The syntax tree [r] is the one of the source text. *)
Definition sourceOf (text : string) (r : regex) : Prop :=
  match parse text with
  | Parsed r' _ _ => seqNorm r' = seqNorm r
  | _ => False
  end.

End RegExpSyntax.
(* ================================================================== *)
(** ** Glob matching (model of the library)

    Modelled from the spec: "Pattern matching is shell-glob semantics with
    dot-files matched explicitly (not implicitly skipped)".  [minimatch] is
    an npm library and not part of [package.ts].  The general theorems hold
    for every matcher; this model is the matcher of the closed examples.  It
    covers literal characters, [?], [*], the globstar segment [**], comment
    and negated patterns, with the option [dot: true]; braces, character
    classes and extended globs are not interpreted. *)

Module Glob.

Definition slash : ascii := "/"%char.

(** [s.split(/\/+/)]. *)
Fixpoint splitSlash (s : string) : list string :=
  match s with
  | EmptyString => [EmptyString]
  | String c s' =>
      if Ascii.eqb c slash then
        match s' with
        | String d _ => if Ascii.eqb d slash then splitSlash s' else EmptyString :: splitSlash s'
        | EmptyString => EmptyString :: splitSlash s'
        end
      else
        match splitSlash s' with
        | seg :: segs => String c seg :: segs
        | [] => [String c EmptyString]
        end
  end.

Definition isMagic (c : ascii) : bool :=
  Ascii.eqb c "*"%char || Ascii.eqb c "?"%char.

Definition hasMagic (p : string) : bool := negb (Str.all (fun c => negb (isMagic c)) p).

(** One path segment against one pattern segment. *)
Fixpoint wild (p : string) : string -> bool :=
  match p with
  | EmptyString => fun s => negb (Str.truthy s)
  | String c p' =>
      if Ascii.eqb c "*"%char then
        fix star (s : string) : bool :=
          wild p' s || match s with
                       | EmptyString => false
                       | String _ s' => star s'
                       end
      else
        fun s =>
          match s with
          | EmptyString => false
          | String d s' => (Ascii.eqb c "?"%char || Ascii.eqb c d) && wild p' s'
          end
  end.

Definition isDots (s : string) : bool := String.eqb s "." || String.eqb s "..".

(** A pattern segment with a wildcard matches no empty segment, and one that
    starts with a wildcard matches neither [.] nor [..]. *)
Definition segment (p s : string) : bool :=
  if hasMagic p then
    Str.truthy s
    && negb (match p with String c _ => isMagic c | EmptyString => false end && isDots s)
    && wild p s
  else String.eqb p s.

(** Pattern segments against file segments ([matchOne]). *)
Fixpoint segments (ps : list string) : list string -> bool :=
  match ps with
  | [] => fun fs => match fs with
                    | [] => true
                    | [s] => negb (Str.truthy s)
                    | _ => false
                    end
  | p :: ps' =>
      if String.eqb p "**" then
        match ps' with
        | [] => fun fs => match fs with
                          | [] => false
                          | _ => forallb (fun s => negb (isDots s)) fs
                          end
        | _ =>
            fix globstar (fs : list string) : bool :=
              match fs with
              | [] => false
              | s :: fs' => segments ps' fs || (negb (isDots s) && globstar fs')
              end
        end
      else
        fun fs => match fs with
                  | [] => false
                  | s :: fs' => segment p s && segments ps' fs'
                  end
  end.

(** Leading [!] marks of a pattern negate it, one by one. *)
Fixpoint parseNegate (p : string) : bool * string :=
  match p with
  | String c p' =>
      if Ascii.eqb c "!"%char then let (n, q) := parseNegate p' in (negb n, q)
      else (false, p)
  | EmptyString => (false, p)
  end.

Definition isBlank (p : string) : bool := Str.all Str.isWhite p.

(** [minimatch(f, pattern, {dot: true})]. *)
Definition minimatch (f pattern : string) : bool :=
  if Str.startsWith "#" pattern then false
  else if isBlank pattern then negb (Str.truthy f)
  else
    let (neg, p) := parseNegate pattern in
    xorb neg (segments (splitSlash p) (splitSlash f)).

End Glob.

(* ================================================================== *)
(** ** The ignore engine: [collectFiles] *)

Module Ignore.

(** What reading [.vscodeignore] can give. *)
Inductive readResult : Type :=
| FileContent (s : string)
| NotFound                        (* err.code === 'ENOENT' *)
| ReadError (msg : string).

(** [const defaultIgnore]. *)
Definition defaultIgnore : list string :=
  [ ".vscodeignore"; "package-lock.json"; "yarn.lock"; ".editorconfig"; ".npmrc";
    ".yarnrc"; ".gitattributes"; "*.todo"; "tslint.yaml"; ".eslintrc*"; ".babelrc*";
    ".prettierrc"; "ISSUE_TEMPLATE.md"; "CONTRIBUTING.md"; "PULL_REQUEST_TEMPLATE.md";
    "CODE_OF_CONDUCT.md"; ".github"; ".travis.yml"; "appveyor.yml"; "**/.git/**";
    "**/*.vsix"; "**/.DS_Store"; "**/*.vsixmanifest"; "**/.vscode-test/**" ].

(** The manifest, as a path and as a pattern. *)
Definition packageJson : string := "package.json".

(** [/\r$/m] *)
Definition reCarriageReturn : regex := RSeq (RChar Str.CR) REol.
(** [/^\s*#/] *)
Definition reComment : regex := RSeqs [RBol; RStar (RSet false [CSpace]); RChar "#"].
(** [/(^|\/)[^/]*\*[^/]*$/] *)
Definition reGlobName : regex :=
  RSeqs [RGroup 1 (RAlt RBol (RChar "/")); RStar (RSet true [CChar "/"]); RChar "*";
         RStar (RSet true [CChar "/"]); REol].
(** [/\/$/] *)
Definition reTrailingSlash : regex := RSeq (RChar "/") REol.
(** [/^\s*!/] *)
Definition reNegate : regex := RSeqs [RBol; RStar (RSet false [CSpace]); RChar "!"].

(** [s.split(/[\n\r]/)]: the separator is one character, so the pieces are
    the maximal runs between separators (an empty input gives one piece). *)
Fixpoint splitLines (s : string) : list string :=
  match s with
  | EmptyString => [EmptyString]
  | String c s' =>
      if Str.isLineTerminator c then EmptyString :: splitLines s'
      else match splitLines s' with
           | l :: ls => String c l :: ls
           | [] => [String c EmptyString]
           end
  end.

Fixpoint trimStart (s : string) : string :=
  match s with
  | String c s' => if Str.isWhite c then trimStart s' else s
  | EmptyString => s
  end.

Fixpoint trimEnd (s : string) : string :=
  match s with
  | String c s' =>
      match trimEnd s' with
      | EmptyString => if Str.isWhite c then EmptyString else String c EmptyString
      | t => String c t
      end
  | EmptyString => s
  end.

(** [s.trim()] *)
Definition trim (s : string) : string := trimEnd (trimStart s).

(** Parse raw ignore by splitting output into lines and filtering out empty
    lines and comments. *)
Definition parseIgnore (rawIgnore : string) : list string :=
  filter (fun i => negb (test noFlags reComment i))
    (filter Str.truthy (map trim (splitLines rawIgnore))).

(** Add '/**' to possible folder names. *)
Definition addFolders (ignore : list string) : list string :=
  ignore ++
  map (fun i => if test noFlags reTrailingSlash i then i +++ "**" else i +++ "/**")
      (filter (fun i => negb (test noFlags reGlobName i)) ignore).

(** Combine with default ignore list. *)
Definition allRules (rawIgnore : string) : list string :=
  defaultIgnore ++ addFolders (parseIgnore rawIgnore) ++ ["!package.json"].

(** Split into ignore and negate list ([_.partition]). *)
Definition isIgnore (i : string) : bool := negb (test noFlags reNegate i).

Definition ignoreOf (rawIgnore : string) : list string :=
  fst (partition isIgnore (allRules rawIgnore)).

Definition negateOf (rawIgnore : string) : list string :=
  snd (partition isIgnore (allRules rawIgnore)).

Section Collect.

(** [minimatch(f, pattern, MinimatchOptions)] *)
Variable minimatch : string -> string -> bool.

Definition excluded (ignore : list string) (f : string) : bool :=
  existsb (fun i => minimatch f i) ignore.

(** The negation marker is stripped with [i.substr(1)]. *)
Definition reincluded (negate : list string) (f : string) : bool :=
  existsb (fun i => minimatch f (Str.drop 1 i)) negate.

Definition keep (ignore negate : list string) (f : string) : bool :=
  negb (excluded ignore f) || reincluded negate f.

Definition hasCarriageReturn (f : string) : bool := test flagM reCarriageReturn f.

(** [collectFiles]: [files] is what [collectAllFiles] returned and [ign] the
    outcome of reading [.vscodeignore]. *)
Definition collectFiles (files : list string) (ign : readResult) : result (list string) :=
  let files := filter (fun f => negb (hasCarriageReturn f)) files in
  rawIgnore <- match ign with
               | FileContent s => OK s
               | NotFound => OK EmptyString
               | ReadError msg => Fatal msg
               end ;;
  let r := partition isIgnore (allRules rawIgnore) in
  OK (filter (keep (fst r) (snd r)) files).

End Collect.

(** The text after the last slash of a pattern. *)
Fixpoint lastSegment (s : string) : string :=
  match s with
  | EmptyString => EmptyString
  | String c s' =>
      if Str.mem "/" s' then lastSegment s'
      else if Ascii.eqb c "/" then s' else s
  end.

(** A bare folder name as a line of the ignore file: not empty, no line
    break, no white space at either end, neither a comment nor a negation,
    no trailing slash and no [*] after the last slash. *)
Definition bareName (d : string) : bool :=
  match d with
  | String c _ => negb (Str.isWhite c) && negb (Ascii.eqb c "#") && negb (Ascii.eqb c "!")
  | EmptyString => false
  end
  && Str.all (fun c => negb (Str.isLineTerminator c)) d
  && match Str.last d with
     | Some c => negb (Str.isWhite c) && negb (Ascii.eqb c "/")
     | None => false
     end
  && negb (Str.mem "*" (lastSegment d)).

End Ignore.

(* ================================================================== *)
(** ** The manifest and the files of a package *)

Module Manifest.

(** [manifest.repository] is a string, an object with an optional [url], or
    absent. *)
Inductive repositoryField : Type :=
| RepoAbsent
| RepoString (s : string)
| RepoObject (url : option string).

(** One entry of [localization.translations]. *)
Record Translation : Type := {
  id : string;
  path : option string
}.

(** One entry of [manifest.contributes.localizations]. *)
Record Localization : Type := {
  languageId : string;
  translations : list Translation
}.

(** The fields of [Manifest] that the processors below read. *)
Record t : Type := {
  repository : repositoryField;
  license : option string;
  icon : option string;
  localizations : option (list Localization)   (* contributes.localizations *)
}.

End Manifest.

Abbreviation Manifest := Manifest.t.

(** [IFile]: the path in the package and the text that [read(file)] gives. *)
Record IFile : Type := {
  path : string;
  contents : string
}.

(** [IAsset] *)
Record IAsset : Type := {
  a_type : string;
  a_path : string
}.

(** [IPackageOptions], the two base URLs. *)
Record IPackageOptions : Type := {
  o_baseContentUrl : option string;
  o_baseImagesUrl : option string
}.

(** Replacement of the first match by a fixed string ([s.replace(re, str)]
    for a regular expression without [g] and a string without [$]). *)
Definition replaceFirst (f : flags) (r : regex) (by_ : string) (s : string) : string :=
  match exec f r s with
  | Some m =>
      Str.take (index m) s +++ by_ +++ Str.drop (index m + String.length (matched m)) s
  | None => s
  end.

(** The capture of a group that takes part in every match. *)
Definition groupStr (i : nat) (m : match_result) : string :=
  match group i m with Some s => s | None => EmptyString end.

(* ================================================================== *)
(** ** The Markdown processor *)

Module Markdown.

(** The result of [guessBaseUrls]. *)
Record Guess : Type := {
  g_content : string;
  g_images : string;
  g_repository : string
}.

(** [/github\.com\/([^/]+)\/([^/]+)(\/|$)/] *)
Definition reGitHubPath : regex :=
  RSeqs [RLit "github.com/"; RGroup 1 (RPlus (RSet true [CChar "/"])); RChar "/";
         RGroup 2 (RPlus (RSet true [CChar "/"])); RGroup 3 (RAlt (RChar "/") REol)].
(** [/\.git$/i] *)
Definition reDotGit : regex := RSeq (RLit ".git") REol.
(** [/^https:\/\/github\.com\/|^git@github\.com:/] *)
Definition reGitHubRepository : regex :=
  RAlt (RSeq RBol (RLit "https://github.com/")) (RSeq RBol (RLit "git@github.com:")).
(** [/This is the README for your extension /] *)
Definition rePlaceholder : regex := RLit "This is the README for your extension ".
(** [/(!?)\[([^\]\[]*|!\[[^\]\[]*]\([^\)]+\))\]\(([^\)]+)\)/g] *)
Definition markdownPathRegex : regex :=
  RSeqs [RGroup 1 (ROpt (RChar "!")); RChar "[";
         RGroup 2 (RAlt (RStar (RSet true [CChar "]"; CChar "["]))
                        (RSeqs [RChar "!"; RChar "["; RStar (RSet true [CChar "]"; CChar "["]);
                                RChar "]"; RChar "("; RPlus (RSet true [CChar ")"]); RChar ")"]));
         RChar "]"; RChar "("; RGroup 3 (RPlus (RSet true [CChar ")"])); RChar ")"].
(** [/^\w+:\/\//] *)
Definition reScheme : regex := RSeqs [RBol; RPlus (RSet false [CWord]); RLit "://"].
(** [/(\s|\n)([\w\d_-]+\/[\w\d_-]+)?#(\d+)\b/g] *)
Definition markdownIssueRegex : regex :=
  RSeqs [RGroup 1 (RAlt (RSet false [CSpace]) (RChar Str.LF));
         ROpt (RGroup 2 (RSeqs [RPlus (RSet false [CWord; CDigit; CChar "_"; CChar "-"]);
                                RChar "/";
                                RPlus (RSet false [CWord; CDigit; CChar "_"; CChar "-"])]));
         RChar "#"; RGroup 3 (RPlus (RSet false [CDigit])); RWordB].
(** [/^data:$/i], [/^image$/i], [/\/svg/i], [/^https:$/i], [/\.svg$/i] *)
Definition reData : regex := RSeqs [RBol; RLit "data:"; REol].
Definition reImage : regex := RSeqs [RBol; RLit "image"; REol].
Definition reSlashSvg : regex := RLit "/svg".
Definition reHttps : regex := RSeqs [RBol; RLit "https:"; REol].
Definition reDotSvg : regex := RSeq (RLit ".svg") REol.
(** [/^extension\/readme.md$/i] and [/^extension\/changelog.md$/i]; the dot
    before [md] is not escaped. *)
Definition reReadme : regex := RSeqs [RBol; RLit "extension/readme"; RAny; RLit "md"; REol].
Definition reChangelog : regex := RSeqs [RBol; RLit "extension/changelog"; RAny; RLit "md"; REol].

(** [const TrustedSVGSources] *)
Definition TrustedSVGSources : list string :=
  [ "api.bintray.com"; "api.travis-ci.com"; "api.travis-ci.org"; "app.fossa.io";
    "badge.buildkite.com"; "badge.fury.io"; "badge.waffle.io"; "badgen.net";
    "badges.frapsoft.com"; "badges.gitter.im"; "badges.greenkeeper.io";
    "cdn.travis-ci.com"; "cdn.travis-ci.org"; "ci.appveyor.com"; "circleci.com";
    "cla.opensource.microsoft.com"; "codacy.com"; "codeclimate.com"; "codecov.io";
    "coveralls.io"; "david-dm.org"; "deepscan.io"; "dev.azure.com"; "docs.rs";
    "flat.badgen.net"; "gemnasium.com"; "githost.io"; "gitlab.com"; "godoc.org";
    "goreportcard.com"; "img.shields.io"; "isitmaintained.com";
    "marketplace.visualstudio.com"; "nodesecurity.io"; "opencollective.com"; "snyk.io";
    "travis-ci.com"; "travis-ci.org"; "visualstudio.com"; "vsmarketplacebadge.apphb.com";
    "www.bithound.io"; "www.versioneye.com" ].

(** [isGitHubRepository(repository)], with [repository || ''] *)
Definition isGitHubRepository (repository : option string) : bool :=
  test noFlags reGitHubRepository
    (match repository with Some s => s | None => EmptyString end).

(** [guessBaseUrls()] *)
Definition guessBaseUrls (manifest : Manifest) : option Guess :=
  let repo :=
    match Manifest.repository manifest with
    | Manifest.RepoString s => Some s
    | Manifest.RepoObject (Some url) => Some url
    | _ => None
    end in
  if negb (Str.truthyOpt repo) then None
  else
    match exec noFlags reGitHubPath (match repo with Some s => s | None => EmptyString end) with
    | None => None
    | Some m =>
        let account := groupStr 1 m in
        let repositoryName := replaceFirst flagI reDotGit "" (groupStr 2 m) in
        Some {| g_content := "https://github.com/" +++ account +++ "/" +++ repositoryName +++ "/blob/master";
                g_images := "https://github.com/" +++ account +++ "/" +++ repositoryName +++ "/raw/master";
                g_repository := "https://github.com/" +++ account +++ "/" +++ repositoryName |}
    end.

(** The fields of a [MarkdownProcessor]. *)
Record Processor : Type := {
  name : string;
  regexp : regex;                      (* always with the [i] flag *)
  assetType : string;
  baseContentUrl : option string;
  baseImagesUrl : option string;
  isGitHub : bool;
  repositoryUrl : option string
}.

(** [constructor(manifest, name, regexp, assetType, options)] *)
Definition mkProcessor (manifest : Manifest) (name : string) (regexp : regex)
  (assetType : string) (options : IPackageOptions) : Processor :=
  let guess := guessBaseUrls manifest in
  {| name := name;
     regexp := regexp;
     assetType := assetType;
     baseContentUrl := Str.orElse (o_baseContentUrl options) (option_map g_content guess);
     baseImagesUrl :=
       Str.orElse (o_baseImagesUrl options)
         (Str.orElse (o_baseContentUrl options) (option_map g_images guess));
     isGitHub := isGitHubRepository (option_map g_repository guess);
     repositoryUrl := option_map g_repository guess |}.

Definition ReadmeProcessor (manifest : Manifest) (options : IPackageOptions) : Processor :=
  mkProcessor manifest "README.md" reReadme
    "Microsoft.VisualStudio.Services.Content.Details" options.

Definition ChangelogProcessor (manifest : Manifest) (options : IPackageOptions) : Processor :=
  mkProcessor manifest "CHANGELOG.md" reChangelog
    "Microsoft.VisualStudio.Services.Content.Changelog" options.

(** [url.parse(src)], the fields that are read. *)
Record Url : Type := {
  u_protocol : option string;
  u_host : option string;
  u_path : option string;
  u_pathname : option string
}.

(** [re.test(x)] converts a [null] argument to the string [null]. *)
Definition strOf (o : option string) : string :=
  match o with Some s => s | None => "null" end.

(** [s.split('/', 2)] *)
Fixpoint splitSlash (s : string) : list string :=
  match s with
  | EmptyString => [EmptyString]
  | String c s' =>
      if Ascii.eqb c "/" then EmptyString :: splitSlash s'
      else match splitSlash s' with
           | p :: ps => String c p :: ps
           | [] => [String c EmptyString]
           end
  end.

Definition split2 (s : string) : list string := firstn 2 (splitSlash s).


Section Stage.

(** The libraries the processor calls. *)
Variable urljoin : list string -> string.          (* url-join *)
Variable normalize : string -> string.             (* util.normalize *)
(** The [src] attributes of the [img] elements of the rendered markdown
    ([markdown-it] with [html: true], then [cheerio]), in document order. *)
Variable imgSources : string -> list string.
(** Whether the rendered markdown has an [svg] element. *)
Variable hasSvgTag : string -> bool.
Variable decodeURI : string -> result string.
Variable urlParse : string -> Url.                 (* url.parse *)
Variable toLowerCase : string -> string.

Variable p : Processor.

Definition isLinkRelative (link : string) : bool :=
  negb (test noFlags reScheme link)
  && negb (match Str.head link with Some c => Ascii.eqb c "#" | None => false end).


Definition noBase : bool :=
  negb (Str.truthyOpt (baseContentUrl p)) && negb (Str.truthyOpt (baseImagesUrl p)).

Definition brokenMessage (isImage link : string) : string :=
  "Couldn't detect the repository where this extension is published. The "
  +++ (if Str.truthy isImage then "image" else "link") +++ " '" +++ link
  +++ "' will be broken in " +++ name p
  +++ ". Please provide the repository URL in package.json or use the --baseContentUrl and --baseImagesUrl options.".

(** [urlReplace(all, isImage, title, link)]; [rewriteTitle] is the recursive
    [title.replace(markdownPathRegex, urlReplace)]. *)
Definition urlReplace (rewriteTitle : string -> result string) (m : match_result)
  : result string :=
  let isImage := groupStr 1 m in
  let title := groupStr 2 m in
  let link := groupStr 3 m in
  let isRelative := isLinkRelative link in
  if noBase && isRelative then Fatal (brokenMessage isImage link)
  else
    title' <- rewriteTitle title ;;
    let prefix := if Str.truthy isImage then baseImagesUrl p else baseContentUrl p in
    if negb (Str.truthyOpt prefix) || negb isRelative then
      OK (isImage +++ "[" +++ title' +++ "](" +++ link +++ ")")
    else
      OK (isImage +++ "[" +++ title' +++ "](" +++ urljoin [strOf prefix; link] +++ ")").

(** The base URL of the category of a match: the image base for an image,
    the content base for a link. *)
Definition prefixOf (m : match_result) : option string :=
  if Str.truthy (groupStr 1 m) then baseImagesUrl p else baseContentUrl p.

(** [s.replace(markdownPathRegex, urlReplace)].  The recursion is on the
    title of a match, which is shorter than the text it was found in; [fuel]
    bounds the length of the text. *)
Fixpoint rewriteLinks (fuel : nat) (s : string) : result string :=
  match fuel with
  | 0 => OK s
  | S n => replace noFlags markdownPathRegex (urlReplace (rewriteLinks n)) s
  end.

(** Replace Markdown links with urls. *)
Definition replaceLinks (contents : string) : result string :=
  rewriteLinks (String.length contents) contents.

(** [issueReplace(all, prefix, ownerAndRepositoryName, issueNumber)] *)
Definition issueReplace (m : match_result) : string :=
  let all := matched m in
  let prefix := groupStr 1 m in
  let issueNumber := groupStr 3 m in
  let parts :=
    match group 2 m with
    | Some s => if Str.truthy s then split2 s else []
    | None => []
    end in
  let owner := nth_error parts 0 in
  let repositoryName := nth_error parts 1 in
  if isGitHub p then
    if Str.truthyOpt owner && Str.truthyOpt repositoryName && Str.truthy issueNumber then
      (* Issue in external repository *)
      let issueUrl :=
        urljoin ["https://github.com"; strOf owner; strOf repositoryName; "issues"; issueNumber] in
      prefix +++ "[" +++ strOf owner +++ "/" +++ strOf repositoryName +++ "#" +++ issueNumber
        +++ "](" +++ issueUrl +++ ")"
    else if negb (Str.truthyOpt owner) && negb (Str.truthyOpt repositoryName)
            && Str.truthy issueNumber then
      (* Issue in own repository *)
      prefix +++ "[#" +++ issueNumber +++ "]("
        +++ urljoin [strOf (repositoryUrl p); "issues"; issueNumber] +++ ")"
    else all
  else all.

(** Replace Markdown issue references with urls. *)
Definition replaceIssues (contents : string) : result string :=
  replace noFlags markdownIssueRegex (fun m => OK (issueReplace m)) contents.

(** [isHostTrusted(host)] over a list of trusted hosts; a [null] host makes
    [host.toLowerCase()] throw. *)
Definition isHostTrusted (trusted : list string) (host : option string) : result bool :=
  match host with
  | Some h => OK (existsb (String.eqb (toLowerCase h)) trusted)
  | None => Fatal "TypeError: Cannot read property 'toLowerCase' of null"
  end.

Definition isSvgDataUrl (u : Url) : bool :=
  test flagI reData (strOf (u_protocol u))
  && test flagI reImage (strOf (u_host u))
  && test flagI reSlashSvg (strOf (u_path u)).

(** An image source that decodes to an inline SVG data URL. *)
Definition isSvgDataImage (src : string) : bool :=
  match decodeURI src with
  | OK src' => isSvgDataUrl (urlParse src')
  | Fatal _ => false
  end.

(** The body of [$('img').each(...)] for one image. *)
Definition checkImage (trusted : list string) (src : string) : result unit :=
  src' <- decodeURI src ;;
  let srcUrl := urlParse src' in
  if isSvgDataUrl srcUrl then
    Fatal ("SVG data URLs are not allowed in " +++ name p +++ ": " +++ src')
  else if negb (test flagI reHttps (strOf (u_protocol srcUrl))) then
    Fatal ("Images in " +++ name p +++ " must come from an HTTPS source: " +++ src')
  else if test flagI reDotSvg (strOf (u_pathname srcUrl)) then
    t <- isHostTrusted trusted (u_host srcUrl) ;;
    if t then OK tt
    else Fatal ("SVGs are restricted in " +++ name p
                +++ "; please use other file image formats, such as PNG: " +++ src')
  else OK tt.

Fixpoint checkImages (trusted : list string) (srcs : list string) : result unit :=
  match srcs with
  | [] => OK tt
  | src :: srcs' => _ <- checkImage trusted src ;; checkImages trusted srcs'
  end.

(** The validation of the rendered text. *)
Definition validate (trusted : list string) (text : string) : result unit :=
  _ <- checkImages trusted (imgSources text) ;;
  if hasSvgTag text then Fatal ("SVG tags are not allowed in " +++ name p +++ ".")
  else OK tt.

(** [onFile(file)] with an explicit list of trusted hosts; the result is the
    file to pass on and the assets of the processor. *)
Definition onFileWith (trusted : list string) (assets : list IAsset) (file : IFile)
  : result (IFile * list IAsset) :=
  let normalizedPath := normalize (path file) in
  if negb (test flagI (regexp p) normalizedPath) then OK (file, assets)
  else
    let assets := assets ++ [{| a_type := assetType p; a_path := normalizedPath |}] in
    if test noFlags rePlaceholder (contents file) then
      Fatal "Make sure to edit the README.md file before you publish your extension."
    else
      text <- replaceLinks (contents file) ;;
      text <- replaceIssues text ;;
      _ <- validate trusted text ;;
      OK ({| path := path file; contents := text |}, assets).

Definition onFile : list IAsset -> IFile -> result (IFile * list IAsset) :=
  onFileWith TrustedSVGSources.

End Stage.

End Markdown.
(* ================================================================== *)
(** ** JavaScript objects used as maps

    An object keeps its string keys in the order of their first assignment,
    except that the keys that are array indices (canonical decimal numerals
    below 2^32 - 1) come first, in ascending order. *)

Module JsObject.

Definition t : Type := list (string * string).

(** [o[k] = v] *)
Fixpoint set (k v : string) (o : t) : t :=
  match o with
  | [] => [(k, v)]
  | (k', v') :: o' =>
      if String.eqb k k' then (k, v) :: o' else (k', v') :: set k v o'
  end.

(** [o[k]] *)
Fixpoint get (k : string) (o : t) : option string :=
  match o with
  | [] => None
  | (k', v') :: o' => if String.eqb k k' then Some v' else get k o'
  end.

Fixpoint decimal (acc : N) (s : string) : N :=
  match s with
  | EmptyString => acc
  | String c s' => decimal (acc * 10 + N.of_nat (nat_of_ascii c - 48)) s'
  end.

(** The number a key stands for when it is an array index. *)
Definition arrayIndex (k : string) : option N :=
  match k with
  | EmptyString => None
  | String c rest =>
      if Str.all Str.isDigit k
         && (negb (Ascii.eqb c "0") || negb (Str.truthy rest))
         && N.leb (decimal 0 k) 4294967294
      then Some (decimal 0 k)
      else None
  end.

Fixpoint insertIndex (n : N) (k : string) (l : list (N * string)) : list (N * string) :=
  match l with
  | [] => [(n, k)]
  | (n', k') :: l' =>
      if N.leb n n' then (n, k) :: l else (n', k') :: insertIndex n k l'
  end.

Fixpoint indexKeys (o : t) : list (N * string) :=
  match o with
  | [] => []
  | (k, _) :: o' =>
      match arrayIndex k with
      | Some n => insertIndex n k (indexKeys o')
      | None => indexKeys o'
      end
  end.

(** [Object.keys(o)] *)
Definition keys (o : t) : list string :=
  map snd (indexKeys o)
  ++ map fst (filter (fun kv => match arrayIndex (fst kv) with Some _ => false | None => true end) o).

End JsObject.

(* ================================================================== *)
(** ** The License processor *)

(** [escapeRegExp(string)]: a backslash before each of [.*+?^${}()|[]\].
    The License processor does not call it. *)
Fixpoint escapeRegExp (s : string) : string :=
  match s with
  | EmptyString => EmptyString
  | String c s' =>
      if Str.mem c ".*+?^${}()|[]\" then String "\" (String c (escapeRegExp s'))
      else String c (escapeRegExp s')
  end.

Module License.

(** The literal [/^SEE LICENSE IN (X)$/] where [X] is [.] followed by a star:
    group 1 is the rest of the line. *)
Definition reSeeLicense : regex :=
  RSeqs [RBol; RLit "SEE LICENSE IN "; RGroup 1 (RStar RAny); REol].
(** [/^extension\/license(\.(md|txt))?$/i] *)
Definition reDefaultLicense : regex :=
  RSeqs [RBol; RLit "extension/license";
         ROpt (RGroup 1 (RSeq (RChar ".") (RGroup 2 (RAlt (RLit "md") (RLit "txt")))));
         REol].

Record State : Type := {
  filter : string -> bool;
  didFindLicense : bool;
  assets : list IAsset;
  vsixLicense : option string                 (* vsix.license *)
}.

Section Stage.

Variable newRegExp : string -> result regex.       (* new RegExp(text) *)
Variable normalize : string -> string.             (* util.normalize *)
Variable extname : string -> string.               (* path.extname *)

(** The [filter] that the constructor sets up; [new RegExp] may throw. *)
Definition licenseFilter (manifest : Manifest) : result (string -> bool) :=
  match exec noFlags reSeeLicense
          (match Manifest.license manifest with Some s => s | None => EmptyString end) with
  | Some m =>
      if Str.truthyOpt (group 1 m) then
        regexp <- newRegExp ("^extension/" +++ groupStr 1 m +++ "$") ;;
        OK (test noFlags regexp)
      else OK (test flagI reDefaultLicense)
  | None => OK (test flagI reDefaultLicense)
  end.

(** [constructor(manifest)] *)
Definition init (manifest : Manifest) : result State :=
  f <- licenseFilter manifest ;;
  OK {| filter := f; didFindLicense := false; assets := []; vsixLicense := None |}.

(** [onFile(file)] *)
Definition onFile (st : State) (file : IFile) : State * IFile :=
  if negb (didFindLicense st) then
    let normalizedPath := normalize (path file) in
    if filter st normalizedPath then
      let noExtension := negb (Str.truthy (extname normalizedPath)) in
      let file' :=
        if noExtension then {| path := path file +++ ".txt"; contents := contents file |}
        else file in
      let normalizedPath' :=
        if noExtension then normalizedPath +++ ".txt" else normalizedPath in
      ({| filter := filter st;
          didFindLicense := true;
          assets := assets st
                    ++ [{| a_type := "Microsoft.VisualStudio.Services.Content.License";
                           a_path := normalizedPath' |}];
          vsixLicense := Some normalizedPath' |}, file')
    else (st, file)
  else (st, file).

End Stage.

End License.

(* ================================================================== *)
(** ** The Icon processor *)

Module Icon.

Record State : Type := {
  icon : option string;
  didFindIcon : bool;
  assets : list IAsset;
  vsixIcon : option string                    (* vsix.icon *)
}.

(** [constructor(manifest)]: an empty [manifest.icon] counts as absent. *)
Definition init (manifest : Manifest) : State :=
  {| icon := match Manifest.icon manifest with
             | Some i => if Str.truthy i then Some ("extension/" +++ i) else None
             | None => None
             end;
     didFindIcon := false;
     assets := [];
     vsixIcon := None |}.

Definition iconAsset (normalizedPath : string) : IAsset :=
  {| a_type := "Microsoft.VisualStudio.Services.Icons.Default"; a_path := normalizedPath |}.

Section Stage.

Variable normalize : string -> string.             (* util.normalize *)

(** The normalized virtual paths of the included files. *)
Definition pathsOf (files : list IFile) : list string :=
  map (fun file => normalize (path file)) files.

(** [normalizedPath === this.icon] *)
Definition isIcon (st : State) (normalizedPath : string) : bool :=
  match icon st with
  | Some i => String.eqb normalizedPath i
  | None => false
  end.

(** [onFile(file)] *)
Definition onFile (st : State) (file : IFile) : State * IFile :=
  let normalizedPath := normalize (path file) in
  if isIcon st normalizedPath then
    ({| icon := icon st;
        didFindIcon := true;
        assets := assets st ++ [iconAsset normalizedPath];
        vsixIcon := icon st |}, file)
  else (st, file).

(** [onEnd()] *)
Definition onEnd (st : State) : result unit :=
  if Str.truthyOpt (icon st) && negb (didFindIcon st) then
    Fatal ("The specified icon '" +++ Markdown.strOf (icon st)
           +++ "' wasn't found in the extension.")
  else OK tt.

(** The state after every included file went through [onFile]
    ([processFiles] sends each file through the processors before any
    [onEnd] runs).  The files are taken in the order of the list; another
    order of arrival changes neither [didFindIcon] nor the assets, which are
    all the same asset. *)
Definition processed (manifest : Manifest) (files : list IFile) : State :=
  fold_left (fun st file => fst (onFile st file)) files (init manifest).

End Stage.

End Icon.

(* ================================================================== *)
(** ** The Localization processor *)

Module NLS.

(** [/^\.[\/\\]/] *)
Definition reDotSlash : regex := RSeqs [RBol; RChar "."; RSet false [CChar "/"; CChar "\"]].

Record State : Type := {
  translations : JsObject.t;                  (* path -> language *)
  assets : list IAsset
}.

Section Stage.

Variable normalize : string -> string.             (* util.normalize *)
Variable toUpperCase : string -> string.

(** The path that is stored for [translation.path]. *)
Definition translationPath (p : string) : string :=
  "extension/" +++ normalize (replaceFirst noFlags reDotSlash "" p).

(** The assignments [translations[languageId] = path] of the two loops, in
    the order in which they are made. *)
Definition assignments (localizations : list Manifest.Localization)
  : list (string * string) :=
  flat_map
    (fun localization =>
       flat_map
         (fun translation =>
            if String.eqb (Manifest.id translation) "vscode"
               && Str.truthyOpt (Manifest.path translation)
            then [(toUpperCase (Manifest.languageId localization),
                   translationPath (Markdown.strOf (Manifest.path translation)))]
            else [])
         (Manifest.translations localization))
    localizations.

(** The local [translations]: language -> path, the last reference wins. *)
Definition byLanguage (manifest : Manifest) : JsObject.t :=
  match Manifest.localizations manifest with
  | None => []
  | Some ls => fold_left (fun o kv => JsObject.set (fst kv) (snd kv) o) (assignments ls) []
  end.

(** Invert the map: [this.translations[translations[languageId]] = languageId]. *)
Definition invert (langs : JsObject.t) : JsObject.t :=
  fold_left
    (fun o languageId =>
       match JsObject.get languageId langs with
       | Some p => JsObject.set p languageId o
       | None => o
       end)
    (JsObject.keys langs) [].

(** [constructor(manifest)] *)
Definition init (manifest : Manifest) : State :=
  {| translations := invert (byLanguage manifest); assets := [] |}.

Definition translationAsset (language normalizedPath : string) : IAsset :=
  {| a_type := "Microsoft.VisualStudio.Code.Translation." +++ language;
     a_path := normalizedPath |}.

(** [onFile(file)] *)
Definition onFile (st : State) (file : IFile) : State * IFile :=
  let normalizedPath := normalize (path file) in
  match JsObject.get normalizedPath (translations st) with
  | Some language =>
      if Str.truthy language then
        ({| translations := translations st;
            assets := assets st ++ [translationAsset language normalizedPath] |}, file)
      else (st, file)
  | None => (st, file)
  end.

(** The asset that [onFile] adds for a file, if any. *)
Definition assetOf (tr : JsObject.t) (file : IFile) : list IAsset :=
  match JsObject.get (normalize (path file)) tr with
  | Some language =>
      if Str.truthy language then [translationAsset language (normalize (path file))]
      else []
  | None => []
  end.

(** The state after every included file went through [onFile], the files
    taken in the order of the list; the properties below speak of the assets
    as a set. *)
Definition processed (manifest : Manifest) (files : list IFile) : State :=
  fold_left (fun st file => fst (onFile st file)) files (init manifest).

(** The last path declared for a language, among the translations with id
    [vscode] and a path. *)
Fixpoint lastFor (language : string) (l : list (string * string)) : option string :=
  match l with
  | [] => None
  | (k, v) :: l' =>
      match lastFor language l' with
      | Some p => Some p
      | None => if String.eqb language k then Some v else None
      end
  end.

Definition lastDeclared (manifest : Manifest) (language : string) : option string :=
  match Manifest.localizations manifest with
  | None => None
  | Some ls => lastFor language (assignments ls)
  end.

End Stage.

End NLS.
(* ================================================================== *)
(** ** Library functions (models for the closed examples)

    The processors call functions that are not part of [package.ts].  The
    theorems quantify over them; the closed examples use these models. *)

Module Lib.

(** Modelled from the spec: "Virtual paths are forward-slash".
    [util.normalize] lives in [util.ts], which is not among the sources; the
    model turns every backslash into a slash. *)
Fixpoint normalize (s : string) : string :=
  match s with
  | EmptyString => EmptyString
  | String c s' => String (if Ascii.eqb c "\" then "/"%char else c) (normalize s')
  end.

(** [url-join] on parts that carry no slash where they meet. *)
Definition urljoin (parts : list string) : string := String.concat "/" parts.

Fixpoint mapChars (g : ascii -> ascii) (s : string) : string :=
  match s with
  | EmptyString => EmptyString
  | String c s' => String (g c) (mapChars g s')
  end.

(** [toLowerCase] and [toUpperCase] on the letters a-z and A-Z. *)
Definition toLowerCase : string -> string := mapChars Str.lowerChar.
Definition toUpperCase : string -> string := mapChars Str.upperChar.

(** [path.extname] on a path whose last segment has a dot after its first
    character, and on a path without a dot in its last segment. *)
Fixpoint lastDot (s : string) : option string :=
  match s with
  | EmptyString => None
  | String c s' =>
      match lastDot s' with
      | Some e => Some e
      | None => if Ascii.eqb c "." then Some s else None
      end
  end.

Definition extname (p : string) : string :=
  match Ignore.lastSegment p with
  | String c rest => match lastDot rest with Some e => e | None => EmptyString end
  | EmptyString => EmptyString
  end.

(** [decodeURI] on a string without escape sequences. *)
Definition decodeURI (s : string) : result string := OK s.

(** The images of a document that writes them as HTML tags [<img src='..'>]
    with a single-quoted [src] (markdown-it passes HTML through); the group
    is the text between the quotes. *)
Definition reImgTag : regex :=
  RSeqs [RLit "<img src='"; RGroup 1 (RStar (RSet true [CChar "'"])); RChar "'"].

Definition imgSources (text : string) : list string :=
  map (fun m => match group 1 m with Some s => s | None => EmptyString end)
      (matchAll noFlags reImgTag text).

(** [/<svg/]: a literal [svg] tag. *)
Definition hasSvgTag (text : string) : bool := test noFlags (RLit "<svg") text.

(** Protocol (letters, digits, [.+-] up to the colon), an optional [//],
    the host (up to a slash, [?] or [#]), the path name (up to [?] or [#])
    and the query of a URL, far enough for [scheme:host/path?query]. *)
Definition reUrl : regex :=
  RSeqs [RBol;
         RGroup 1 (RSeq (RPlus (RSet false [CRange "a" "z"; CDigit; CChar "."; CChar "+"; CChar "-"]))
                        (RChar ":"));
         ROpt (RGroup 2 (RLit "//"));
         RGroup 3 (RStar (RSet true [CChar "/"; CChar "?"; CChar "#"]));
         RGroup 4 (RStar (RSet true [CChar "?"; CChar "#"]));
         RGroup 5 (RStar (RSet true [CChar "#"]))].

(** [url.parse] on [scheme:host/path?query]; a string without a scheme is
    all path. *)
Definition urlParse (s : string) : Markdown.Url :=
  match exec flagI reUrl s with
  | Some m =>
      {| Markdown.u_protocol := option_map toLowerCase (group 1 m);
         Markdown.u_host := option_map toLowerCase (group 3 m);
         Markdown.u_path := Some (groupStr 4 m +++ groupStr 5 m);
         Markdown.u_pathname := group 4 m |}
  | None =>
      {| Markdown.u_protocol := None;
         Markdown.u_host := None;
         Markdown.u_path := Some s;
         Markdown.u_pathname := Some s |}
  end.

End Lib.
(* ================================================================== *)
(** ** Sample inputs of the closed examples *)

Module Sample.

Definition lineFeed : string := String Str.LF "".
Definition carriageReturn : string := String Str.CR "".

Definition manifestOf (r : Manifest.repositoryField) : Manifest :=
  {| Manifest.repository := r; Manifest.license := None; Manifest.icon := None;
     Manifest.localizations := None |}.

Definition noOptions : IPackageOptions :=
  {| o_baseContentUrl := None; o_baseImagesUrl := None |}.


Definition gitHubManifest : Manifest :=
  manifestOf (Manifest.RepoString "https://github.com/me/repo.git").


Definition readmeWithSvgData : IFile :=
  {| path := "extension/README.md";
     contents := "<img src='data:image/svg+xml;base64,AAAA'>" |}.

Definition iconManifest : Manifest :=
  {| Manifest.repository := Manifest.RepoAbsent; Manifest.license := None;
     Manifest.icon := Some "images/icon.png"; Manifest.localizations := None |}.

Definition fileAt (p : string) : IFile := {| path := p; contents := "" |}.

Definition iconFiles : list IFile :=
  [fileAt "extension/package.json"; fileAt "extension\images\icon.png";
   fileAt "extension/README.md"].

(** A language pack for German: the translation of the product itself
    ([vscode]) and, declared after it, the translation of an extension. *)
Definition germanManifest : Manifest :=
  {| Manifest.repository := Manifest.RepoAbsent; Manifest.license := None;
     Manifest.icon := None;
     Manifest.localizations :=
       Some [{| Manifest.languageId := "de";
                Manifest.translations :=
                  [{| Manifest.id := "vscode";
                      Manifest.path := Some "./translations/main.i18n.json" |};
                   {| Manifest.id := "vscode.git";
                      Manifest.path := Some "./translations/git.i18n.json" |}] |}] |}.

Definition germanFiles : list IFile :=
  [fileAt "extension/translations/main.i18n.json";
   fileAt "extension/translations/git.i18n.json"].

Definition seeLicenseManifest : Manifest :=
  {| Manifest.repository := Manifest.RepoAbsent;
     Manifest.license := Some "SEE LICENSE IN LICENSE.md";
     Manifest.icon := None; Manifest.localizations := None |}.


End Sample.
(* ================================================================== *)
(** ** Text helpers: literal text, global replacement, list helpers *)

Module Text.

(** One character of the input against a literal character of a pattern. *)
Definition charOk (ic : bool) (a c : ascii) : bool := class_ok ic false [CChar a] c.

(** The input [w] reads as the literal [a], up to case with the [i] flag. *)
Fixpoint same (ic : bool) (a w : string) : bool :=
  match a, w with
  | EmptyString, EmptyString => true
  | String x a', String c w' => charOk ic x c && same ic a' w'
  | _, _ => false
  end.

(** The characters of [s] that satisfy [p], in order. *)
Fixpoint keep (p : ascii -> bool) (s : string) : string :=
  match s with
  | EmptyString => EmptyString
  | String c s' => if p c then String c (keep p s') else keep p s'
  end.

(** The number of occurrences of [c] in [s]. *)
Fixpoint count (c : ascii) (s : string) : nat :=
  match s with
  | EmptyString => 0
  | String d s' => (if Ascii.eqb c d then 1 else 0) + count c s'
  end.

(** [s.replace(re, by)] for a regular expression with the [g] flag and a
    replacement string without [$]. *)
Definition replaceAll (f : flags) (r : regex) (by_ : string) (s : string) : string :=
  match replace f r (fun _ => OK by_) s with
  | OK t => t
  | Fatal _ => s
  end.

(** [a.join(sep)] on an array of strings. *)
Definition join (sep : string) (l : list string) : string := String.concat sep l.

Definition optEqb (a b : option string) : bool :=
  match a, b with
  | Some x, Some y => String.eqb x y
  | None, None => true
  | _, _ => false
  end.

(** [_.uniq]: the first occurrence of each value, in the order of the
    array; [seen] holds the values met so far. *)
Fixpoint uniqFrom {A : Type} (eqb : A -> A -> bool) (seen l : list A) : list A :=
  match l with
  | [] => []
  | x :: l' =>
      if existsb (eqb x) seen then uniqFrom eqb seen l'
      else x :: uniqFrom eqb (x :: seen) l'
  end.

Definition uniq {A : Type} (eqb : A -> A -> bool) (l : list A) : list A :=
  uniqFrom eqb [] l.

(** [_.compact] on strings and [undefined]: the truthy values. *)
Fixpoint compact (l : list (option string)) : list string :=
  match l with
  | [] => []
  | Some s :: l' => if Str.truthy s then s :: compact l' else compact l'
  | None :: l' => compact l'
  end.

(** [l || []] *)
Definition orNil {A : Type} (l : option (list A)) : list A :=
  match l with Some x => x | None => [] end.

(** [Promise.all] on promises that are settled: the values, or the first
    rejection. *)
Fixpoint allOK {A : Type} (l : list (result A)) : result (list A) :=
  match l with
  | [] => OK []
  | r :: l' => x <- r ;; xs <- allOK l' ;; OK (x :: xs)
  end.

(** An object has each of its keys once. *)
Definition wf (o : JsObject.t) : Prop := NoDup (map fst o).

End Text.

(** A badge of the manifest; only [url] is read. *)
Record Badge : Type := {
  b_url : string;
  b_href : string;
  b_description : string
}.

(* ================================================================== *)
(** ** Repository URLs: [getUrl] and [getRepositoryUrl] *)

(** [/^[^\/]+\/[^\/]+$/] *)
Definition reShorthand : regex :=
  RSeqs [RBol; RPlus (RSet true [CChar "/"]); RChar "/"; RPlus (RSet true [CChar "/"]); REol].

(** [getUrl(url)]: [None] stands for [null] and [undefined]. *)
Definition getUrl (url : Manifest.repositoryField) : option string :=
  match url with
  | Manifest.RepoAbsent => None
  | Manifest.RepoString s => if Str.truthy s then Some s else None
  | Manifest.RepoObject u => u
  end.

(** [getRepositoryUrl(url)]; [test] reads a missing value as a word without
    a slash. *)
Definition getRepositoryUrl (url : Manifest.repositoryField) : option string :=
  let result := getUrl url in
  if test noFlags reShorthand (Markdown.strOf result) then
    Some ("https://github.com/" +++ Markdown.strOf result +++ ".git")
  else result.

(** The base URLs of the account [A] and the repository [R] on GitHub, as
    [guessBaseUrls] builds them. *)
Definition basesOf (A R : string) : Markdown.Guess :=
  {| Markdown.g_content := "https://github.com/" +++ A +++ "/" +++ R +++ "/blob/master";
     Markdown.g_images := "https://github.com/" +++ A +++ "/" +++ R +++ "/raw/master";
     Markdown.g_repository := "https://github.com/" +++ A +++ "/" +++ R |}.

(* ================================================================== *)
(** ** The Manifest processor *)

Module ManifestProcessor.

(** [manifest.qna]: a string, a boolean, or absent. *)
Inductive qnaField : Type :=
| QnaAbsent
| QnaString (s : string)
| QnaBool (b : bool).

(** An entry of [contributes.localizations], the names. *)
Record LocalizationName : Type := {
  localizedLanguageName : option string;
  languageName : option string;
  languageId : string
}.

(** The fields of [Manifest] that the processor reads. *)
Record Input : Type := {
  name : option string;
  displayName : option string;
  version : option string;
  publisher : option string;
  engines : option JsObject.t;
  description : option string;
  categories : option (list string);
  preview : bool;                               (* truthiness of [preview] *)
  repository : Manifest.repositoryField;
  bugs : Manifest.repositoryField;
  homepage : option string;
  galleryBanner : option JsObject.t;
  badges : option (list Badge);
  markdown : option string;
  qna : qnaField;
  extensionDependencies : option (list string);
  extensionPack : option (list string);
  localizations : option (list LocalizationName)    (* contributes.localizations *)
}.

Record Links : Type := {
  l_repository : option string;
  l_bugs : option string;
  l_homepage : option string;
  l_github : option string
}.

(** [this.vsix] *)
Record Vsix : Type := {
  v_id : option string;
  v_displayName : option string;
  v_version : option string;
  v_publisher : option string;
  v_engine : option string;
  v_description : string;
  v_categories : string;
  v_flags : string;
  v_links : Links;
  v_galleryBanner : JsObject.t;
  v_badges : option (list Badge);
  v_githubMarkdown : bool;
  v_enableMarketplaceQnA : option bool;
  v_customerQnALink : option string;
  v_extensionDependencies : string;
  v_extensionPack : string;
  v_localizedLanguages : string
}.

(** [loc.localizedLanguageName || loc.languageName || loc.languageId] *)
Definition localizedName (loc : LocalizationName) : string :=
  match Str.orElse (localizedLanguageName loc) (languageName loc) with
  | Some s => if Str.truthy s then s else languageId loc
  | None => languageId loc
  end.

(** [/^y$/i] *)
Definition reYes : regex := RSeqs [RBol; RChar "y"; REol].

(** [constructor(manifest)]; reading [engines['vscode']] of a manifest
    without [engines] throws. *)
Definition init (manifest : Input) : result Vsix :=
  let flags := ["Public"] ++ (if preview manifest then ["Preview"] else []) in
  let repository := getRepositoryUrl (repository manifest) in
  let isGitHub := Markdown.isGitHubRepository repository in
  let enableMarketplaceQnA :=
    match qna manifest with
    | QnaString s => if String.eqb s "marketplace" then Some true else None
    | QnaBool false => Some false
    | _ => None
    end in
  let customerQnALink :=
    match qna manifest with
    | QnaString s => if String.eqb s "marketplace" then None else Some s
    | _ => None
    end in
  match engines manifest with
  | None => Fatal "TypeError: Cannot read property 'vscode' of undefined"
  | Some engines =>
      OK {| v_id := name manifest;
            v_displayName := Str.orElse (displayName manifest) (name manifest);
            v_version := version manifest;
            v_publisher := publisher manifest;
            v_engine := JsObject.get "vscode" engines;
            v_description :=
              match description manifest with
              | Some d => d
              | None => EmptyString
              end;
            v_categories := Text.join "," (Text.orNil (categories manifest));
            v_flags := Text.join " " flags;
            v_links := {| l_repository := repository;
                          l_bugs := getUrl (bugs manifest);
                          l_homepage := homepage manifest;
                          l_github := if isGitHub then repository else None |};
            v_galleryBanner :=
              match galleryBanner manifest with
              | Some b => b
              | None => []
              end;
            v_badges := badges manifest;
            v_githubMarkdown :=
              negb (Text.optEqb (markdown manifest) (Some "standard"));
            v_enableMarketplaceQnA := enableMarketplaceQnA;
            v_customerQnALink := customerQnALink;
            v_extensionDependencies :=
              Text.join "," (Text.uniq String.eqb (Text.orNil (extensionDependencies manifest)));
            v_extensionPack :=
              Text.join "," (Text.uniq String.eqb (Text.orNil (extensionPack manifest)));
            v_localizedLanguages :=
              match localizations manifest with
              | Some locs => Text.join "," (map localizedName locs)
              | None => EmptyString
              end |}
  end.

(** [!this.manifest.repository] *)
Definition noRepository (manifest : Input) : bool :=
  match repository manifest with
  | Manifest.RepoAbsent => true
  | Manifest.RepoString s => negb (Str.truthy s)
  | Manifest.RepoObject _ => false
  end.

Section Prompt.

(** [util.read(prompt)]: the answer typed at the prompt. *)
Variable read : string -> result string.

(** [onEnd()]; the warning that is logged is not part of the result. *)
Definition onEnd (manifest : Input) : result unit :=
  if Text.optEqb (publisher manifest) (Some "vscode-samples") then
    Fatal "It's not allowed to use the 'vscode-samples' publisher. Learn more at: https://code.visualstudio.com/api/working-with-extensions/publishing-extension."
  else if noRepository manifest then
    answer <- read "Do you want to continue? [y/N] " ;;
    if negb (test flagI reYes answer) then Fatal "Aborted" else OK tt
  else OK tt.

End Prompt.

End ManifestProcessor.
(* ================================================================== *)
(** ** The Tags processor *)

(** [/\W/g] *)
Definition reNonWord : regex := RSet true [CWord].

(** [toExtensionTags(extensions)] *)
Definition toExtensionTags (extensions : list string) : list string :=
  map (fun s => "__ext_" +++ s)
    (filter Str.truthy
       (map (fun s => Text.replaceAll noFlags reNonWord "" s) extensions)).

(** [toLanguagePackTags(translations, languageId)] *)
Definition toLanguagePackTags (translations : option (list Manifest.Translation))
  (languageId : string) : list string :=
  fold_left (fun r t => r ++ t)
    (map (fun translation =>
            ["__lp_" +++ Manifest.id translation;
             "__lp-" +++ languageId +++ "_" +++ Manifest.id translation])
       (match translations with Some ts => ts | None => [] end))
    [].

Module Tags.

(** An entry of [contributes.languages]. *)
Record Language : Type := {
  l_id : string;
  l_aliases : option (list string);
  l_extensions : option (list string)
}.

(** An entry of [contributes.localizations]. *)
Record Localization : Type := {
  languageId : string;
  translations : option (list Manifest.Translation)
}.

(** [manifest.contributes]; of the first six arrays only the length is
    read, and of a grammar only its [language], which may be missing. *)
Record Contributes : Type := {
  themes : option nat;
  iconThemes : option nat;
  snippets : option nat;
  keybindings : option nat;
  debuggers : option nat;
  jsonValidation : option nat;
  localizations : option (list Localization);
  languages : option (list Language);
  grammars : option (list (option string))
}.

(** The fields of [Manifest] that the processor reads. *)
Record Input : Type := {
  keywords : option (list string);
  contributes : option Contributes;
  activationEvents : option (list string);
  description : option string
}.

(** [TagsProcessor.Keywords], in the order of its keys. *)
Definition Keywords : list (string * list string) :=
  [ ("git", ["git"]); ("npm", ["node"]); ("spell", ["markdown"]);
    ("bootstrap", ["bootstrap"]); ("lint", ["linters"]); ("linting", ["linters"]);
    ("react", ["javascript"]); ("js", ["javascript"]); ("node", ["javascript"; "node"]);
    ("c++", ["c++"]); ("Cplusplus", ["c++"]); ("xml", ["xml"]);
    ("angular", ["javascript"]); ("jquery", ["javascript"]); ("php", ["php"]);
    ("python", ["python"]); ("latex", ["latex"]); ("ruby", ["ruby"]); ("java", ["java"]);
    ("erlang", ["erlang"]); ("sql", ["sql"]); ("nodejs", ["node"]); ("c#", ["c#"]);
    ("css", ["css"]); ("javascript", ["javascript"]); ("ftp", ["ftp"]);
    ("haskell", ["haskell"]); ("unity", ["unity"]); ("terminal", ["terminal"]);
    ("powershell", ["powershell"]); ("laravel", ["laravel"]); ("meteor", ["meteor"]);
    ("emmet", ["emmet"]); ("eslint", ["linters"]); ("tfs", ["tfs"]); ("rust", ["rust"]) ].

(** The literal [/^onLanguage:(X)$/] where [X] is [.] followed by a star. *)
Definition reOnLanguage : regex :=
  RSeqs [RBol; RLit "onLanguage:"; RGroup 1 (RStar RAny); REol].

(** [doesContribute(name)], for the array that [select] reads. *)
Definition doesContribute (contributes : option Contributes)
  (select : Contributes -> option nat) : bool :=
  match contributes with
  | Some c => match select c with Some n => 0 <? n | None => false end
  | None => false
  end.

(** [(contributes && contributes[name]) || []] *)
Definition contributed {A : Type} (contributes : option Contributes)
  (select : Contributes -> option (list A)) : list A :=
  match contributes with
  | Some c => Text.orNil (select c)
  | None => []
  end.

Section Stage.

(** [new RegExp(source, flags).test(s)] *)
Variable regExpTest : string -> string -> string -> bool.

Definition localizationContributions (manifest : Input) : list string :=
  fold_left
    (fun r l => r ++ ["lp-" +++ languageId l]
                  ++ toLanguagePackTags (translations l) (languageId l))
    (contributed (contributes manifest) localizations) [].

Definition languageContributions (manifest : Input) : list string :=
  fold_left
    (fun r l => r ++ [l_id l] ++ Text.orNil (l_aliases l)
                  ++ toExtensionTags (Text.orNil (l_extensions l)))
    (contributed (contributes manifest) languages) [].

Definition languageActivations (manifest : Input) : list string :=
  flat_map
    (fun e => match exec noFlags reOnLanguage e with
              | Some r => [groupStr 1 r]
              | None => []
              end)
    (Text.orNil (activationEvents manifest)).

(** The pattern compiled for the key [k]. *)
Definition keywordPattern (k : string) : string :=
  "\b(?:" +++ escapeRegExp k +++ ")(?!\w)".

Definition descriptionKeywords (manifest : Input) : list string :=
  let description :=
    match description manifest with Some d => d | None => EmptyString end in
  fold_left
    (fun r k => r ++ (if regExpTest (keywordPattern (fst k)) "gi" description
                      then snd k else []))
    Keywords [].

(** The array [tags] before it is cleaned. *)
Definition tags (manifest : Input) : list (option string) :=
  let contributes := contributes manifest in
  map Some (Text.orNil (keywords manifest))
  ++ map Some (if doesContribute contributes themes then ["theme"; "color-theme"] else [])
  ++ map Some (if doesContribute contributes iconThemes then ["theme"; "icon-theme"] else [])
  ++ map Some (if doesContribute contributes snippets then ["snippet"] else [])
  ++ map Some (if doesContribute contributes keybindings then ["keybindings"] else [])
  ++ map Some (if doesContribute contributes debuggers then ["debuggers"] else [])
  ++ map Some (if doesContribute contributes jsonValidation then ["json"] else [])
  ++ map Some (localizationContributions manifest)
  ++ map Some (languageContributions manifest)
  ++ map Some (languageActivations manifest)
  ++ contributed contributes grammars
  ++ map Some (descriptionKeywords manifest).

(** The tags once deduplicated and without falsy values. *)
Definition cleanTags (manifest : Input) : list string :=
  Text.compact (Text.uniq Text.optEqb (tags manifest)).

(** [onEnd()]: the value of [vsix.tags]. *)
Definition onEnd (manifest : Input) : string :=
  Text.join "," (cleanTags manifest).

End Stage.

End Tags.
(* ================================================================== *)
(** ** [validateManifest] *)

Module Validation.

(** The fields of [Manifest] that [validateManifest] reads. *)
Record Input : Type := {
  publisher : option string;
  name : option string;
  version : option string;
  engines : option JsObject.t;
  devDependencies : option JsObject.t;
  icon : option string;
  badges : option (list Badge);
  dependencies : option JsObject.t
}.

(** [manifest.engines['vscode']], and the same for a development
    dependency. *)
Definition entry (k : string) (o : option JsObject.t) : option string :=
  match o with
  | Some o' => JsObject.get k o'
  | None => None
  end.

Section Validate.

(** The checks of [validation.ts]. *)
Variable validatePublisher : option string -> result unit.
Variable validateExtensionName : option string -> result unit.
Variable validateVersion : string -> result unit.
Variable validateEngineCompatibility : string -> result unit.
Variable validateVSCodeTypesCompatibility : string -> string -> result unit.
Variable decodeURI : string -> result string.
Variable urlParse : string -> Markdown.Url.            (* url.parse *)
Variable toLowerCase : string -> string.

(** The body of [badges.forEach] for one badge. *)
Definition checkBadge (trusted : list string) (badge : Badge) : result unit :=
  decodedUrl <- decodeURI (b_url badge) ;;
  let srcUrl := urlParse decodedUrl in
  if negb (test flagI Markdown.reHttps (Markdown.strOf (Markdown.u_protocol srcUrl))) then
    Fatal ("Badge URLs must come from an HTTPS source: " +++ b_url badge)
  else if test flagI Markdown.reDotSvg (Markdown.strOf (Markdown.u_pathname srcUrl)) then
    t <- Markdown.isHostTrusted toLowerCase trusted (Markdown.u_host srcUrl) ;;
    if t then OK tt
    else Fatal ("Badge SVGs are restricted. Please use other file image formats, such as PNG: "
                +++ b_url badge)
  else OK tt.

Fixpoint checkBadges (trusted : list string) (badges : list Badge) : result unit :=
  match badges with
  | [] => OK tt
  | badge :: badges' => _ <- checkBadge trusted badge ;; checkBadges trusted badges'
  end.

(** [validateManifest(manifest)] with an explicit list of trusted hosts. *)
Definition validateManifestWith (trusted : list string) (manifest : Input) : result Input :=
  _ <- validatePublisher (publisher manifest) ;;
  _ <- validateExtensionName (name manifest) ;;
  if negb (Str.truthyOpt (version manifest)) then Fatal "Manifest missing field: version"
  else
    _ <- validateVersion (Markdown.strOf (version manifest)) ;;
    match engines manifest with
    | None => Fatal "Manifest missing field: engines"
    | Some engines_ =>
        if negb (Str.truthyOpt (JsObject.get "vscode" engines_)) then
          Fatal "Manifest missing field: engines.vscode"
        else
          let engine := Markdown.strOf (JsObject.get "vscode" engines_) in
          _ <- validateEngineCompatibility engine ;;
          _ <- (if Str.truthyOpt (entry "@types/vscode" (devDependencies manifest)) then
                  validateVSCodeTypesCompatibility engine
                    (Markdown.strOf (entry "@types/vscode" (devDependencies manifest)))
                else OK tt) ;;
          if test flagI Markdown.reDotSvg
               (match icon manifest with Some i => i | None => EmptyString end) then
            Fatal ("SVGs can't be used as icons: " +++ Markdown.strOf (icon manifest))
          else
            _ <- checkBadges trusted (Text.orNil (badges manifest)) ;;
            if existsb (fun dep => String.eqb dep "vscode")
                 (JsObject.keys (match dependencies manifest with
                                 | Some d => d
                                 | None => []
                                 end)) then
              Fatal "You should not depend on 'vscode' in your 'dependencies'. Did you mean to add it to 'devDependencies'?"
            else OK manifest
    end.

Definition validateManifest : Input -> result Input :=
  validateManifestWith Markdown.TrustedSVGSources.

End Validate.

End Validation.

(* ================================================================== *)
(** ** [toContentTypes]: the table of content types *)

Module ContentTypes.

(** [const defaultExtensions] *)
Definition defaultExtensions : JsObject.t :=
  [(".json", "application/json"); (".vsixmanifest", "text/xml")].

Record ContentType : Type := {
  extension : string;
  contentType : option string
}.

(** [{ ...a, ...b }]: the own keys of [b] are assigned in their order. *)
Definition spread (a b : JsObject.t) : JsObject.t :=
  fold_left
    (fun o k => match JsObject.get k b with
                | Some v => JsObject.set k v o
                | None => o
                end)
    (JsObject.keys b) a.

Section Table.

Variable extname : string -> string.               (* path.extname *)
Variable toLowerCase : string -> string.
Variable lookup : string -> string.                (* mime.lookup *)

(** [_.keyBy(files, f => path.extname(f.path).toLowerCase())]; of the file
    kept under a key the path is recorded. *)
Definition keyBy (files : list IFile) : JsObject.t :=
  fold_left (fun o f => JsObject.set (toLowerCase (extname (path f))) (path f) o) files [].

Definition extensions (files : list IFile) : JsObject.t :=
  fold_left (fun r e => spread r [(e, lookup e)])
    (filter Str.truthy (JsObject.keys (keyBy files))) [].

Definition allExtensions (files : list IFile) : JsObject.t :=
  spread (extensions files) defaultExtensions.

(** The [contentTypes] that [toContentTypes] hands to the template. *)
Definition contentTypes (files : list IFile) : list ContentType :=
  map (fun extension =>
         {| extension := extension;
            contentType := JsObject.get extension (allExtensions files) |})
      (JsObject.keys (allExtensions files)).

End Table.

End ContentTypes.

(* ================================================================== *)
(** ** The License processor over the files of a package *)

Module LicenseFiles.

Section Stage.

Variable normalize : string -> string.             (* util.normalize *)
Variable extname : string -> string.               (* path.extname *)

(** One file through [onFile]: the state and the files passed on so far. *)
Definition step (acc : License.State * list IFile) (file : IFile)
  : License.State * list IFile :=
  let r := License.onFile normalize extname (fst acc) file in
  (fst r, snd acc ++ [snd r]).

(** The state and the files after the files went through [onFile], taken in
    the order of the list. *)
Definition processed (st : License.State) (files : list IFile)
  : License.State * list IFile :=
  fold_left step files (st, []).

Definition licenseAsset (normalizedPath : string) : IAsset :=
  {| a_type := "Microsoft.VisualStudio.Services.Content.License";
     a_path := normalizedPath |}.

(** The path under which a license file is registered. *)
Definition licensePath (file : IFile) : string :=
  if Str.truthy (extname (normalize (path file))) then normalize (path file)
  else normalize (path file) +++ ".txt".

End Stage.

End LicenseFiles.

(* ================================================================== *)
(** ** [collectAllFiles] and the whole of [collectFiles] *)

Module Collect.

(** [/\\/g] *)
Definition reBackslash : regex := RChar "\".

Section Files.

(** [getDependencies(cwd, useYarn, dependencyEntryPoints)] *)
Variable getDependencies : result (list string).
(** [glob('**', { cwd: dep, nodir: true, dot: true, ignore: 'node_modules/**' })] *)
Variable glob : string -> result (list string).
Variable relative : string -> string -> string.    (* path.relative *)
Variable join : string -> string -> string.        (* path.join *)
Variable minimatch : string -> string -> bool.
Variable cwd : string.

Definition filesOf (dep : string) : result (list string) :=
  files <- glob dep ;;
  OK (map (fun f => Text.replaceAll noFlags reBackslash "/" f)
        (map (fun f => relative cwd (join dep f)) files)).

(** [collectAllFiles(cwd, useYarn, dependencyEntryPoints)] *)
Definition collectAllFiles : result (list string) :=
  deps <- getDependencies ;;
  lists <- Text.allOK (map filesOf deps) ;;
  OK (concat lists).

(** [collectFiles(cwd, useYarn, dependencyEntryPoints)], from the files on
    disk to the files of the package. *)
Definition collectFiles (ign : Ignore.readResult) : result (list string) :=
  files <- collectAllFiles ;;
  Ignore.collectFiles minimatch files ign.

(** The files that [collect] hands to the processors. *)
Definition packageFiles (ign : Ignore.readResult) : result (list string) :=
  fileNames <- collectFiles ign ;;
  OK (map (fun f => "extension/" +++ f) fileNames).

End Files.

End Collect.
(* ================================================================== *)
(** ** More library models and sample inputs of the closed examples *)

Module Builtin.

(** The look-ahead [(?!\w)] at the end of a pattern: the text that follows
    does not start with a word character. *)
Definition notWordAhead (st : mstate) : option mstate :=
  if optWord (Str.head (m_rest st)) then None else Some st.

(** A search for a match that the continuation [k] accepts. *)
Fixpoint searchThen (f : flags) (r : regex) (k : cont) (prev : option ascii)
  (rest : string) : bool :=
  match rmatch f r k (start_state prev rest) with
  | Some _ => true
  | None =>
      match rest with
      | EmptyString => false
      | String c rest' => searchThen f r k (Some c) rest'
      end
  end.

Definition flagsOf (fl : string) : flags :=
  {| ignoreCase := Str.mem "i" fl; multiline := Str.mem "m" fl |}.

(** [new RegExp(source, fl).test(s)] for a source in the fragment of the
    pattern compiler, followed or not by the look-ahead [(?!\w)]; [false]
    for a source outside the fragment. *)
Definition regExpTest (source fl s : string) : bool :=
  let n := String.length source - 6 in
  if String.eqb (Str.drop n source) "(?!\w)" then
    match RegExpSyntax.newRegExp (Str.take n source) with
    | OK r => searchThen (flagsOf fl) r notWordAhead None s
    | Fatal _ => false
    end
  else
    match RegExpSyntax.newRegExp source with
    | OK r => test (flagsOf fl) r s
    | Fatal _ => false
    end.

(** [path.join(dep, f)] and [path.relative(cwd, p)] on a path [p] below
    [cwd], with the separator [/]. *)
Definition join (dep f : string) : string := dep +++ "/" +++ f.
Definition relative (cwd p : string) : string := Str.drop (String.length cwd + 1) p.

End Builtin.

Module Cases.

(** A manifest for the Manifest processor, with the repository [r]. *)
Definition inputOf (r : Manifest.repositoryField) : ManifestProcessor.Input :=
  {| ManifestProcessor.name := Some "sample";
     ManifestProcessor.displayName := None;
     ManifestProcessor.version := Some "1.0.0";
     ManifestProcessor.publisher := Some "me";
     ManifestProcessor.engines := Some [("vscode", "^1.30.0")];
     ManifestProcessor.description := None;
     ManifestProcessor.categories := None;
     ManifestProcessor.preview := false;
     ManifestProcessor.repository := r;
     ManifestProcessor.bugs := Manifest.RepoAbsent;
     ManifestProcessor.homepage := None;
     ManifestProcessor.galleryBanner := None;
     ManifestProcessor.badges := None;
     ManifestProcessor.markdown := None;
     ManifestProcessor.qna := ManifestProcessor.QnaAbsent;
     ManifestProcessor.extensionDependencies := None;
     ManifestProcessor.extensionPack := None;
     ManifestProcessor.localizations := None |}.

Definition badgeAt (url : string) : Badge :=
  {| b_url := url; b_href := "https://example.com"; b_description := "build" |}.

(** A manifest for [validateManifest], with the icon [i]. *)
Definition validInput (i : string) : Validation.Input :=
  {| Validation.publisher := Some "me";
     Validation.name := Some "sample";
     Validation.version := Some "1.0.0";
     Validation.engines := Some [("vscode", "^1.30.0")];
     Validation.devDependencies := None;
     Validation.icon := Some i;
     Validation.badges := Some [badgeAt "https://img.shields.io/badge.svg"];
     Validation.dependencies := Some [("lodash", "^4.17.0")] |}.

(** Checks of [validation.ts] that accept everything. *)
Definition accept1 (_ : option string) : result unit := OK tt.
Definition accept2 (_ : string) : result unit := OK tt.
Definition accept3 (_ _ : string) : result unit := OK tt.

Definition validate : list string -> Validation.Input -> result Validation.Input :=
  Validation.validateManifestWith accept1 accept1 accept2 accept2 accept3
    Lib.decodeURI Lib.urlParse Lib.toLowerCase.

(** The License processor of a manifest without [license]. *)
Definition defaultLicense : License.State :=
  {| License.filter := test flagI License.reDefaultLicense;
     License.didFindLicense := false;
     License.assets := [];
     License.vsixLicense := None |}.

Definition licenseFiles : list IFile :=
  [Sample.fileAt "extension/package.json"; Sample.fileAt "extension/LICENSE";
   Sample.fileAt "extension/license.md"].

(** An extension in [/ext] with two files, one found with a backslash. *)
Definition packageFiles : Ignore.readResult -> result (list string) :=
  Collect.packageFiles (OK ["/ext"]) (fun _ => OK ["package.json"; "src\a.js"])
    Builtin.relative Builtin.join Glob.minimatch "/ext".

(** An extension in [/ext] on a system whose separator is the slash: the
    file [icon.png] of the folder [images], and a file of the root whose
    name is [images\icon.png].  [collectAllFiles] turns the backslash into
    a slash, and the two files reach the processors under one path. *)
Definition twinIconDisk : Ignore.readResult -> result (list string) :=
  Collect.packageFiles (OK ["/ext"])
    (fun _ => OK ["package.json"; "images/icon.png"; "images\icon.png"])
    Builtin.relative Builtin.join Glob.minimatch "/ext".

Definition twinIconFiles : list IFile :=
  [Sample.fileAt "extension/package.json"; Sample.fileAt "extension/images/icon.png";
   Sample.fileAt "extension/images/icon.png"].

(** A README with a relative link and a badge from a trusted host. *)
Definition readmeWithBadge : IFile :=
  {| path := "extension/README.md";
     contents := "[guide](docs/guide.md) <img src='https://img.shields.io/badge.svg'>" |}.

(** A manifest for the Tags processor. *)
Definition tagsInput : Tags.Input :=
  {| Tags.keywords := Some ["git"; "scm"];
     Tags.contributes :=
       Some {| Tags.themes := Some 1; Tags.iconThemes := Some 2; Tags.snippets := None;
               Tags.keybindings := Some 0; Tags.debuggers := None;
               Tags.jsonValidation := None;
               Tags.localizations := None;
               Tags.languages :=
                 Some [{| Tags.l_id := "typescript"; Tags.l_aliases := Some ["TypeScript"];
                          Tags.l_extensions := Some [".ts"; ".d.ts"; "."] |}];
               Tags.grammars := Some [Some "typescript"; None] |};
     Tags.activationEvents := Some ["onLanguage:typescript"; "onCommand:sample.run"; "*"];
     Tags.description := Some "A git client for C++ and github users" |}.

End Cases.
(* ================================================================== *)
(** ** The text that a global replacement returns *)


(** What the Markdown stage puts in the place of a construct and of an issue
    reference. *)
Module Rewritten.
Import Markdown.

Section Stage.

Variable urljoin : list string -> string.          (* url-join *)
Variable p : Processor.

(** The construct [m], which reads [i[title](target)] with [i] empty or an
    exclamation mark, and the text [rep] that takes its place: the title is
    rewritten in the same way, and the target is joined with the base URL of
    its category when it is relative and that base exists. *)
Definition link (m : match_result) (rep : string) : Prop :=
  matched m = groupStr 1 m +++ "[" +++ groupStr 2 m +++ "](" +++ groupStr 3 m +++ ")"
  /\ exists title',
       replaceLinks urljoin p (groupStr 2 m) = OK title'
       /\ rep = groupStr 1 m +++ "[" +++ title' +++ "]("
                +++ (if isLinkRelative (groupStr 3 m) && Str.truthyOpt (prefixOf p m)
                     then urljoin [strOf (prefixOf p m); groupStr 3 m]
                     else groupStr 3 m)
                +++ ")".


End Stage.

End Rewritten.

(** Patterns that are made of plain characters and dots. *)
Module Dots.

(** A character that stands for itself in a pattern, or the dot. *)
Definition plainOrDot (c : ascii) : bool := negb (Str.mem c "*+?^${}()|[]\").

Definition atom (c : ascii) : regex := if Ascii.eqb c "." then RAny else RChar c.

(** The expression of the pattern [w], followed by [tail]. *)
Fixpoint pattern (w : string) (tail : regex) : regex :=
  match w with
  | EmptyString => tail
  | String c w' => RSeq (atom c) (pattern w' tail)
  end.

(** The text [s] reads as [w], where a dot of [w] stands for any character
    but a line terminator. *)
Fixpoint reads (w s : string) : bool :=
  match w, s with
  | EmptyString, EmptyString => true
  | String c w', String d s' =>
      (if Ascii.eqb c "." then negb (Str.isLineTerminator d) else Ascii.eqb d c)
      && reads w' s'
  | _, _ => false
  end.

(** The head of [s] is no quantifier. *)
Definition plainHead (s : string) : Prop :=
  match s with
  | EmptyString => True
  | String q _ => plainOrDot q = true \/ q = "$"%char
  end.

End Dots.

(* ================================================================== *)
(** ** Facts about strings *)

Module StrFacts.
Import Str.

Lemma append_nil_r (s : string) : s +++ "" = s.
Proof. induction s as [|c s IH]; simpl; [reflexivity | now rewrite IH]. Qed.

Lemma append_assoc (a b c : string) : (a +++ b) +++ c = a +++ (b +++ c).
Proof. induction a as [|x a IH]; simpl; [reflexivity | now rewrite IH]. Qed.

Lemma length_append (a b : string) :
  String.length (a +++ b) = String.length a + String.length b.
Proof. induction a as [|x a IH]; simpl; [reflexivity | now rewrite IH]. Qed.

Lemma take_length (n : nat) (s : string) :
  String.length (take n s) = Nat.min n (String.length s).
Proof.
  revert s; induction n as [|n IH]; intros [|c s]; simpl; try reflexivity.
  now rewrite IH.
Qed.

Lemma take_drop (n : nat) (s : string) : take n s +++ drop n s = s.
Proof.
  revert s; induction n as [|n IH]; intros [|c s]; simpl; try reflexivity.
  now rewrite IH.
Qed.

Lemma take_append (a b : string) : take (String.length a) (a +++ b) = a.
Proof. induction a as [|x a IH]; simpl; [now destruct b | now rewrite IH]. Qed.

Lemma take_all (s : string) : take (String.length s) s = s.
Proof. induction s as [|c s IH]; simpl; [reflexivity | now rewrite IH]. Qed.

Lemma drop_append (a b : string) : drop (String.length a) (a +++ b) = b.
Proof. induction a as [|x a IH]; simpl; [now destruct b | exact IH]. Qed.

Lemma all_append (p : ascii -> bool) (a b : string) :
  all p (a +++ b) = all p a && all p b.
Proof.
  induction a as [|x a IH]; simpl; [reflexivity|].
  now rewrite IH, andb_assoc.
Qed.

Lemma mem_append (c : ascii) (a b : string) : mem c (a +++ b) = mem c a || mem c b.
Proof.
  induction a as [|x a IH]; simpl; [reflexivity|].
  now rewrite IH, orb_assoc.
Qed.

Lemma all_mem_false (c : ascii) (s : string) :
  all (fun x => negb (Ascii.eqb x c)) s = negb (mem c s).
Proof.
  induction s as [|x s IH]; simpl; [reflexivity|].
  rewrite IH, negb_orb. now rewrite (Ascii.eqb_sym c x).
Qed.

Lemma last_append_cons (a : string) (c : ascii) (b : string) :
  last (a +++ String c b) = last (String c b).
Proof.
  induction a as [|x a IH]; [reflexivity|].
  change (last (String x (a +++ String c b)) = last (String c b)).
  rewrite <- IH. simpl. now destruct (a +++ String c b) eqn:E; [destruct a; discriminate|].
Qed.

Lemma last_snoc (a : string) (c : ascii) : last (a +++ String c "") = Some c.
Proof. now rewrite last_append_cons. Qed.

Lemma last_none (s : string) : last s = None -> s = "".
Proof.
  induction s as [|x s IH]; [reflexivity|].
  destruct s as [|y s]; [discriminate|].
  intros H. apply IH in H. discriminate.
Qed.

Lemma last_cons (c : ascii) (s : string) :
  last (String c s) = match last s with Some d => Some d | None => Some c end.
Proof.
  destruct s as [|y s]; [reflexivity|].
  destruct (last (String y s)) eqn:E; [exact E|].
  apply last_none in E. discriminate.
Qed.

Lemma last_some_snoc (s : string) (c : ascii) :
  last s = Some c -> exists a, s = a +++ String c "".
Proof.
  induction s as [|x s IH]; [discriminate|].
  destruct s as [|y s].
  - simpl. intros [= ->]. now exists "".
  - intros H. destruct (IH H) as [a Ha]. exists (String x a). simpl. now rewrite <- Ha.
Qed.

Lemma truthy_nonempty (s : string) : s <> "" -> truthy s = true.
Proof. destruct s; [congruence | reflexivity]. Qed.

End StrFacts.

(* ================================================================== *)
(** ** Facts about the matcher *)

Module RegExpFacts.
Import Str StrFacts.

Lemma star_loop_sound (f : flags) (r : regex) (n : nat) :
  (forall k st res, rmatch f r k st = Some res ->
     exists st', den f r st st' /\ k st' = Some res) ->
  forall k st res, star_loop (rmatch f r) n k st = Some res ->
    exists st', den f (RStar r) st st' /\ k st' = Some res.
Proof.
  intros IHr. induction n as [|n IHn]; intros k st res H; simpl in H.
  - exists st. split; [constructor | exact H].
  - destruct (rmatch f r _ st) as [res'|] eqn:E.
    + injection H as ->.
      apply IHr in E. destruct E as [st1 [D1 K1]].
      destruct (shorter st1 st) eqn:Sh; [|discriminate].
      apply IHn in K1. destruct K1 as [st2 [D2 K2]].
      exists st2. split; [|exact K2]. now apply den_star_cons with st1.
    + exists st. split; [constructor | exact H].
Qed.

(** Every result of the matcher is justified by [den]. *)
Lemma rmatch_sound (f : flags) (r : regex) :
  forall k st res, rmatch f r k st = Some res ->
    exists st', den f r st st' /\ k st' = Some res.
Proof.
  induction r as [|neg items|r1 IH1 r2 IH2|r1 IH1 r2 IH2|r IH|i r IH| | |];
    intros k st res H; simpl in H.
  - exists st. split; [constructor | exact H].
  - destruct (m_rest st) as [|c rest] eqn:E; [discriminate|].
    destruct (class_ok _ neg items c) eqn:C; [|discriminate].
    exists (advance c rest st). split; [now constructor | exact H].
  - apply IH1 in H. destruct H as [st1 [D1 H]].
    apply IH2 in H. destruct H as [st2 [D2 H]].
    exists st2. split; [now apply den_seq with st1 | exact H].
  - destruct (rmatch f r1 k st) as [res'|] eqn:E.
    + injection H as ->. apply IH1 in E. destruct E as [st' [D K]].
      exists st'. split; [now apply den_alt_l | exact K].
    + apply IH2 in H. destruct H as [st' [D K]].
      exists st'. split; [now apply den_alt_r | exact K].
  - now apply (star_loop_sound f r (S (String.length (m_rest st))) IH).
  - apply IH in H. destruct H as [st' [D K]].
    exists (set_cap i st st'). split; [now constructor | exact K].
  - destruct (atBol f st) eqn:E; [|discriminate].
    exists st. split; [now constructor | exact H].
  - destruct (atEol f st) eqn:E; [|discriminate].
    exists st. split; [now constructor | exact H].
  - destruct (atWordB st) eqn:E; [|discriminate].
    exists st. split; [now constructor | exact H].
Qed.

(** Inversion of [den], one lemma per construct. *)
Lemma den_empty_inv (f : flags) (st st' : mstate) : den f REmpty st st' -> st' = st.
Proof. now inversion 1. Qed.

Lemma den_set_inv (f : flags) (neg : bool) (items : list citem) (st st' : mstate) :
  den f (RSet neg items) st st' ->
  exists c rest, m_rest st = String c rest
    /\ class_ok (ignoreCase f) neg items c = true /\ st' = advance c rest st.
Proof. inversion 1; subst. now exists c, rest. Qed.

Lemma den_seq_inv (f : flags) (r1 r2 : regex) (st st2 : mstate) :
  den f (RSeq r1 r2) st st2 -> exists st1, den f r1 st st1 /\ den f r2 st1 st2.
Proof. inversion 1; subst. now exists st1. Qed.

Lemma den_alt_inv (f : flags) (r1 r2 : regex) (st st' : mstate) :
  den f (RAlt r1 r2) st st' -> den f r1 st st' \/ den f r2 st st'.
Proof. inversion 1; subst; [now left | now right]. Qed.

Lemma den_star_inv (f : flags) (r : regex) (st st' : mstate) :
  den f (RStar r) st st' ->
  st' = st \/ exists st1, den f r st st1 /\ shorter st1 st = true /\ den f (RStar r) st1 st'.
Proof. inversion 1; subst; [now left | right; now exists st1]. Qed.

Lemma den_group_inv (f : flags) (i : nat) (r : regex) (st st' : mstate) :
  den f (RGroup i r) st st' -> exists st1, den f r st st1 /\ st' = set_cap i st st1.
Proof. inversion 1; subst. now exists st'0. Qed.

Lemma den_bol_inv (f : flags) (st st' : mstate) :
  den f RBol st st' -> st' = st /\ atBol f st = true.
Proof. now inversion 1. Qed.

Lemma den_eol_inv (f : flags) (st st' : mstate) :
  den f REol st st' -> st' = st /\ atEol f st = true.
Proof. now inversion 1. Qed.


(** A single literal character. *)
Lemma den_char_inv (f : flags) (x : ascii) (st st' : mstate) :
  ignoreCase f = false ->
  den f (RChar x) st st' -> exists rest, m_rest st = String x rest /\ st' = advance x rest st.
Proof.
  intros F D. apply den_set_inv in D. destruct D as [c [rest [E [C ->]]]].
  unfold class_ok, item_ok in C. rewrite F in C. simpl in C.
  rewrite !orb_false_r in C. apply Ascii.eqb_eq in C. subst c. now exists rest.
Qed.

(** A star over a character class consumes characters of the class and
    leaves the captures alone. *)
Lemma den_star_set (f : flags) (neg : bool) (items : list citem) (st st' : mstate) :
  den f (RStar (RSet neg items)) st st' ->
  exists w, m_rest st = w +++ m_rest st'
    /\ all (class_ok (ignoreCase f) neg items) w = true
    /\ m_caps st' = m_caps st.
Proof.
  intros D. remember (RStar (RSet neg items)) as r eqn:R.
  induction D as [| | | | |r0 st|r0 st st1 st2 D1 _ Sh D2 IH2| | | |]; try discriminate.
  - now exists "".
  - injection R as ->. destruct (IH2 eq_refl) as [w [E [A C]]].
    apply den_set_inv in D1. destruct D1 as [c [rest [E1 [C1 ->]]]].
    exists (String c w). simpl in *. rewrite E1, E. now rewrite C1, A, C.
Qed.

(** A match consumes a prefix of the remaining input. *)
Lemma den_rest (f : flags) (r : regex) (st st' : mstate) :
  den f r st st' -> exists w, m_rest st = w +++ m_rest st'.
Proof.
  induction 1 as [st|neg items c rest st E C|r1 r2 st st1 st2 _ [w1 E1] _ [w2 E2]
                 | | |r st|r st st1 st2 _ [w1 E1] _ _ [w2 E2]|i r st st' _ IH|st|st|st];
    try (now exists ""); try assumption.
  - exists (String c ""). now rewrite E.
  - exists (w1 +++ w2). now rewrite E1, E2, append_assoc.
  - exists (w1 +++ w2). now rewrite E1, E2, append_assoc.
Qed.

Lemma consumed_append (st st' : mstate) (w : string) :
  m_rest st = w +++ m_rest st' -> consumed st st' = w.
Proof.
  intros E. unfold consumed. rewrite E, length_append.
  replace (String.length w + String.length (m_rest st') - String.length (m_rest st'))
    with (String.length w) by lia.
  apply take_append.
Qed.


Lemma consumed_length (st st' : mstate) :
  String.length (consumed st st') <= String.length (m_rest st).
Proof. unfold consumed. rewrite take_length. lia. Qed.

(** What a successful [match_here] means. *)
Lemma match_here_sound (f : flags) (r : regex) prev rest idx m :
  match_here f r prev rest idx = Some m ->
  exists st', den f r (start_state prev rest) st' /\
    index m = idx /\ groups m = m_caps st' /\
    rest = matched m +++ m_rest st'.
Proof.
  unfold match_here. intros H.
  destruct (rmatch f r Some (start_state prev rest)) as [st'|] eqn:E; [|discriminate].
  injection H as <-. apply rmatch_sound in E. destruct E as [st1 [D [= ->]]].
  exists st'. repeat split; try assumption. simpl.
  destruct (den_rest _ _ _ _ D) as [w Ew]. simpl in Ew.
  now rewrite (consumed_append (start_state prev rest) st' w Ew).
Qed.

Lemma matched_length (f : flags) (r : regex) prev rest idx m :
  match_here f r prev rest idx = Some m ->
  String.length (matched m) <= String.length rest.
Proof.
  unfold match_here. destruct (rmatch f r Some _) as [st'|]; [|discriminate].
  intros [= <-]. simpl. apply (consumed_length (start_state prev rest) st').
Qed.

Lemma matched_take (f : flags) (r : regex) prev rest idx m :
  match_here f r prev rest idx = Some m ->
  matched m = take (String.length (matched m)) rest.
Proof.
  unfold match_here. destruct (rmatch f r Some _) as [st'|]; [|discriminate].
  intros [= <-]. simpl. unfold consumed. simpl.
  set (n := String.length rest - String.length (m_rest st')).
  rewrite take_length. replace (Nat.min n (String.length rest)) with n by lia.
  reflexivity.
Qed.

(** [search] finds a match as soon as one starts somewhere in the input. *)
Lemma search_found (f : flags) (r : regex) (pre : string) :
  forall prev rest idx,
    (forall p i, match_here f r p rest i <> None) ->
    search f r prev (pre +++ rest) idx <> None.
Proof.
  induction pre as [|c pre IH]; intros prev rest idx H; simpl.
  - destruct rest as [|c rest]; simpl.
    + specialize (H prev idx). now destruct (match_here f r prev "" idx).
    + specialize (H prev idx). now destruct (match_here f r prev (String c rest) idx).
  - destruct (match_here f r prev (String c (pre +++ rest)) idx); [discriminate|].
    now apply IH.
Qed.

(** A successful [search] is a [match_here] at a suffix of the input. *)
Lemma search_sound (f : flags) (r : regex) (s : string) :
  forall prev idx m, search f r prev s idx = Some m ->
    exists pre rest p, s = pre +++ rest /\
      match_here f r p rest (idx + String.length pre) = Some m /\
      p = match last pre with Some c => Some c | None => prev end.
Proof.
  induction s as [|c s IH]; intros prev idx m H; simpl in H.
  - destruct (match_here f r prev "" idx) eqn:E; [|discriminate].
    injection H as ->. exists "", "", prev. simpl. now rewrite Nat.add_0_r.
  - destruct (match_here f r prev (String c s) idx) eqn:E.
    + injection H as ->. exists "", (String c s), prev. simpl. now rewrite Nat.add_0_r.
    + apply IH in H. destruct H as [pre [rest [p [-> [M P]]]]].
      exists (String c pre), rest, p. split; [reflexivity|]. split.
      * simpl. now rewrite Nat.add_succ_r.
      * rewrite P, last_cons. now destruct (last pre).
Qed.

(** Every element of [scan] is a [match_here] at a suffix of the input. *)
Lemma scan_sound (f : flags) (r : regex) (s : string) :
  forall prev idx skip m, In m (scan f r prev s idx skip) ->
    exists pre rest p i, s = pre +++ rest /\ match_here f r p rest i = Some m.
Proof.
  induction s as [|c s IH]; intros prev idx skip m H.
  - destruct skip; simpl in H; [|contradiction].
    destruct (match_here f r prev "" idx) eqn:E; [|contradiction].
    destruct H as [->|[]]. now exists "", "", prev, idx.
  - destruct skip as [|sk]; simpl in H.
    + destruct (match_here f r prev (String c s) idx) eqn:E.
      * destruct H as [->|H]; [now exists "", (String c s), prev, idx|].
        apply IH in H. destruct H as [pre [rest [p [i [-> M]]]]].
        now exists (String c pre), rest, p, i.
      * apply IH in H. destruct H as [pre [rest [p [i [-> M]]]]].
        now exists (String c pre), rest, p, i.
    + apply IH in H. destruct H as [pre [rest [p [i [-> M]]]]].
      now exists (String c pre), rest, p, i.
Qed.





(** Replacing every match by itself gives the input back. *)
Lemma replace_from_id (f : flags) (r : regex) (fn : match_result -> result string)
  (s : string) :
  forall prev idx skip,
    (forall m, In m (scan f r prev s idx skip) -> fn m = OK (matched m)) ->
    replace_from f r fn prev s idx skip = OK (drop skip s).
Proof.
  induction s as [|c s IH]; intros prev idx skip H.
  - destruct skip; simpl in *; [|reflexivity].
    destruct (match_here f r prev "" idx) as [m|] eqn:E; [|reflexivity].
    rewrite (H m) by now left. simpl.
    apply matched_length in E. simpl in E. destruct (matched m); [reflexivity|simpl in E; lia].
  - destruct skip as [|sk]; simpl in *.
    + destruct (match_here f r prev (String c s) idx) as [m|] eqn:E.
      * rewrite (H m) by now left. simpl.
        rewrite (IH (Some c) (S idx) (String.length (matched m) - 1))
          by (intros m' Hm'; apply H; now right).
        simpl. f_equal.
        pose proof (matched_take _ _ _ _ _ _ E) as T.
        destruct (String.length (matched m)) as [|n] eqn:L; simpl.
        -- destruct (matched m); [reflexivity | discriminate].
        -- rewrite T. simpl. rewrite Nat.sub_0_r. f_equal. apply take_drop.
      * now rewrite (IH (Some c) (S idx) 0 H).
    + now apply IH.
Qed.

Lemma replace_id (f : flags) (r : regex) (fn : match_result -> result string)
  (s : string) :
  (forall m, In m (matchAll f r s) -> fn m = OK (matched m)) ->
  replace f r fn s = OK s.
Proof. intros H. apply (replace_from_id _ _ _ _ None 0 0 H). Qed.

(** Without capturing groups the captures stay as they are. *)
Lemma den_groupFree (f : flags) (r : regex) (st st' : mstate) :
  den f r st st' -> groupFree r = true -> m_caps st' = m_caps st.
Proof.
  induction 1 as [st|neg items c rest st E C|r1 r2 st st1 st2 _ IH1 _ IH2
                 |r1 r2 st st' _ IH|r1 r2 st st' _ IH|r st
                 |r st st1 st2 _ IH1 _ _ IH2|i r st st' _ IH|st|st|st];
    simpl; intros G; try reflexivity; try discriminate.
  - apply andb_true_iff in G. destruct G as [G1 G2]. now rewrite (IH2 G2), (IH1 G1).
  - apply andb_true_iff in G. destruct G as [G1 G2]. now apply IH.
  - apply andb_true_iff in G. destruct G as [G1 G2]. now apply IH.
  - now rewrite (IH2 G), (IH1 G).
Qed.

Lemma den_plus_set (f : flags) (neg : bool) (items : list citem) (st st' : mstate) :
  den f (RPlus (RSet neg items)) st st' ->
  exists c w, m_rest st = String c w +++ m_rest st'
    /\ class_ok (ignoreCase f) neg items c = true
    /\ all (class_ok (ignoreCase f) neg items) w = true
    /\ m_caps st' = m_caps st.
Proof.
  intros D. unfold RPlus in D. apply den_seq_inv in D. destruct D as [st1 [D1 D2]].
  apply den_set_inv in D1. destruct D1 as [c [rest [E [C ->]]]].
  apply den_star_set in D2. destruct D2 as [w [E2 [A Cp]]].
  exists c, w. simpl in *. now rewrite E, E2.
Qed.


Lemma star_loop_step (step : cont -> cont) (n : nat) (k : cont) (st : mstate) :
  star_loop step (S n) k st
  = match step (fun st' => if shorter st' st then star_loop step n k st' else None) st with
    | Some res => Some res
    | None => k st
    end.
Proof. reflexivity. Qed.

Lemma rmatch_set (f : flags) (neg : bool) (items : list citem) (k : cont) (pv : option ascii)
  (c : ascii) (w : string) (cs : list (nat * string)) :
  class_ok (ignoreCase f) neg items c = true ->
  rmatch f (RSet neg items) k {| m_prev := pv; m_rest := String c w; m_caps := cs |}
  = k {| m_prev := Some c; m_rest := w; m_caps := cs |}.
Proof. intros C. cbn [rmatch m_rest]. now rewrite C. Qed.

(** A greedy star over a character class takes a whole run of the class
    when the rest of the expression accepts at its end. *)
Lemma star_loop_all (f : flags) (neg : bool) (items : list citem) (k : cont) (w : string) :
  forall pv cs res,
    all (class_ok (ignoreCase f) neg items) w = true ->
    k {| m_prev := lastOr pv w; m_rest := ""; m_caps := cs |} = Some res ->
    star_loop (rmatch f (RSet neg items)) (S (String.length w)) k
      {| m_prev := pv; m_rest := w; m_caps := cs |} = Some res.
Proof.
  induction w as [|c w IH]; intros pv cs res A K.
  - simpl. exact K.
  - cbn [all] in A. apply andb_true_iff in A. destruct A as [C A].
    cbn [String.length]. rewrite star_loop_step, (rmatch_set f neg items _ pv c w cs C).
    unfold shorter. cbn [m_rest String.length].
    replace (String.length w <? S (String.length w)) with true
      by (symmetry; apply Nat.ltb_lt; lia).
    rewrite (IH (Some c) cs res A); [reflexivity|].
    unfold lastOr in *. rewrite last_cons in K. now destruct (last w).
Qed.

(** The matcher depends on its continuation only through its values. *)
Lemma star_loop_ext (step : cont -> cont) (n : nat) :
  (forall k1 k2 st, (forall st', k1 st' = k2 st') -> step k1 st = step k2 st) ->
  forall k1 k2 st, (forall st', k1 st' = k2 st') ->
    star_loop step n k1 st = star_loop step n k2 st.
Proof.
  intros Hs. induction n as [|n IH]; intros k1 k2 st H; simpl; [apply H|].
  rewrite (Hs _ (fun st' => if shorter st' st then star_loop step n k2 st' else None)).
  - now rewrite H.
  - intros st'. destruct (shorter st' st); [now apply IH | reflexivity].
Qed.

Lemma rmatch_ext (f : flags) (r : regex) :
  forall k1 k2 st, (forall st', k1 st' = k2 st') -> rmatch f r k1 st = rmatch f r k2 st.
Proof.
  induction r as [|neg items|r1 IH1 r2 IH2|r1 IH1 r2 IH2|r IH|i r IH| | |];
    intros k1 k2 st H; simpl; try (now rewrite H).
  - destruct (m_rest st); [reflexivity|]. now rewrite H.
  - apply IH1. intros st'. now apply IH2.
  - rewrite (IH1 k1 k2 st H). now rewrite (IH2 k1 k2 st H).
  - exact (star_loop_ext (rmatch f r) (S (String.length (m_rest st))) IH k1 k2 st H).
  - apply IH. intros st'. apply H.
Qed.

(** The bound on the rounds of a star is never reached: any two bounds above
    the length of the remaining input give the same result. *)
Lemma star_loop_fuel (f : flags) (r : regex) (k : cont) (n : nat) :
  forall n' st,
    String.length (m_rest st) < n -> String.length (m_rest st) < n' ->
    star_loop (rmatch f r) n k st = star_loop (rmatch f r) n' k st.
Proof.
  induction n as [|n IH]; intros n' st H H'; [lia|].
  destruct n' as [|n']; [lia|]. simpl.
  rewrite (rmatch_ext f r _ (fun st' => if shorter st' st
                                        then star_loop (rmatch f r) n' k st' else None)).
  - reflexivity.
  - intros st'. unfold shorter. destruct (Nat.ltb_spec (String.length (m_rest st'))
                                            (String.length (m_rest st))); [|reflexivity].
    apply IH; lia.
Qed.

End RegExpFacts.

(* ================================================================== *)
(** ** The result of a global replacement *)

Module SpliceFacts.
Import Str StrFacts RegExpFacts Text.












End SpliceFacts.

(* ================================================================== *)
(** ** Properties of the ignore engine *)

Module IgnoreFacts.
Import Str StrFacts RegExpFacts Ignore.

Local Arguments Ascii.eqb : simpl never.
Local Arguments isWhite : simpl never.

(** A path that ends with a carriage return, or has one right before a line
    feed, is matched by [/\r$/m]. *)
Lemma hasCarriageReturn_at_line_end (s t : string) :
  t = "" \/ (exists t', t = String LF t') ->
  hasCarriageReturn (s +++ String CR t) = true.
Proof.
  intros Ht. unfold hasCarriageReturn, test, exec.
  destruct (search flagM reCarriageReturn None (s +++ String CR t) 0) eqn:E; [reflexivity|].
  exfalso. revert E. apply search_found. intros p i.
  unfold match_here. destruct Ht as [->|[t' ->]]; discriminate.
Qed.

Lemma default_rules_are_ignore : filter isIgnore defaultIgnore = defaultIgnore.
Proof. reflexivity. Qed.

Lemma partition_fst (A : Type) (p : A -> bool) (l : list A) :
  fst (partition p l) = filter p l.
Proof. now rewrite partition_as_filter. Qed.

Lemma partition_snd (A : Type) (p : A -> bool) (l : list A) :
  snd (partition p l) = filter (fun x => negb (p x)) l.
Proof. now rewrite partition_as_filter. Qed.

Lemma ignoreOf_eq (raw : string) :
  ignoreOf raw = defaultIgnore ++ filter isIgnore (addFolders (parseIgnore raw)).
Proof.
  unfold ignoreOf, allRules. rewrite partition_fst.
  rewrite !filter_app, default_rules_are_ignore.
  change (filter isIgnore ["!package.json"]) with (@nil string).
  now rewrite app_nil_r.
Qed.

Lemma negateOf_eq (raw : string) :
  negateOf raw
  = filter (fun i => negb (isIgnore i)) (addFolders (parseIgnore raw)) ++ ["!package.json"].
Proof.
  unfold negateOf, allRules. rewrite partition_snd.
  rewrite !filter_app.
  change (filter (fun x => negb (isIgnore x)) defaultIgnore) with (@nil string).
  reflexivity.
Qed.

Lemma search_anchored_none (r : regex) (s : string) :
  forall x idx, search noFlags (RSeq RBol r) (Some x) s idx = None.
Proof.
  induction s as [|c s IH]; intros x idx; simpl.
  - reflexivity.
  - unfold match_here. simpl. apply IH.
Qed.

Lemma anchored_white_then (x c : ascii) (s : string) :
  isWhite c = false -> Ascii.eqb c x = false ->
  test noFlags (RSeqs [RBol; RStar (RSet false [CSpace]); RChar x]) (String c s) = false.
Proof.
  intros W X. unfold test, exec. simpl RSeqs. simpl search.
  unfold match_here. simpl.
  unfold class_ok, item_ok. simpl. rewrite W, X. simpl.
  now rewrite search_anchored_none.
Qed.

Lemma lastSegment_no_slash (w : string) : mem "/" w = false -> lastSegment w = w.
Proof.
  destruct w as [|c w]; [reflexivity|]. simpl.
  intros H. apply orb_false_iff in H. destruct H as [H1 H2].
  rewrite H2. rewrite Ascii.eqb_sym in H1. now rewrite H1.
Qed.

Lemma lastSegment_append (a w : string) :
  mem "/" w = false -> lastSegment (a +++ w) = lastSegment a +++ w.
Proof.
  intros H. induction a as [|c a IH]; [now apply lastSegment_no_slash|].
  simpl. rewrite mem_append, H, orb_false_r.
  destruct (mem "/" a); [exact IH|].
  now destruct (Ascii.eqb c "/").
Qed.

Lemma splitLines_single (s : string) :
  all (fun c => negb (isLineTerminator c)) s = true -> splitLines s = [s].
Proof.
  induction s as [|c s IH]; [reflexivity|]. simpl.
  intros H. apply andb_true_iff in H. destruct H as [H1 H2].
  apply negb_true_iff in H1. rewrite H1, (IH H2). reflexivity.
Qed.

Lemma trimEnd_id (s : string) (x : ascii) :
  last s = Some x -> isWhite x = false -> trimEnd s = s.
Proof.
  intros L W. induction s as [|c s IH]; [reflexivity|].
  destruct s as [|y s].
  - simpl in *. injection L as ->. now rewrite W.
  - change (trimEnd (String c (String y s)))
      with (match trimEnd (String y s) with
            | EmptyString => if isWhite c then EmptyString else String c EmptyString
            | t => String c t
            end).
    now rewrite (IH L).
Qed.

Lemma trim_id (c : ascii) (s : string) (x : ascii) :
  isWhite c = false -> last (String c s) = Some x -> isWhite x = false ->
  trim (String c s) = String c s.
Proof.
  intros W L X. unfold trim. simpl trimStart. rewrite W. now apply trimEnd_id with x.
Qed.


Lemma class_not_char (ic : bool) (x : ascii) (w : string) :
  all (class_ok ic true [CChar x]) w = true -> mem x w = false.
Proof.
  induction w as [|c w IH]; [reflexivity|]. simpl.
  intros H. apply andb_true_iff in H. destruct H as [H1 H2].
  rewrite (IH H2), orb_false_r.
  unfold class_ok, item_ok in H1. simpl in H1.
  apply negb_true_iff in H1. apply orb_false_iff in H1. destruct H1 as [H1 _].
  apply orb_false_iff in H1. destruct H1 as [H1 _].
  now rewrite Ascii.eqb_sym.
Qed.

Lemma not_trailing_slash (s : string) (x : ascii) :
  last s = Some x -> Ascii.eqb x "/" = false -> test noFlags reTrailingSlash s = false.
Proof.
  intros L X. unfold test, exec.
  destruct (search noFlags reTrailingSlash None s 0) as [m|] eqn:E; [|reflexivity].
  exfalso. apply search_sound in E. destruct E as [pre [rest [p [-> [M _]]]]].
  apply match_here_sound in M. destruct M as [st' [D _]].
  apply den_seq_inv in D. destruct D as [st1 [D1 D2]].
  apply den_char_inv in D1; [|reflexivity]. destruct D1 as [rest1 [E1 ->]].
  apply den_eol_inv in D2. destruct D2 as [_ D2].
  unfold atEol in D2. simpl in *. destruct rest1; [|discriminate].
  subst rest. rewrite last_snoc in L. injection L as <-.
  discriminate.
Qed.

Lemma not_glob_name (s : string) :
  mem "*" (lastSegment s) = false -> test noFlags reGlobName s = false.
Proof.
  intros L. unfold test, exec.
  destruct (search noFlags reGlobName None s 0) as [m|] eqn:E; [|reflexivity].
  exfalso. apply search_sound in E. destruct E as [pre [rest [p [-> [M _]]]]].
  apply match_here_sound in M. destruct M as [st' [D _]].
  unfold reGlobName in D. simpl RSeqs in D.
  apply den_seq_inv in D. destruct D as [st1 [D1 D]].
  apply den_seq_inv in D. destruct D as [st2 [D2 D]].
  apply den_seq_inv in D. destruct D as [st3 [D3 D]].
  apply den_seq_inv in D. destruct D as [st4 [D4 D5]].
  apply den_rest in D1. destruct D1 as [w0 E0]. simpl in E0.
  apply den_star_set in D2. destruct D2 as [w1 [E1 _]].
  apply den_char_inv in D3; [|reflexivity]. destruct D3 as [rest3 [E3 ->]].
  apply den_star_set in D4. destruct D4 as [w2 [E2 [A2 _]]].
  apply den_eol_inv in D5. destruct D5 as [-> D5].
  unfold atEol in D5. simpl in *. destruct (m_rest st4) eqn:R; [|discriminate].
  rewrite append_nil_r in E2. subst rest3.
  rewrite E1, E3 in E0. subst rest.
  apply class_not_char in A2.
  replace (pre +++ w0 +++ w1 +++ String "*" w2)
    with (((pre +++ w0 +++ w1) +++ "*") +++ w2) in L
    by (rewrite !append_assoc; reflexivity).
  rewrite (lastSegment_append _ w2 A2) in L.
  rewrite (lastSegment_append (pre +++ w0 +++ w1) "*" eq_refl) in L.
  rewrite !mem_append in L. change (mem "*" "*") with true in L.
  rewrite !orb_true_r in L. discriminate.
Qed.

Lemma glob_name_globstar (d : string) : test noFlags reGlobName (d +++ "/**") = true.
Proof.
  unfold test, exec.
  destruct (search noFlags reGlobName None (d +++ "/**") 0) eqn:E; [reflexivity|].
  exfalso. revert E. apply search_found. intros p i.
  unfold match_here. destruct p; discriminate.
Qed.

Lemma bareName_inv (d : string) :
  bareName d = true ->
  exists c s x, d = String c s
    /\ isWhite c = false /\ Ascii.eqb c "#" = false /\ Ascii.eqb c "!" = false
    /\ all (fun c => negb (isLineTerminator c)) d = true
    /\ last d = Some x /\ isWhite x = false /\ Ascii.eqb x "/" = false
    /\ mem "*" (lastSegment d) = false.
Proof.
  unfold bareName. intros H.
  repeat (apply andb_true_iff in H; destruct H as [H ?]).
  destruct d as [|c s]; [discriminate|].
  destruct (last (String c s)) as [x|] eqn:L; [|discriminate].
  repeat match goal with
         | H : _ && _ = true |- _ => apply andb_true_iff in H; destruct H
         | H : negb _ = true |- _ => apply negb_true_iff in H
         end.
  exists c, s, x. repeat split; assumption.
Qed.

Lemma parse_single (c : ascii) (s : string) (x : ascii) :
  isWhite c = false -> Ascii.eqb c "#" = false ->
  all (fun c => negb (isLineTerminator c)) (String c s) = true ->
  last (String c s) = Some x -> isWhite x = false ->
  parseIgnore (String c s) = [String c s].
Proof.
  intros W C A L X. unfold parseIgnore.
  rewrite (splitLines_single _ A). cbn [map].
  rewrite (trim_id c s x W L X). cbn [filter truthy].
  unfold reComment. now rewrite (anchored_white_then "#" c s W C).
Qed.

Lemma rules_of_bare (d : string) :
  bareName d = true ->
  ignoreOf d = defaultIgnore ++ [d; d +++ "/**"]
  /\ negateOf d = ["!package.json"]
  /\ ignoreOf (d +++ "/**") = defaultIgnore ++ [d +++ "/**"]
  /\ negateOf (d +++ "/**") = ["!package.json"].
Proof.
  intros B. apply bareName_inv in B.
  destruct B as [c [s [x [-> [W [C [N [A [L [X [Sl G]]]]]]]]]]].
  assert (P1 : parseIgnore (String c s) = [String c s]) by now apply parse_single with x.
  assert (P2 : parseIgnore (String c s +++ "/**") = [String c s +++ "/**"]).
  { apply (parse_single c (s +++ "/**") "*"); try assumption; try reflexivity.
    - change (String c (s +++ "/**")) with (String c s +++ "/**").
      now rewrite all_append, A.
    - change (String c (s +++ "/**")) with (String c s +++ String "/" "**").
      now rewrite last_append_cons. }
  assert (I1 : isIgnore (String c s) = true).
  { unfold isIgnore, reNegate. now rewrite (anchored_white_then "!" c s W N). }
  assert (I2 : isIgnore (String c s +++ "/**") = true).
  { unfold isIgnore, reNegate.
    change (String c s +++ "/**") with (String c (s +++ "/**")).
    now rewrite (anchored_white_then "!" c (s +++ "/**") W N). }
  assert (F1 : addFolders [String c s] = [String c s; String c s +++ "/**"]).
  { unfold addFolders. cbn [filter map app].
    rewrite (not_glob_name _ G). cbn [negb map].
    now rewrite (not_trailing_slash _ x L Sl). }
  assert (F2 : addFolders [String c s +++ "/**"] = [String c s +++ "/**"]).
  { unfold addFolders. cbn [filter map app].
    now rewrite glob_name_globstar. }
  rewrite !ignoreOf_eq, !negateOf_eq, P1, P2, F1, F2.
  cbn [filter]. rewrite I1, I2. cbn [negb app]. repeat split; reflexivity.
Qed.

Section Collect.
Variable minimatch : string -> string -> bool.

Abbreviation collect := (collectFiles minimatch).
Abbreviation excl := (excluded minimatch).
Abbreviation reincl := (reincluded minimatch).

Lemma collectFiles_content (files : list string) (raw : string) :
  collect files (FileContent raw)
  = OK (filter (keep minimatch (ignoreOf raw) (negateOf raw))
          (filter (fun f => negb (hasCarriageReturn f)) files)).
Proof. reflexivity. Qed.

Lemma collectFiles_not_found (files : list string) :
  collect files NotFound = collect files (FileContent "").
Proof. reflexivity. Qed.

Lemma filter_filter (A : Type) (p q : A -> bool) (l : list A) :
  filter p (filter q l) = filter (fun x => q x && p x) l.
Proof.
  induction l as [|x l IH]; simpl; [reflexivity|].
  destruct (q x); simpl; [destruct (p x)|]; now rewrite IH.
Qed.

(** C1 (amended).  The files [collectFiles] keeps are, in their order, the
    candidates that pass the carriage-return filter and satisfy the decision
    rule "not excluded, or re-included"; as sets, included = (F' - excluded)
    + (re-included and excluded), where F' is the candidate list without the
    carriage-return paths.  The exclude rules are the defaults followed by
    the project's patterns without negation marker, the reinclude rules the
    project's patterns with one, followed by [!package.json]. *)
Theorem collectFiles_decision_rule (files : list string) (raw : string) :
  collect files (FileContent raw)
  = OK (filter (fun f => negb (hasCarriageReturn f)
                         && (negb (excl (ignoreOf raw) f) || reincl (negateOf raw) f))
          files)
  /\ (forall out f, collect files (FileContent raw) = OK out ->
        (In f out <->
         In f files /\ hasCarriageReturn f = false /\
         (excl (ignoreOf raw) f = false
          \/ (reincl (negateOf raw) f = true /\ excl (ignoreOf raw) f = true))))
  /\ ignoreOf raw = defaultIgnore ++ filter isIgnore (addFolders (parseIgnore raw))
  /\ negateOf raw
     = filter (fun i => negb (isIgnore i)) (addFolders (parseIgnore raw)) ++ ["!package.json"].
Proof.
  split; [|split; [|split]].
  - rewrite collectFiles_content. now rewrite filter_filter.
  - intros out f. rewrite collectFiles_content. intros [= <-].
    rewrite !filter_In. unfold keep.
    destruct (hasCarriageReturn f), (excl (ignoreOf raw) f), (reincl (negateOf raw) f);
      simpl; intuition discriminate.
  - apply ignoreOf_eq.
  - apply negateOf_eq.
Qed.

(** C10.  A candidate whose path ends with a carriage return, or has one
    right before a line feed, is dropped before the rules are looked at: the
    result is the one for the candidate list without it, and the path is in
    no included set, whatever the ignore file says. *)
Theorem carriage_return_path_dropped (path : string) (files : list string) (ign : readResult) :
  (exists s, path = s +++ String CR "") \/ (exists s t, path = s +++ String CR (String LF t)) ->
  collect (path :: files) ign = collect files ign
  /\ forall more out, collect (more ++ path :: files) ign = OK out -> ~ In path out.
Proof.
  intros H.
  assert (Hcr : hasCarriageReturn path = true).
  { destruct H as [[s ->]|[s [t ->]]]; apply hasCarriageReturn_at_line_end; eauto. }
  split.
  - unfold collectFiles. simpl. now rewrite Hcr.
  - intros more out. unfold collectFiles.
    destruct ign as [raw| |msg]; simpl; try discriminate;
      intros [= <-]; rewrite !filter_In, Hcr; intros [[_ F] _]; discriminate.
Qed.

(** The reinclude rules always end with the manifest. *)
Lemma negateOf_has_manifest (raw : string) : In "!package.json" (negateOf raw).
Proof. rewrite negateOf_eq. apply in_or_app. right. now left. Qed.

(** C4.  When the matcher matches the literal pattern [package.json] against
    the path [package.json], a candidate list that contains [package.json]
    yields an included set that contains it, for every ignore file that can
    be read (or is missing). *)
Theorem manifest_always_included (files : list string) (ign : readResult) :
  minimatch packageJson packageJson = true ->
  (forall msg, ign <> ReadError msg) ->
  In packageJson files ->
  exists out, collect files ign = OK out /\ In packageJson out.
Proof.
  intros Hm Hign Hin.
  assert (K : forall raw, In packageJson
                (filter (keep minimatch (ignoreOf raw) (negateOf raw))
                   (filter (fun f => negb (hasCarriageReturn f)) files))).
  { intros raw. rewrite !filter_In. split; [split; [exact Hin | reflexivity] |].
    unfold keep. apply orb_true_iff. right.
    unfold reincluded. apply existsb_exists. exists "!package.json".
    split; [apply negateOf_has_manifest | exact Hm]. }
  destruct ign as [raw| |msg].
  - eexists. split; [apply collectFiles_content | apply K].
  - eexists. split; [rewrite collectFiles_not_found; apply collectFiles_content | apply K].
  - now destruct (Hign msg).
Qed.


(** C3 (amended).  For a bare folder name [d], the ignore file [d] keeps the
    files that the ignore file [d/**] keeps, less those that match [d] itself
    and are not the manifest; the two included sets are the same when no
    candidate matches [d], as when [d] names a directory. *)
Theorem bare_folder_pattern (d : string) (files : list string) :
  bareName d = true ->
  exists out out',
    collectFiles minimatch files (FileContent d) = OK out
    /\ collectFiles minimatch files (FileContent (d +++ "/**")) = OK out'
    /\ out = filter (fun f => negb (minimatch f d) || minimatch f packageJson) out'
    /\ ((forall f, In f files -> minimatch f d = false) -> out = out').
Proof.
  intros B. destruct (rules_of_bare d B) as [I1 [N1 [I2 N2]]].
  eexists. eexists. split; [apply collectFiles_content|].
  split; [apply collectFiles_content|].
  rewrite I1, N1, I2, N2.
  set (L := filter (fun f => negb (hasCarriageReturn f)) files).
  assert (K : forall f,
    keep minimatch (defaultIgnore ++ [d; d +++ "/**"]) ["!package.json"] f
    = keep minimatch (defaultIgnore ++ [d +++ "/**"]) ["!package.json"] f
      && (negb (minimatch f d) || minimatch f packageJson)).
  { intros f. unfold keep, excluded, reincluded. rewrite !existsb_app.
    cbn [existsb drop]. change "package.json" with packageJson.
    destruct (existsb (fun i => minimatch f i) defaultIgnore), (minimatch f d),
      (minimatch f (d +++ "/**")), (minimatch f packageJson); reflexivity. }
  split.
  - rewrite filter_filter. apply filter_ext. exact K.
  - intros H. apply filter_ext_in. intros f Hf. rewrite K.
    unfold L in Hf. apply filter_In in Hf. destruct Hf as [Hf _].
    rewrite (H f Hf). simpl. now rewrite andb_true_r.
Qed.

End Collect.

Lemma carriage_return_path_dropped_witness :
  collectFiles Glob.minimatch ["Icon" +++ Sample.carriageReturn; "a.txt"]
    (FileContent ("**" +++ Sample.lineFeed +++ "!*"))
  = collectFiles Glob.minimatch ["a.txt"] (FileContent ("**" +++ Sample.lineFeed +++ "!*"))
  /\ forall more out,
       collectFiles Glob.minimatch (more ++ ["Icon" +++ Sample.carriageReturn; "a.txt"])
         (FileContent ("**" +++ Sample.lineFeed +++ "!*")) = OK out ->
       ~ In ("Icon" +++ Sample.carriageReturn) out.
Proof.
  apply (carriage_return_path_dropped Glob.minimatch ("Icon" +++ Sample.carriageReturn)).
  left. now exists "Icon".
Defined.

(** In that example the reinclude pattern does match the dropped path. *)
Example carriage_return_path_reincluded :
  reincluded Glob.minimatch (negateOf ("**" +++ Sample.lineFeed +++ "!*"))
    ("Icon" +++ Sample.carriageReturn) = true.
Proof. reflexivity. Qed.

Lemma manifest_always_included_witness :
  exists out,
    collectFiles Glob.minimatch ["src/a.ts"; "package.json"]
      (FileContent ("**" +++ Sample.lineFeed +++ "package.json")) = OK out
    /\ In packageJson out.
Proof.
  apply (manifest_always_included Glob.minimatch).
  - reflexivity.
  - discriminate.
  - right. now left.
Defined.

(** C1, as stated, fails: with no ignore file the path [Icon\r] is excluded
    by no rule, yet [collectFiles] does not include it. *)
Lemma collectFiles_decision_rule_counterexample :
  excluded Glob.minimatch (ignoreOf "") ("Icon" +++ Sample.carriageReturn) = false
  /\ collectFiles Glob.minimatch ["Icon" +++ Sample.carriageReturn] NotFound = OK [].
Proof. split; reflexivity. Qed.

Lemma bare_folder_pattern_witness :
  exists out out',
    collectFiles Glob.minimatch ["foo/a.txt"; "foo/b/c.txt"; "bar"] (FileContent "foo") = OK out
    /\ collectFiles Glob.minimatch ["foo/a.txt"; "foo/b/c.txt"; "bar"] (FileContent "foo/**")
       = OK out'
    /\ out = filter (fun f => negb (Glob.minimatch f "foo") || Glob.minimatch f packageJson) out'
    /\ ((forall f, In f ["foo/a.txt"; "foo/b/c.txt"; "bar"] -> Glob.minimatch f "foo" = false)
        -> out = out').
Proof. apply (bare_folder_pattern Glob.minimatch "foo"). reflexivity. Defined.

(** C3, as stated, fails: a candidate file named [foo] is excluded by the
    ignore file [foo] and kept by the ignore file [foo/**]. *)
Lemma bare_folder_pattern_counterexample :
  collectFiles Glob.minimatch ["foo"; "foo/a.txt"; "bar"] (FileContent "foo") = OK ["bar"]
  /\ collectFiles Glob.minimatch ["foo"; "foo/a.txt"; "bar"] (FileContent "foo/**")
     = OK ["foo"; "bar"].
Proof. split; reflexivity. Qed.

End IgnoreFacts.
(* ================================================================== *)
(** ** Properties of the Markdown processor *)

Module MarkdownFacts.
Import Str StrFacts RegExpFacts SpliceFacts Markdown.

Local Arguments Ascii.eqb : simpl never.
Local Arguments isWhite : simpl never.

(** *** Issue references *)







Lemma isGitHubRepository_https (rest : string) :
  isGitHubRepository (Some ("https://github.com/" +++ rest)) = true.
Proof. reflexivity. Qed.

Section Issues.
Variable urljoin : list string -> string.
Variable p : Processor.



End Issues.

(** *** Links and images *)





Lemma isFatal_bind (A B : Type) (r : result A) (k : A -> result B) :
  isFatal r = true -> isFatal (bind r k) = true.
Proof. now destruct r. Qed.

Section Links.
Variable urljoin : list string -> string.
Variable p : Processor.

Abbreviation rewrite_ := (rewriteLinks urljoin p).
Abbreviation urlReplace_ := (urlReplace urljoin p).







End Links.




(** *** The three properties of the stage *)

Section StageFacts.
Variable urljoin : list string -> string.
Variable normalize : string -> string.
Variable imgSources : string -> list string.
Variable hasSvgTag : string -> bool.
Variable decodeURI : string -> result string.
Variable urlParse : string -> Url.
Variable toLowerCase : string -> string.

Abbreviation onFileWith_ :=
  (onFileWith urljoin normalize imgSources hasSvgTag decodeURI urlParse toLowerCase).



Lemma checkImages_svg_data (p : Processor) (trusted : list string) (srcs : list string) :
  existsb (isSvgDataImage decodeURI urlParse) srcs = true ->
  isFatal (checkImages decodeURI urlParse toLowerCase p trusted srcs) = true.
Proof.
  induction srcs as [|src srcs IH]; [discriminate|].
  cbn [existsb checkImages]. intros H.
  destruct (checkImage decodeURI urlParse toLowerCase p trusted src) as [[]|msg] eqn:E;
    [|reflexivity].
  simpl. apply IH. apply orb_true_iff in H. destruct H as [H|H]; [|exact H].
  exfalso. unfold isSvgDataImage in H. unfold checkImage in E.
  destruct (decodeURI src) as [u|]; [|discriminate]. simpl in E. rewrite H in E. discriminate.
Qed.

(** An image whose protocol is not [https:] is fatal as well, so that a data
    URL fails even if [url.parse] were to split it in another way. *)
Lemma checkImages_not_https (p : Processor) (trusted : list string) (srcs : list string)
  (src src' : string) :
  In src srcs -> decodeURI src = OK src' ->
  test flagI reHttps (strOf (u_protocol (urlParse src'))) = false ->
  isFatal (checkImages decodeURI urlParse toLowerCase p trusted srcs) = true.
Proof.
  intros Hin D T. induction srcs as [|s srcs IH]; [destruct Hin|].
  cbn [checkImages].
  destruct (checkImage decodeURI urlParse toLowerCase p trusted s) as [[]|msg] eqn:E;
    [|reflexivity].
  simpl. destruct Hin as [->|Hin]; [|now apply IH].
  exfalso. unfold checkImage in E. rewrite D in E. simpl in E. rewrite T in E.
  now destruct (isSvgDataUrl (urlParse src')).
Qed.

(** C5.  When a file goes through the Markdown stage and the text that is
    rendered has an image whose source decodes to an SVG data URL, [onFile]
    fails, whatever list of trusted hosts is used. *)
Theorem svg_data_url_fatal (p : Processor) (trusted : list string) (assets : list IAsset)
  (file : IFile) :
  test flagI (regexp p) (normalize (path file)) = true ->
  (forall t text,
     replaceLinks urljoin p (contents file) = OK t ->
     replaceIssues urljoin p t = OK text ->
     existsb (isSvgDataImage decodeURI urlParse) (imgSources text) = true) ->
  isFatal (onFileWith_ p trusted assets file) = true.
Proof.
  intros T H. unfold onFileWith. rewrite T. cbn [negb].
  destruct (test noFlags rePlaceholder (contents file)); [reflexivity|].
  destruct (replaceLinks urljoin p (contents file)) as [t|] eqn:E1; [|reflexivity].
  cbn [bind].
  destruct (replaceIssues urljoin p t) as [text|] eqn:E2; [|reflexivity].
  cbn [bind]. apply isFatal_bind. unfold validate. apply isFatal_bind.
  apply checkImages_svg_data. now apply (H t text).
Qed.


End StageFacts.

(** *** Closed examples *)



Lemma svg_data_url_fatal_witness :
  isFatal (onFileWith Lib.urljoin Lib.normalize Lib.imgSources Lib.hasSvgTag Lib.decodeURI
             Lib.urlParse Lib.toLowerCase
             (ReadmeProcessor Sample.gitHubManifest Sample.noOptions)
             ["data:image/svg+xml"; "image"] [] Sample.readmeWithSvgData) = true.
Proof.
  apply svg_data_url_fatal.
  - reflexivity.
  - intros t text H1 H2. vm_compute in H1. injection H1 as <-.
    vm_compute in H2. injection H2 as <-. reflexivity.
Defined.


Lemma issue_references_example :
  let p := ReadmeProcessor Sample.gitHubManifest Sample.noOptions in
  isGitHub p = true
  /\ replaceIssues Lib.urljoin p "Fixes #12 and foo/bar#3."
     = OK "Fixes [#12](https://github.com/me/repo/issues/12) and [foo/bar#3](https://github.com/foo/bar/issues/3)."
  /\ replaceIssues Lib.urljoin (ReadmeProcessor (Sample.manifestOf (Manifest.RepoString "https://gitlab.com/me/repo")) Sample.noOptions)
       "Fixes #12 and foo/bar#3." = OK "Fixes #12 and foo/bar#3.".
Proof. repeat split; reflexivity. Qed.

End MarkdownFacts.
(* ================================================================== *)
(** ** Properties of the Icon processor *)

Module IconFacts.
Import Str Icon.

Lemma filter_eqb_nodup (x : string) (l : list string) :
  NoDup l -> In x l -> filter (fun y => String.eqb y x) l = [x].
Proof.
  induction l as [|y l IH]; intros N H; [destruct H|].
  inversion N as [|? ? Hy Nl]; subst. simpl.
  destruct (String.eqb y x) eqn:E.
  - apply String.eqb_eq in E. subst y. f_equal.
    clear IH N Nl H. induction l as [|z l IH]; [reflexivity|]. simpl.
    destruct (String.eqb z x) eqn:Ez.
    + apply String.eqb_eq in Ez. subst z. exfalso. apply Hy. now left.
    + apply IH. intros Hin. apply Hy. now right.
  - destruct H as [->|H]; [now rewrite String.eqb_refl in E | now apply IH].
Qed.

Lemma filter_eqb_repeat (A : Type) (g : string -> A) (x : string) (l : list string) :
  map g (filter (fun y => String.eqb y x) l) = repeat (g x) (count_occ string_dec l x).
Proof.
  induction l as [|y l IH]; [reflexivity|]. cbn [filter count_occ].
  destruct (string_dec y x) as [->|N].
  - rewrite String.eqb_refl. cbn [map repeat]. now rewrite IH.
  - apply String.eqb_neq in N. now rewrite N.
Qed.

Section Stage.
Variable normalize : string -> string.

Abbreviation step := (fun st file => fst (onFile normalize st file)).

Lemma icon_fold_onFile (files : list IFile) :
  forall st,
    icon (fold_left step files st) = icon st
    /\ didFindIcon (fold_left step files st)
       = didFindIcon st || existsb (isIcon st) (pathsOf normalize files)
    /\ assets (fold_left step files st)
       = assets st ++ map iconAsset (filter (isIcon st) (pathsOf normalize files)).
Proof.
  induction files as [|file files IH]; intros st; simpl.
  - now rewrite orb_false_r, app_nil_r.
  - destruct (IH (fst (onFile normalize st file))) as [I [D A]].
    rewrite I, D, A. clear I D A IH. unfold onFile.
    destruct (isIcon st (normalize (path file))) eqn:E; cbn [fst icon didFindIcon assets].
    + split; [reflexivity|]. split; [now rewrite orb_true_r|].
      cbn [map]. now rewrite <- app_assoc.
    + repeat split; reflexivity.
Qed.

Lemma init_icon (manifest : Manifest) (i : string) :
  Manifest.icon manifest = Some i -> i <> "" ->
  icon (init manifest) = Some ("extension/" +++ i).
Proof. unfold init. intros -> H. simpl. destruct i; [congruence | reflexivity]. Qed.

Lemma init_no_icon (manifest : Manifest) :
  (forall i, Manifest.icon manifest = Some i -> i = "") -> icon (init manifest) = None.
Proof.
  unfold init. intros H. simpl. destruct (Manifest.icon manifest) as [i|]; [|reflexivity].
  now rewrite (H i eq_refl).
Qed.

(** C6 (amended).  [onEnd] rejects exactly when the manifest declares a
    (non-empty) icon and no included file has the normalized path
    [extension/<icon>].  When the icon is among the included files, [onEnd]
    succeeds and the icon assets are one per included file with that
    normalized path, at least one and as many as there are such files;
    exactly one asset is registered when the virtual paths of the included
    files are distinct. *)
Theorem icon_finalize (manifest : Manifest) (files : list IFile) :
  (isFatal (onEnd (processed normalize manifest files)) = true <->
     exists i, Manifest.icon manifest = Some i /\ i <> ""
       /\ forall file, In file files -> normalize (path file) <> "extension/" +++ i)
  /\ (forall i, Manifest.icon manifest = Some i -> i <> "" ->
        assets (processed normalize manifest files)
        = map iconAsset
            (filter (fun p => String.eqb p ("extension/" +++ i)) (pathsOf normalize files)))
  /\ (forall i, Manifest.icon manifest = Some i -> i <> "" ->
        In ("extension/" +++ i) (pathsOf normalize files) ->
        onEnd (processed normalize manifest files) = OK tt
        /\ assets (processed normalize manifest files)
           = repeat (iconAsset ("extension/" +++ i))
               (count_occ string_dec (pathsOf normalize files) ("extension/" +++ i))
        /\ 1 <= count_occ string_dec (pathsOf normalize files) ("extension/" +++ i))
  /\ (forall i, Manifest.icon manifest = Some i -> i <> "" ->
        NoDup (pathsOf normalize files) ->
        In ("extension/" +++ i) (pathsOf normalize files) ->
        assets (processed normalize manifest files) = [iconAsset ("extension/" +++ i)]
        /\ onEnd (processed normalize manifest files) = OK tt).
Proof.
  unfold processed.
  destruct (icon_fold_onFile files (init manifest)) as [I [D A]].
  assert (Some_case : forall i, Manifest.icon manifest = Some i -> i <> "" ->
            isIcon (init manifest) = fun p => String.eqb p ("extension/" +++ i)).
  { intros i Hi Ne. unfold isIcon. now rewrite (init_icon manifest i Hi Ne). }
  assert (Found : forall i, Manifest.icon manifest = Some i -> i <> "" ->
            In ("extension/" +++ i) (pathsOf normalize files) ->
            onEnd (fold_left step files (init manifest)) = OK tt).
  { intros i Hi Ne Hin. unfold onEnd. rewrite I, D, (Some_case i Hi Ne).
    cbn [init didFindIcon orb].
    replace (existsb _ (pathsOf normalize files)) with true; [now rewrite andb_false_r|].
    symmetry. apply existsb_exists. exists ("extension/" +++ i).
    split; [exact Hin | apply String.eqb_refl]. }
  split; [|split; [|split]].
  - unfold onEnd. rewrite I.
    destruct (Manifest.icon manifest) as [i|] eqn:Hi.
    + destruct (String.eqb i "") eqn:Ei.
      * apply String.eqb_eq in Ei. subst i.
        rewrite init_no_icon by (intros ? H; rewrite Hi in H; now injection H as <-).
        simpl. split; [discriminate|]. intros [i [[= <-] [Ne _]]]. congruence.
      * apply String.eqb_neq in Ei.
        rewrite (Some_case i eq_refl Ei) in D.
        rewrite D, (init_icon manifest i Hi Ei). cbn [truthyOpt didFindIcon init orb].
        replace (truthy ("extension/" +++ i)) with true by reflexivity. cbn [andb].
        destruct (existsb (fun p => String.eqb p ("extension/" +++ i)) (pathsOf normalize files)) eqn:Ex;
          cbn [negb isFatal].
        -- split; [discriminate|]. intros [j [[= <-] [_ H]]].
           apply existsb_exists in Ex. destruct Ex as [p [Hp Ep]].
           apply String.eqb_eq in Ep. subst p. unfold pathsOf in Hp.
           apply in_map_iff in Hp. destruct Hp as [file [Hf Hin]].
           now destruct (H file Hin).
        -- split; [|reflexivity]. intros _. exists i. repeat split; try assumption.
           intros file Hin Heq.
           assert (existsb (fun p => String.eqb p ("extension/" +++ i)) (pathsOf normalize files) = true).
           { apply existsb_exists. exists (normalize (path file)). split.
             - unfold pathsOf. apply in_map_iff. now exists file.
             - rewrite Heq. apply String.eqb_refl. }
           congruence.
    + rewrite init_no_icon by (intros ? H; rewrite Hi in H; discriminate). simpl.
      split; [discriminate|]. intros [i [[=] _]].
  - intros i Hi Ne. rewrite A, (Some_case i Hi Ne). reflexivity.
  - intros i Hi Ne Hin. split; [now apply (Found i)|]. split.
    + rewrite A, (Some_case i Hi Ne). cbn [init assets app]. apply filter_eqb_repeat.
    + now apply count_occ_In.
  - intros i Hi Ne N Hin. split.
    + rewrite A, (Some_case i Hi Ne). cbn [init assets app].
      now rewrite (filter_eqb_nodup _ _ N Hin).
    + now apply (Found i).
Qed.

End Stage.

Lemma icon_finalize_witness :
  assets (processed Lib.normalize Sample.iconManifest Sample.iconFiles)
  = [iconAsset "extension/images/icon.png"]
  /\ onEnd (processed Lib.normalize Sample.iconManifest Sample.iconFiles) = OK tt.
Proof.
  apply (proj2 (proj2 (proj2 (icon_finalize Lib.normalize Sample.iconManifest
                                 Sample.iconFiles)))
           "images/icon.png" eq_refl).
  - discriminate.
  - repeat constructor; simpl; intuition discriminate.
  - right. now left.
Defined.

(** C6, as stated, fails: two included files with the normalized path of
    the icon give two icon assets.  The list is one that [collect] produces,
    from the file [icon.png] of the folder [images] and a file of the root
    named [images\icon.png]. *)
Lemma icon_finalize_counterexample :
  Cases.twinIconDisk Ignore.NotFound = OK (map path Cases.twinIconFiles)
  /\ Manifest.icon Sample.iconManifest = Some "images/icon.png"
  /\ In "extension/images/icon.png" (pathsOf Lib.normalize Cases.twinIconFiles)
  /\ onEnd (processed Lib.normalize Sample.iconManifest Cases.twinIconFiles) = OK tt
  /\ assets (processed Lib.normalize Sample.iconManifest Cases.twinIconFiles)
     = [iconAsset "extension/images/icon.png"; iconAsset "extension/images/icon.png"].
Proof. repeat split; try reflexivity. right. now left. Qed.

End IconFacts.
(* ================================================================== *)
(** ** Properties of the Localization processor *)

Module NLSFacts.
Import Str NLS.

Lemma get_set (k k' v : string) (o : JsObject.t) :
  JsObject.get k (JsObject.set k' v o)
  = if String.eqb k k' then Some v else JsObject.get k o.
Proof.
  induction o as [|[k0 v0] o IH]; simpl.
  - reflexivity.
  - destruct (String.eqb k' k0) eqn:E; simpl.
    + apply String.eqb_eq in E. subst k0. now destruct (String.eqb k k').
    + destruct (String.eqb k k0) eqn:E0.
      * apply String.eqb_eq in E0. subst k0.
        rewrite String.eqb_sym in E. now rewrite E.
      * exact IH.
Qed.

(** After the assignments the object holds, for each key, the value of the
    last assignment to it. *)
Lemma get_assignments (k : string) (l : list (string * string)) :
  forall o,
    JsObject.get k (fold_left (fun o kv => JsObject.set (fst kv) (snd kv) o) l o)
    = match lastFor k l with Some v => Some v | None => JsObject.get k o end.
Proof.
  induction l as [|[k1 v1] l IH]; intros o; simpl; [reflexivity|].
  rewrite IH, get_set. cbn [fst snd].
  destruct (lastFor k l); [reflexivity|]. now destruct (String.eqb k k1).
Qed.

Lemma in_insertIndex (x : N * string) (n : N) (k : string) (l : list (N * string)) :
  In x (JsObject.insertIndex n k l) <-> x = (n, k) \/ In x l.
Proof.
  induction l as [|[n' k'] l IH]; simpl.
  - intuition.
  - destruct (N.leb n n'); simpl; [intuition|]. rewrite IH. intuition.
Qed.

(** [Object.keys] lists every key that has a value. *)
Lemma keys_complete (k v : string) (o : JsObject.t) :
  JsObject.get k o = Some v -> In k (JsObject.keys o).
Proof.
  intros H. unfold JsObject.keys. apply in_or_app.
  destruct (JsObject.arrayIndex k) as [n|] eqn:A.
  - left. apply in_map_iff. exists (n, k). split; [reflexivity|].
    induction o as [|[k0 v0] o IH]; simpl in *; [discriminate|].
    destruct (String.eqb k k0) eqn:E.
    + apply String.eqb_eq in E. subst k0. rewrite A. apply in_insertIndex. now left.
    + destruct (JsObject.arrayIndex k0); [apply in_insertIndex; right|]; now apply IH.
  - right. apply in_map_iff.
    induction o as [|[k0 v0] o IH]; simpl in *; [discriminate|].
    destruct (String.eqb k k0) eqn:E.
    + apply String.eqb_eq in E. subst k0. exists (k, v0). rewrite A. simpl. now auto.
    + destruct (IH H) as [kv [Hk Hin]]. exists kv. split; [exact Hk|].
      destruct (JsObject.arrayIndex k0); [exact Hin | now right].
Qed.

Abbreviation invertStep langs :=
  (fun o languageId =>
     match JsObject.get languageId langs with
     | Some p => JsObject.set p languageId o
     | None => o
     end).

(** An entry of the inverted map comes from an entry of the map. *)
Lemma get_invert_sound (langs : JsObject.t) (q L : string) (ks : list string) :
  forall o, JsObject.get q (fold_left (invertStep langs) ks o) = Some L ->
    JsObject.get q o = Some L \/ JsObject.get L langs = Some q.
Proof.
  induction ks as [|k ks IH]; intros o H; simpl in H; [now left|].
  apply IH in H. destruct H as [H|H]; [|now right].
  destruct (JsObject.get k langs) as [p|] eqn:E; [|now left].
  rewrite get_set in H. destruct (String.eqb q p) eqn:Eq; [|now left].
  apply String.eqb_eq in Eq. subst p. injection H as <-. now right.
Qed.

(** A path that belongs to one language only is inverted to that language. *)
Lemma get_invert_complete (langs : JsObject.t) (q L : string) (ks : list string) :
  JsObject.get L langs = Some q ->
  (forall L', JsObject.get L' langs = Some q -> L' = L) ->
  forall o, JsObject.get q o = Some L \/ In L ks ->
    JsObject.get q (fold_left (invertStep langs) ks o) = Some L.
Proof.
  intros HL U. induction ks as [|k ks IH]; intros o H; simpl.
  - destruct H as [H|[]]. exact H.
  - apply IH. destruct (JsObject.get k langs) as [p|] eqn:E.
    + rewrite get_set. destruct (String.eqb q p) eqn:Eq.
      * apply String.eqb_eq in Eq. subst p. left. now rewrite (U k E).
      * destruct H as [H|[->|H]]; [now left| |now right].
        rewrite HL in E. injection E as <-. now rewrite String.eqb_refl in Eq.
    + destruct H as [H|[->|H]]; [now left| |now right]. congruence.
Qed.

Lemma truthy_iff (s : string) : truthy s = true <-> s <> "".
Proof. destruct s; simpl; split; congruence. Qed.

Section Stage.
Variable normalize : string -> string.
Variable toUpperCase : string -> string.

Abbreviation lastDeclared_ := (lastDeclared normalize toUpperCase).
Abbreviation processed_ := (processed normalize toUpperCase).
Abbreviation step := (fun st file => fst (onFile normalize st file)).

Lemma get_byLanguage (manifest : Manifest) (L : string) :
  JsObject.get L (byLanguage normalize toUpperCase manifest) = lastDeclared_ manifest L.
Proof.
  unfold byLanguage, lastDeclared.
  destruct (Manifest.localizations manifest) as [ls|]; [|reflexivity].
  rewrite get_assignments. now destruct (lastFor L _).
Qed.

Lemma nls_fold_onFile (files : list IFile) :
  forall st,
    translations (fold_left step files st) = translations st
    /\ assets (fold_left step files st)
       = assets st ++ flat_map (assetOf normalize (translations st)) files.
Proof.
  induction files as [|file files IH]; intros st; simpl.
  - now rewrite app_nil_r.
  - destruct (IH (fst (onFile normalize st file))) as [T A]. rewrite T, A. clear T A IH.
    unfold onFile, assetOf.
    destruct (JsObject.get (normalize (path file)) (translations st)) as [language|];
      [destruct (truthy language)|]; cbn [fst translations assets];
      rewrite ?app_nil_r, <- ?app_assoc; split; reflexivity.
Qed.

(** C8 (amended).  Every translation asset that is registered is, for some
    non-empty language [L] (the upper-cased language id), the asset of type
    [Translation.L] at the path that the manifest declares last for [L] among
    the translations with id [vscode] and a path; it is registered for an
    included file with that normalized path.  Conversely that path is
    registered for [L] when an included file has it, unless another language
    ends on the same path. *)
Theorem translation_assets (manifest : Manifest) (files : list IFile) :
  (forall asset, In asset (assets (processed_ manifest files)) ->
     exists L,
       L <> ""
       /\ asset = translationAsset L (a_path asset)
       /\ lastDeclared_ manifest L = Some (a_path asset)
       /\ exists file, In file files /\ normalize (path file) = a_path asset)
  /\ (forall L q file,
        lastDeclared_ manifest L = Some q -> L <> "" ->
        (forall L', lastDeclared_ manifest L' = Some q -> L' = L) ->
        In file files -> normalize (path file) = q ->
        In (translationAsset L q) (assets (processed_ manifest files))).
Proof.
  unfold processed. destruct (nls_fold_onFile files (init normalize toUpperCase manifest)) as [_ A].
  rewrite A. clear A. cbn [init assets translations app]. split.
  - intros asset H. apply in_flat_map in H. destruct H as [file [Hin H]].
    unfold assetOf in H.
    destruct (JsObject.get (normalize (path file)) _) as [L|] eqn:G; [|destruct H].
    destruct (truthy L) eqn:T; [|destruct H]. destruct H as [<-|[]].
    exists L. split; [now apply truthy_iff|]. split; [reflexivity|]. cbn [a_path translationAsset].
    split; [|now exists file].
    unfold invert in G. apply get_invert_sound in G. destruct G as [G|G]; [discriminate|].
    now rewrite get_byLanguage in G.
  - intros L q file HL Ne U Hin Hq. apply in_flat_map. exists file. split; [exact Hin|].
    unfold assetOf. rewrite Hq.
    assert (G : JsObject.get q (invert (byLanguage normalize toUpperCase manifest)) = Some L).
    { unfold invert. apply get_invert_complete.
      - now rewrite get_byLanguage.
      - intros L' H'. apply U. now rewrite <- get_byLanguage.
      - right. apply keys_complete with q. now rewrite get_byLanguage. }
    rewrite G. apply truthy_iff in Ne. rewrite Ne. now left.
Qed.

End Stage.

Lemma translation_assets_witness :
  In (translationAsset "DE" "extension/translations/main.i18n.json")
     (assets (processed Lib.normalize Lib.toUpperCase Sample.germanManifest Sample.germanFiles)).
Proof.
  apply (proj2 (translation_assets Lib.normalize Lib.toUpperCase Sample.germanManifest
                  Sample.germanFiles)
           "DE" "extension/translations/main.i18n.json"
           (Sample.fileAt "extension/translations/main.i18n.json")).
  - reflexivity.
  - discriminate.
  - intros L' H. unfold lastDeclared, Sample.germanManifest in H.
    cbn [Manifest.localizations] in H.
    match type of H with
    | lastFor _ ?l = _ =>
        change l with [("DE", "extension/translations/main.i18n.json")] in H
    end.
    cbn [lastFor] in H.
    destruct (String.eqb L' "DE") eqn:E; [now apply String.eqb_eq in E | discriminate].
  - now left.
  - reflexivity.
Defined.

(** C8, as stated, fails: the language [de] declares two translation paths,
    and the one that is registered is the first, the one with id [vscode];
    the path declared last is not registered. *)
Lemma translation_assets_counterexample :
  map Manifest.path
    (flat_map Manifest.translations
       (match Manifest.localizations Sample.germanManifest with Some ls => ls | None => [] end))
  = [Some "./translations/main.i18n.json"; Some "./translations/git.i18n.json"]
  /\ assets (processed Lib.normalize Lib.toUpperCase Sample.germanManifest Sample.germanFiles)
     = [translationAsset "DE" "extension/translations/main.i18n.json"].
Proof. split; reflexivity. Qed.

End NLSFacts.
(* ================================================================== *)
(** ** Properties of the License processor *)

Module LicenseFacts.
Import Str StrFacts RegExpFacts License.

(** The license [SEE LICENSE IN X] is recognised and group 1 is [X]. *)
Lemma see_license_exec (X : string) :
  all (fun c => negb (isLineTerminator c)) X = true ->
  exists m, exec noFlags reSeeLicense ("SEE LICENSE IN " +++ X) = Some m
            /\ group 1 m = Some X.
Proof.
  intros A. unfold exec. cbn [String.append search].
  assert (M : rmatch noFlags reSeeLicense Some
                (start_state None ("SEE LICENSE IN " +++ X))
              = Some {| m_prev := lastOr (Some " "%char) X; m_rest := "";
                        m_caps := [(1, X)] |}).
  { refine (star_loop_all noFlags true [CChar LF; CChar CR]
              (fun st' => rmatch noFlags REol Some
                            (set_cap 1 {| m_prev := Some " "%char; m_rest := X; m_caps := [] |} st'))
              X (Some " "%char) [] _ _ _).
    - transitivity (all (fun c => negb (isLineTerminator c)) X); [|exact A].
      clear. induction X as [|c X IH]; [reflexivity|].
      cbn [all]. rewrite IH. f_equal. unfold class_ok, item_ok, isLineTerminator. simpl.
      now rewrite !orb_false_r.
    - cbn [rmatch atEol m_rest]. unfold set_cap, consumed. cbn [m_rest m_prev m_caps String.length].
      now rewrite Nat.sub_0_r, take_all. }
  unfold match_here.
  change (String "S" (String "E" (String "E" (String " " (String "L" (String "I"
            (String "C" (String "E" (String "N" (String "S" (String "E" (String " "
            (String "I" (String "N" (String " " X)))))))))))))))
    with ("SEE LICENSE IN " +++ X).
  rewrite M. eexists. split; reflexivity.
Qed.

(** For a license [SEE LICENSE IN X] (with [X] not empty and on one line)
    the filter is the test of the regular expression compiled from the text
    [^extension/X$], with [X] put in as it is. *)
Lemma licenseFilter_see (newRegExp : string -> result regex) (manifest : Manifest)
  (X : string) :
  Manifest.license manifest = Some ("SEE LICENSE IN " +++ X) ->
  X <> "" ->
  all (fun c => negb (isLineTerminator c)) X = true ->
  licenseFilter newRegExp manifest
  = (regexp <- newRegExp ("^extension/" +++ X +++ "$") ;; OK (test noFlags regexp)).
Proof.
  intros HL Ne A. unfold licenseFilter. rewrite HL.
  destruct (see_license_exec X A) as [m [E G]]. rewrite E.
  unfold groupStr. rewrite G. cbn [truthyOpt]. now rewrite (truthy_nonempty X Ne).
Qed.

(** With the name escaped by [escapeRegExp] the same pattern would accept
    the literal path only. *)
Lemma license_pattern_escaped (c : ascii) :
  match RegExpSyntax.newRegExp ("^extension/" +++ escapeRegExp "LICENSE.md" +++ "$") with
  | OK regexp =>
      test noFlags regexp ("extension/LICENSE" +++ String c "md") = Ascii.eqb c "."
  | Fatal _ => False
  end.
Proof. destruct c as [[] [] [] [] [] [] [] []]; vm_compute; reflexivity. Qed.

(** The file [extension/LICENSE-md] is taken as the license. *)
Lemma license_pattern_example :
  match init RegExpSyntax.newRegExp Sample.seeLicenseManifest with
  | OK st =>
      assets (fst (onFile Lib.normalize Lib.extname st (Sample.fileAt "extension/LICENSE-md")))
      = [{| a_type := "Microsoft.VisualStudio.Services.Content.License";
            a_path := "extension/LICENSE-md.txt" |}]
  | Fatal _ => False
  end.
Proof. vm_compute. reflexivity. Qed.

End LicenseFacts.
(* ================================================================== *)
(** ** The syntax trees of the literals against their source text

    Each regular expression literal of [package.ts] was written above as a
    syntax tree; here the text of the literal is compiled by the pattern
    compiler of the model and compared with that tree. *)

Module RegExpSources.
Import RegExpSyntax.

Example reCarriageReturn_source : sourceOf "\r$" Ignore.reCarriageReturn.
Proof. reflexivity. Qed.

Example reComment_source : sourceOf "^\s*#" Ignore.reComment.
Proof. reflexivity. Qed.

Example reGlobName_source : sourceOf "(^|\/)[^/]*\*[^/]*$" Ignore.reGlobName.
Proof. reflexivity. Qed.

Example reTrailingSlash_source : sourceOf "\/$" Ignore.reTrailingSlash.
Proof. reflexivity. Qed.

Example reNegate_source : sourceOf "^\s*!" Ignore.reNegate.
Proof. reflexivity. Qed.

Example reGitHubPath_source :
  sourceOf "github\.com\/([^/]+)\/([^/]+)(\/|$)" Markdown.reGitHubPath.
Proof. reflexivity. Qed.

Example reDotGit_source : sourceOf "\.git$" Markdown.reDotGit.
Proof. reflexivity. Qed.

Example reGitHubRepository_source :
  sourceOf "^https:\/\/github\.com\/|^git@github\.com:" Markdown.reGitHubRepository.
Proof. reflexivity. Qed.

Example rePlaceholder_source :
  sourceOf "This is the README for your extension " Markdown.rePlaceholder.
Proof. reflexivity. Qed.

Example markdownPathRegex_source :
  sourceOf "(!?)\[([^\]\[]*|!\[[^\]\[]*]\([^\)]+\))\]\(([^\)]+)\)"
    Markdown.markdownPathRegex.
Proof. reflexivity. Qed.

Example reScheme_source : sourceOf "^\w+:\/\/" Markdown.reScheme.
Proof. reflexivity. Qed.

Example markdownIssueRegex_source :
  sourceOf "(\s|\n)([\w\d_-]+\/[\w\d_-]+)?#(\d+)\b" Markdown.markdownIssueRegex.
Proof. reflexivity. Qed.

Example reData_source : sourceOf "^data:$" Markdown.reData.
Proof. reflexivity. Qed.

Example reImage_source : sourceOf "^image$" Markdown.reImage.
Proof. reflexivity. Qed.

Example reSlashSvg_source : sourceOf "\/svg" Markdown.reSlashSvg.
Proof. reflexivity. Qed.

Example reHttps_source : sourceOf "^https:$" Markdown.reHttps.
Proof. reflexivity. Qed.

Example reDotSvg_source : sourceOf "\.svg$" Markdown.reDotSvg.
Proof. reflexivity. Qed.

Example reReadme_source : sourceOf "^extension\/readme.md$" Markdown.reReadme.
Proof. reflexivity. Qed.

Example reChangelog_source : sourceOf "^extension\/changelog.md$" Markdown.reChangelog.
Proof. reflexivity. Qed.

Example reSeeLicense_source : sourceOf "^SEE LICENSE IN (.*)$" License.reSeeLicense.
Proof. reflexivity. Qed.

Example reDefaultLicense_source :
  sourceOf "^extension\/license(\.(md|txt))?$" License.reDefaultLicense.
Proof. reflexivity. Qed.

Example reDotSlash_source : sourceOf "^\.[\/\\]" NLS.reDotSlash.
Proof. reflexivity. Qed.

End RegExpSources.

(* ================================================================== *)
(** ** Completeness of the matcher and tests of literal text *)

Module MatchFacts.
Import Str StrFacts RegExpFacts Text.

Local Arguments Ascii.eqb : simpl never.

(** When [den] can reach a state that the continuation accepts, the matcher
    finds a result (this one or one of higher priority). *)
Lemma rmatch_complete (f : flags) (r : regex) (st st' : mstate) :
  den f r st st' -> forall k, k st' <> None -> rmatch f r k st <> None.
Proof.
  induction 1 as [st|neg items c rest st E C|r1 r2 st st1 st2 _ IH1 _ IH2
                 |r1 r2 st st' _ IH|r1 r2 st st' _ IH|r st
                 |r st st1 st2 _ IH1 Sh _ IH2|i r st st' _ IH|st A|st A|st A];
    intros k K; cbn [rmatch].
  - exact K.
  - now rewrite E, C.
  - apply IH1. now apply IH2.
  - specialize (IH k K). now destruct (rmatch f r1 k st).
  - destruct (rmatch f r1 k st); [discriminate | now apply IH].
  - rewrite star_loop_step. now destruct (rmatch f r _ st).
  - rewrite star_loop_step.
    assert (N : rmatch f r
                  (fun st' => if shorter st' st
                              then star_loop (rmatch f r) (String.length (m_rest st)) k st'
                              else None) st <> None).
    { apply IH1. rewrite Sh.
      unfold shorter in Sh. apply Nat.ltb_lt in Sh.
      rewrite (star_loop_fuel f r k (String.length (m_rest st))
                 (S (String.length (m_rest st1))) st1 Sh (Nat.lt_succ_diag_r _)).
      exact (IH2 k K). }
    now destruct (rmatch f r _ st).
  - apply IH. exact K.
  - now rewrite A.
  - now rewrite A.
  - now rewrite A.
Qed.

Lemma match_here_complete (f : flags) (r : regex) prev rest idx st' :
  den f r (start_state prev rest) st' -> match_here f r prev rest idx <> None.
Proof.
  intros D. unfold match_here.
  pose proof (rmatch_complete f r _ _ D Some) as H.
  destruct (rmatch f r Some (start_state prev rest)); [discriminate|].
  exfalso. apply H; [discriminate | reflexivity].
Qed.

Lemma lastOr_cons (pv : option ascii) (c : ascii) (w : string) :
  lastOr pv (String c w) = lastOr (Some c) w.
Proof. unfold lastOr. rewrite last_cons. now destruct (last w). Qed.

Lemma lastOr_append (pv : option ascii) (a b : string) :
  lastOr pv (a +++ b) = lastOr (lastOr pv a) b.
Proof.
  revert pv. induction a as [|c a IH]; intros pv; [reflexivity|].
  change (String c a +++ b) with (String c (a +++ b)).
  now rewrite !lastOr_cons, IH.
Qed.

Lemma search_complete (f : flags) (r : regex) (pre : string) :
  forall prev rest idx st',
    den f r (start_state (lastOr prev pre) rest) st' ->
    search f r prev (pre +++ rest) idx <> None.
Proof.
  induction pre as [|c pre IH]; intros prev rest idx st' D.
  - cbn [String.append]. pose proof (match_here_complete f r prev rest idx st' D) as M.
    destruct rest; cbn [search]; now destruct (match_here f r prev _ idx).
  - change (String c pre +++ rest) with (String c (pre +++ rest)). cbn [search].
    destruct (match_here f r prev _ idx); [discriminate|].
    apply IH with st'. now rewrite <- (lastOr_cons prev c pre).
Qed.

(** [test] succeeds exactly when the expression matches somewhere. *)
Lemma test_den (f : flags) (r : regex) (s : string) :
  test f r s = true <->
  exists pre rest st', s = pre +++ rest /\ den f r (start_state (last pre) rest) st'.
Proof.
  unfold test, exec. split.
  - destruct (search f r None s 0) as [m|] eqn:E; [|discriminate]. intros _.
    apply search_sound in E. destruct E as [pre [rest [p [-> [M ->]]]]].
    apply match_here_sound in M. destruct M as [st' [D _]].
    exists pre, rest, st'. split; [reflexivity|]. now destruct (last pre).
  - intros [pre [rest [st' [-> D]]]].
    pose proof (search_complete f r pre None rest 0 st') as H.
    destruct (search f r None (pre +++ rest) 0); [reflexivity|].
    exfalso. apply H; [|reflexivity]. unfold lastOr. now destruct (last pre).
Qed.

Lemma test_false_den (f : flags) (r : regex) (s : string) :
  (forall pre rest st', s = pre +++ rest -> ~ den f r (start_state (last pre) rest) st') ->
  test f r s = false.
Proof.
  intros H. destruct (test f r s) eqn:E; [|reflexivity].
  apply test_den in E. destruct E as [pre [rest [st' [E D]]]].
  exfalso. exact (H pre rest st' E D).
Qed.

(** *** Literal text *)

Lemma same_length (ic : bool) (a : string) :
  forall w, same ic a w = true -> String.length w = String.length a.
Proof.
  induction a as [|x a IH]; intros [|c w] H; simpl in *; try discriminate; [reflexivity|].
  apply andb_true_iff in H. destruct H as [_ H]. now rewrite (IH w H).
Qed.

Lemma same_refl (ic : bool) (a : string) : same ic a a = true.
Proof.
  induction a as [|x a IH]; [reflexivity|]. cbn [same]. rewrite IH, andb_true_r.
  unfold charOk, class_ok, item_ok. cbn. now rewrite Ascii.eqb_refl.
Qed.

Lemma charOk_exact (a c : ascii) : charOk false a c = Ascii.eqb c a.
Proof. unfold charOk, class_ok, item_ok. cbn. now rewrite !orb_false_r. Qed.

Lemma same_exact (a : string) : forall w, same false a w = true <-> w = a.
Proof.
  induction a as [|x a IH]; intros [|c w]; cbn [same]; split; try discriminate;
    try reflexivity.
  - intros H. apply andb_true_iff in H. destruct H as [H1 H2].
    rewrite charOk_exact in H1. apply Ascii.eqb_eq in H1. apply IH in H2. now subst.
  - intros [= -> ->]. now rewrite charOk_exact, Ascii.eqb_refl, (proj2 (IH a) eq_refl).
Qed.

Lemma same_append (ic : bool) (a b : string) :
  forall w, same ic (a +++ b) w = true <->
    exists wa wb, w = wa +++ wb /\ same ic a wa = true /\ same ic b wb = true.
Proof.
  induction a as [|x a IH]; intros w.
  - cbn [String.append]. split.
    + intros H. now exists "", w.
    + intros [wa [wb [-> [Ha Hb]]]]. destruct wa; [exact Hb | discriminate].
  - change (String x a +++ b) with (String x (a +++ b)). split.
    + destruct w as [|c w]; cbn [same]; [discriminate|].
      intros H. apply andb_true_iff in H. destruct H as [H1 H2].
      apply IH in H2. destruct H2 as [wa [wb [-> [Ha Hb]]]].
      exists (String c wa), wb. cbn [same]. now rewrite H1, Ha.
    + intros [wa [wb [-> [Ha Hb]]]]. destruct wa as [|c wa]; [discriminate|].
      cbn [same] in Ha. apply andb_true_iff in Ha. destruct Ha as [H1 Ha].
      change (String c wa +++ wb) with (String c (wa +++ wb)). cbn [same].
      rewrite H1. apply IH. now exists wa, wb.
Qed.

(** What a literal consumes. *)
Lemma den_lit (f : flags) (a : string) :
  forall st st',
    den f (RLit a) st st' <->
    exists w rest',
      same (ignoreCase f) a w = true /\ m_rest st = w +++ rest'
      /\ st' = {| m_prev := lastOr (m_prev st) w; m_rest := rest'; m_caps := m_caps st |}.
Proof.
  induction a as [|x a IH]; intros st st'.
  - cbn [RLit]. split.
    + intros D. apply den_empty_inv in D. subst st'. exists "", (m_rest st).
      now destruct st.
    + intros [w [rest' [S [E ->]]]]. destruct w; [|discriminate].
      cbn in E. rewrite <- E. destruct st. constructor.
  - assert (One : forall st st',
               den f (RChar x) st st' <->
               exists c rest', charOk (ignoreCase f) x c = true
                 /\ m_rest st = String c rest' /\ st' = advance c rest' st).
    { clear. intros st st'. split.
      - intros D. apply den_set_inv in D. destruct D as [c [rest [E [C ->]]]].
        now exists c, rest.
      - intros [c [rest' [C [E ->]]]]. now constructor. }
    destruct a as [|y a].
    + cbn [RLit]. rewrite One. split.
      * intros [c [rest' [C [E ->]]]]. exists (String c ""), rest'.
        cbn [same]. now rewrite C.
      * intros [w [rest' [S [E ->]]]]. destruct w as [|c [|d w]]; try discriminate.
        -- cbn [same] in S. apply andb_true_iff in S. destruct S as [C _].
           now exists c, rest'.
        -- cbn [same] in S. apply andb_true_iff in S. destruct S as [_ S]. discriminate.
    + change (RLit (String x (String y a))) with (RSeq (RChar x) (RLit (String y a))).
      split.
      * intros D. apply den_seq_inv in D. destruct D as [st1 [D1 D2]].
        apply One in D1. destruct D1 as [c [r1 [C [E ->]]]].
        apply IH in D2. destruct D2 as [w [rest' [S [E2 ->]]]].
        cbn [advance m_rest m_prev m_caps] in *.
        exists (String c w), rest'. split; [|split].
        -- cbn [same]. cbn [same] in S. now rewrite C, S.
        -- rewrite E, E2. reflexivity.
        -- now rewrite lastOr_cons.
      * intros [w [rest' [S [E ->]]]]. destruct w as [|c w]; [discriminate|].
        change (same (ignoreCase f) (String x (String y a)) (String c w))
          with (charOk (ignoreCase f) x c && same (ignoreCase f) (String y a) w) in S.
        apply andb_true_iff in S. destruct S as [C S].
        apply den_seq with (advance c (w +++ rest') st).
        -- apply One. now exists c, (w +++ rest').
        -- apply IH. exists w, rest'. cbn [advance m_rest m_prev m_caps].
           split; [exact S|]. split; [reflexivity|]. now rewrite lastOr_cons.
Qed.

Section Literal.
Variable f : flags.
Hypothesis single_line : multiline f = false.

(** [/^a$/]: the whole input is the literal. *)
Lemma test_whole (a s : string) :
  test f (RSeqs [RBol; RLit a; REol]) s = same (ignoreCase f) a s.
Proof.
  apply eq_true_iff_eq. rewrite test_den. cbn [RSeqs]. split.
  - intros [pre [rest [st' [-> D]]]].
    apply den_seq_inv in D. destruct D as [st1 [D1 D]].
    apply den_seq_inv in D. destruct D as [st2 [D2 D3]].
    apply den_bol_inv in D1. destruct D1 as [-> B].
    apply den_eol_inv in D3. destruct D3 as [-> E].
    apply den_lit in D2. destruct D2 as [w [rest' [S [Er ->]]]].
    unfold atBol in B. unfold atEol in E. cbn in B, E, Er.
    rewrite single_line in B, E.
    destruct (last pre) eqn:L; [discriminate|]. apply last_none in L. subst pre.
    destruct rest'; [|discriminate]. rewrite append_nil_r in Er. now subst.
  - intros S. exists "", s, {| m_prev := lastOr None s; m_rest := ""; m_caps := [] |}.
    split; [reflexivity|].
    apply den_seq with (start_state None s); [now constructor|].
    apply den_seq with {| m_prev := lastOr None s; m_rest := ""; m_caps := [] |}.
    + apply den_lit. exists s, "". cbn. now rewrite append_nil_r.
    + now constructor.
Qed.

(** [/a$/]: the input ends with the literal. *)
Lemma test_suffix (a s : string) :
  test f (RSeq (RLit a) REol) s = true <->
  exists pre w, s = pre +++ w /\ same (ignoreCase f) a w = true.
Proof.
  rewrite test_den. split.
  - intros [pre [rest [st' [-> D]]]].
    apply den_seq_inv in D. destruct D as [st1 [D1 D2]].
    apply den_eol_inv in D2. destruct D2 as [-> E].
    apply den_lit in D1. destruct D1 as [w [rest' [S [Er ->]]]].
    unfold atEol in E. cbn in E, Er. rewrite single_line in E.
    destruct rest'; [|discriminate]. rewrite append_nil_r in Er. subst rest.
    now exists pre, w.
  - intros [pre [w [-> S]]].
    exists pre, w, {| m_prev := lastOr (last pre) w; m_rest := ""; m_caps := [] |}.
    split; [reflexivity|].
    apply den_seq with {| m_prev := lastOr (last pre) w; m_rest := ""; m_caps := [] |}.
    + apply den_lit. exists w, "". cbn. now rewrite append_nil_r.
    + now constructor.
Qed.

(** [/^a/]: the input starts with the literal. *)
Lemma test_prefix (a s : string) :
  test f (RSeq RBol (RLit a)) s = true <->
  exists w post, s = w +++ post /\ same (ignoreCase f) a w = true.
Proof.
  rewrite test_den. split.
  - intros [pre [rest [st' [-> D]]]].
    apply den_seq_inv in D. destruct D as [st1 [D1 D2]].
    apply den_bol_inv in D1. destruct D1 as [-> B].
    apply den_lit in D2. destruct D2 as [w [rest' [S [Er ->]]]].
    unfold atBol in B. cbn in B, Er. rewrite single_line in B.
    destruct (last pre) eqn:L; [discriminate|]. apply last_none in L. subst pre.
    now exists w, rest'.
  - intros [w [post [-> S]]].
    exists "", (w +++ post), {| m_prev := lastOr None w; m_rest := post; m_caps := [] |}.
    split; [reflexivity|].
    apply den_seq with (start_state None (w +++ post)); [now constructor|].
    apply den_lit. now exists w, post.
Qed.

End Literal.

(** [/a/]: the literal occurs in the input. *)
Lemma test_contains (f : flags) (a s : string) :
  test f (RLit a) s = true <->
  exists pre w post, s = pre +++ w +++ post /\ same (ignoreCase f) a w = true.
Proof.
  rewrite test_den. split.
  - intros [pre [rest [st' [-> D]]]].
    apply den_lit in D. destruct D as [w [rest' [S [Er ->]]]]. cbn in Er. subst rest.
    now exists pre, w, rest'.
  - intros [pre [w [post [-> S]]]].
    exists pre, (w +++ post), {| m_prev := lastOr (last pre) w; m_rest := post; m_caps := [] |}.
    split; [reflexivity|]. apply den_lit. now exists w, post.
Qed.

(** A run of a class as [den] sees it. *)
Lemma den_star_run (f : flags) (neg : bool) (items : list citem) (w : string) :
  forall pv rest cs,
    all (class_ok (ignoreCase f) neg items) w = true ->
    den f (RStar (RSet neg items))
      {| m_prev := pv; m_rest := w +++ rest; m_caps := cs |}
      {| m_prev := lastOr pv w; m_rest := rest; m_caps := cs |}.
Proof.
  induction w as [|c w IH]; intros pv rest cs A.
  - constructor.
  - cbn [all] in A. apply andb_true_iff in A. destruct A as [C A].
    apply den_star_cons with {| m_prev := Some c; m_rest := w +++ rest; m_caps := cs |}.
    + now apply (den_set f neg items c (w +++ rest)
                   {| m_prev := pv; m_rest := String c w +++ rest; m_caps := cs |}).
    + unfold shorter. cbn [m_rest String.append String.length]. apply Nat.ltb_lt. lia.
    + rewrite lastOr_cons. now apply IH.
Qed.

Lemma den_plus_run (f : flags) (neg : bool) (items : list citem) (c : ascii) (w : string) :
  forall pv rest cs,
    all (class_ok (ignoreCase f) neg items) (String c w) = true ->
    den f (RPlus (RSet neg items))
      {| m_prev := pv; m_rest := String c w +++ rest; m_caps := cs |}
      {| m_prev := lastOr pv (String c w); m_rest := rest; m_caps := cs |}.
Proof.
  intros pv rest cs A. cbn [all] in A. apply andb_true_iff in A. destruct A as [C A].
  apply den_seq with {| m_prev := Some c; m_rest := w +++ rest; m_caps := cs |}.
  - now apply (den_set f neg items c (w +++ rest)
                 {| m_prev := pv; m_rest := String c w +++ rest; m_caps := cs |}).
  - rewrite lastOr_cons. now apply den_star_run.
Qed.

Lemma not_char_class (x : ascii) (w : string) :
  mem x w = false -> all (class_ok false true [CChar x]) w = true.
Proof.
  induction w as [|c w IH]; [reflexivity|]. cbn [mem all].
  intros H. apply orb_false_iff in H. destruct H as [H1 H2].
  rewrite (IH H2), andb_true_r.
  unfold class_ok, item_ok. cbn [existsb item_has xorb andb orb].
  rewrite Ascii.eqb_sym in H1. now rewrite H1.
Qed.

End MatchFacts.
(* ================================================================== *)
(** ** Properties of [getRepositoryUrl] and of the Manifest processor *)

Module RepositoryFacts.
Import Str StrFacts RegExpFacts MatchFacts Text.

Local Arguments Ascii.eqb : simpl never.

Lemma count_append (c : ascii) (a b : string) : count c (a +++ b) = count c a + count c b.
Proof.
  induction a as [|x a IH]; [reflexivity|].
  change (String x a +++ b) with (String x (a +++ b)). cbn [count]. rewrite IH. lia.
Qed.

Lemma count_mem (c : ascii) (s : string) : mem c s = false <-> count c s = 0.
Proof.
  induction s as [|x s IH]; [now split|]. cbn [mem count].
  destruct (Ascii.eqb c x); cbn [orb]; [split; [discriminate | lia]|]. exact IH.
Qed.

(** Two ways to cut a text at its first slash are the same. *)
Lemma first_slash (a b x y : string) :
  mem "/" a = false -> mem "/" b = false ->
  a +++ String "/" x = b +++ String "/" y -> a = b /\ x = y.
Proof.
  revert b. induction a as [|c a IH]; intros [|d b] Ha Hb E; cbn in E.
  - now injection E as ->.
  - injection E as <- _. discriminate.
  - injection E as -> _. discriminate.
  - injection E as -> E. cbn [mem] in Ha, Hb.
    apply orb_false_iff in Ha. apply orb_false_iff in Hb.
    destruct (IH b (proj2 Ha) (proj2 Hb) E) as [-> ->]. now split.
Qed.

(** The shorthand test: one slash, with text on both sides. *)
Lemma shorthand_iff (s : string) :
  test noFlags reShorthand s = true <->
  exists a b, s = a +++ String "/" b /\ a <> "" /\ b <> ""
              /\ mem "/" a = false /\ mem "/" b = false.
Proof.
  rewrite test_den. unfold reShorthand. cbn [RSeqs]. split.
  - intros [pre [rest [st' [-> D]]]].
    apply den_seq_inv in D. destruct D as [st1 [D1 D]].
    apply den_seq_inv in D. destruct D as [st2 [D2 D]].
    apply den_seq_inv in D. destruct D as [st3 [D3 D]].
    apply den_seq_inv in D. destruct D as [st4 [D4 D5]].
    apply den_bol_inv in D1. destruct D1 as [-> B].
    apply den_eol_inv in D5. destruct D5 as [-> E].
    apply den_plus_set in D2. destruct D2 as [c1 [w1 [E1 [C1 [A1 _]]]]].
    apply den_char_inv in D3; [|reflexivity]. destruct D3 as [r3 [E3 ->]].
    apply den_plus_set in D4. destruct D4 as [c2 [w2 [E2 [C2 [A2 _]]]]].
    unfold atBol in B. unfold atEol in E. cbn in B, E, E1, E2.
    destruct (last pre) eqn:L; [discriminate|]. apply last_none in L. subst pre.
    destruct (m_rest st4); [|discriminate]. rewrite append_nil_r in E2. subst r3.
    rewrite E3 in E1. cbn [String.append].
    exists (String c1 w1), (String c2 w2). rewrite E1.
    split; [reflexivity|]. split; [discriminate|]. split; [discriminate|].
    split; apply (IgnoreFacts.class_not_char false); cbn [all]; apply andb_true_iff;
      now split.
  - intros [a [b [-> [Na [Nb [Ha Hb]]]]]].
    destruct a as [|c1 w1]; [congruence|]. destruct b as [|c2 w2]; [congruence|].
    exists "", (String c1 w1 +++ String "/" (String c2 w2)),
      {| m_prev := lastOr (Some "/"%char) (String c2 w2); m_rest := ""; m_caps := [] |}.
    split; [reflexivity|].
    apply den_seq with (start_state None (String c1 w1 +++ String "/" (String c2 w2)));
      [now constructor|].
    apply den_seq with {| m_prev := lastOr None (String c1 w1);
                          m_rest := String "/" (String c2 w2); m_caps := [] |}.
    { apply den_plus_run. now apply not_char_class. }
    apply den_seq with {| m_prev := Some "/"%char; m_rest := String c2 w2; m_caps := [] |}.
    { now apply (den_set noFlags false [CChar "/"] "/" (String c2 w2)
                   {| m_prev := lastOr None (String c1 w1);
                      m_rest := String "/" (String c2 w2); m_caps := [] |}). }
    apply den_seq with {| m_prev := lastOr (Some "/"%char) (String c2 w2);
                          m_rest := ""; m_caps := [] |}.
    { rewrite <- (append_nil_r (String c2 w2)) at 1.
      apply den_plus_run. now apply not_char_class. }
    now constructor.
Qed.

Lemma getRepositoryUrl_of_shorthand (url : Manifest.repositoryField) (a b : string) :
  getUrl url = Some (a +++ String "/" b) ->
  a <> "" -> b <> "" -> mem "/" a = false -> mem "/" b = false ->
  getRepositoryUrl url = Some ("https://github.com/" +++ a +++ String "/" b +++ ".git").
Proof.
  intros E Na Nb Ha Hb. unfold getRepositoryUrl. rewrite E. cbn [Markdown.strOf].
  rewrite (proj2 (shorthand_iff _)); [now rewrite append_assoc|].
  now exists a, b.
Qed.

(** X1.  [getRepositoryUrl] reads a repository as a GitHub shorthand
    exactly when it has one slash with text on both sides: it then returns
    [https://github.com/<text>.git].  Every other value is returned as
    [getUrl] gives it. *)
Theorem getRepositoryUrl_shorthand (url : Manifest.repositoryField) :
  (forall a b,
     getUrl url = Some (a +++ String "/" b) ->
     a <> "" -> b <> "" -> mem "/" a = false -> mem "/" b = false ->
     getRepositoryUrl url = Some ("https://github.com/" +++ a +++ String "/" b +++ ".git"))
  /\ ((forall a b, getUrl url = Some (a +++ String "/" b) ->
         mem "/" a = false -> mem "/" b = false -> a = "" \/ b = "") ->
      getRepositoryUrl url = getUrl url).
Proof.
  split.
  - intros a b. apply getRepositoryUrl_of_shorthand.
  - unfold getRepositoryUrl.
    intros H. destruct (getUrl url) as [s|] eqn:E; [|reflexivity]. cbn [Markdown.strOf].
    destruct (test noFlags reShorthand s) eqn:T; [|reflexivity].
    apply shorthand_iff in T. destruct T as [a [b [-> [Na [Nb [Ha Hb]]]]]].
    destruct (H a b eq_refl Ha Hb); contradiction.
Qed.

Lemma getRepositoryUrl_shorthand_witness :
  getRepositoryUrl (Manifest.RepoString "me/repo") = Some "https://github.com/me/repo.git".
Proof.
  apply (proj1 (getRepositoryUrl_shorthand (Manifest.RepoString "me/repo")) "me" "repo");
    (reflexivity || discriminate).
Defined.

(** A repository in the form of an SSH address has one slash, and is read
    as a shorthand. *)
Example getRepositoryUrl_ssh :
  getRepositoryUrl (Manifest.RepoString "git@github.com:me/repo.git")
  = Some "https://github.com/git@github.com:me/repo.git.git".
Proof. reflexivity. Qed.

Lemma test_alt (f : flags) (r1 r2 : regex) (s : string) :
  test f (RAlt r1 r2) s = test f r1 s || test f r2 s.
Proof.
  apply eq_true_iff_eq. rewrite orb_true_iff, !test_den. split.
  - intros [pre [rest [st' [E D]]]]. apply den_alt_inv in D.
    destruct D as [D|D]; [left | right]; now exists pre, rest, st'.
  - intros [[pre [rest [st' [E D]]]]|[pre [rest [st' [E D]]]]];
      exists pre, rest, st'; (split; [exact E|]); [now apply den_alt_l | now apply den_alt_r].
Qed.

(** [isGitHubRepository]: the address starts with one of the two GitHub
    prefixes. *)
Lemma isGitHubRepository_iff (repository : option string) :
  Markdown.isGitHubRepository repository = true <->
  exists s post, repository = Some s
    /\ (s = "https://github.com/" +++ post \/ s = "git@github.com:" +++ post).
Proof.
  unfold Markdown.isGitHubRepository, Markdown.reGitHubRepository.
  rewrite test_alt, orb_true_iff, !(test_prefix noFlags eq_refl). split.
  - intros [[w [post [E S]]]|[w [post [E S]]]]; apply same_exact in S; subst w;
      (destruct repository as [s|]; [subst s|discriminate]); eexists; exists post;
      (split; [reflexivity|]); [now left | now right].
  - intros [s [post [-> [-> | ->]]]]; [left | right]; eexists; exists post;
      (split; [reflexivity|]); apply same_refl.
Qed.

Lemma guess_needs_two_slashes (manifest : Manifest) (g : Markdown.Guess) :
  Markdown.guessBaseUrls manifest = Some g ->
  exists s, (Manifest.repository manifest = Manifest.RepoString s
             \/ Manifest.repository manifest = Manifest.RepoObject (Some s))
            /\ 2 <= count "/" s.
Proof.
  unfold Markdown.guessBaseUrls.
  set (repo := match Manifest.repository manifest with
               | Manifest.RepoString s => Some s
               | Manifest.RepoObject (Some url) => Some url
               | _ => None
               end).
  destruct (negb (truthyOpt repo)); [discriminate|].
  destruct (exec noFlags Markdown.reGitHubPath _) as [m|] eqn:E; [|discriminate].
  intros _. unfold exec in E. apply search_sound in E.
  destruct E as [pre [rest [p [Es [M _]]]]].
  apply match_here_sound in M. destruct M as [st' [D _]].
  unfold Markdown.reGitHubPath in D. cbn [RSeqs] in D.
  apply den_seq_inv in D. destruct D as [st1 [D1 D]].
  apply den_seq_inv in D. destruct D as [st2 [D2 D]].
  apply den_seq_inv in D. destruct D as [st3 [D3 D]].
  apply den_lit in D1. destruct D1 as [w [r1 [S [E1 ->]]]].
  apply same_exact in S. subst w.
  apply den_group_inv in D2. destruct D2 as [sa [D2 ->]].
  apply den_rest in D2. destruct D2 as [w2 E2].
  apply den_char_inv in D3; [|reflexivity]. destruct D3 as [r3 [E3 _]].
  cbn in E1, E2, E3. rewrite E3 in E2. rewrite E2 in E1. subst rest.
  assert (C : 2 <= count "/" (pre +++ "github.com/" +++ w2 +++ String "/" r3)).
  { rewrite !count_append. change (count "/" "github.com/") with 1.
    cbn [count]. change (Ascii.eqb "/" "/") with true. cbv iota. lia. }
  unfold repo in Es.
  destruct (Manifest.repository manifest) as [|s|[s|]]; cbn in Es.
  - exfalso. destruct pre; discriminate.
  - exists s. split; [now left|]. now rewrite Es.
  - exists s. split; [now right|]. now rewrite Es.
  - exfalso. destruct pre; discriminate.
Qed.

Section Processor.
Import ManifestProcessor.

Lemma init_links (manifest : Input) (vsix : Vsix) :
  init manifest = OK vsix ->
  l_repository (v_links vsix) = getRepositoryUrl (repository manifest)
  /\ l_github (v_links vsix)
     = if Markdown.isGitHubRepository (getRepositoryUrl (repository manifest))
       then getRepositoryUrl (repository manifest) else None.
Proof.
  unfold init. destruct (engines manifest); [|discriminate]. intros [= <-]. now split.
Qed.

(** X2.  The Manifest processor records [links.github] exactly when the
    repository it records starts with [https://github.com/] or
    [git@github.com:], and then it is that repository.  A manifest without
    [engines] makes the constructor throw. *)
Theorem manifest_github_link (manifest : Input) :
  match init manifest with
  | OK vsix =>
      engines manifest <> None
      /\ l_repository (v_links vsix) = getRepositoryUrl (repository manifest)
      /\ (forall r, l_github (v_links vsix) = Some r <->
            l_repository (v_links vsix) = Some r
            /\ exists post, r = "https://github.com/" +++ post
                            \/ r = "git@github.com:" +++ post)
  | Fatal _ => engines manifest = None
  end.
Proof.
  unfold init. destruct (engines manifest) as [e|]; [|reflexivity].
  cbn [v_links l_repository l_github].
  split; [discriminate|]. split; [reflexivity|]. intros r.
  destruct (Markdown.isGitHubRepository (getRepositoryUrl (repository manifest))) eqn:G.
  - apply isGitHubRepository_iff in G. destruct G as [s [post [E H]]]. rewrite E. split.
    + intros [= <-]. split; [reflexivity|]. now exists post.
    + now intros [[= <-] _].
  - split; [discriminate|]. intros [E [post H]]. exfalso.
    assert (T : Markdown.isGitHubRepository (getRepositoryUrl (repository manifest)) = true).
    { apply isGitHubRepository_iff. now exists r, post. }
    congruence.
Qed.

(** X3.  For a repository given as the shorthand [a/b] the two
    processors disagree: the Manifest processor records the GitHub link
    [https://github.com/a/b.git], while the Markdown processor infers no
    base URL from it, so that without base URL options it has none. *)
Theorem shorthand_repository_split (a b : string) (input : Input) (manifest : Manifest)
  (name : string) (regexp : regex) (assetType : string) :
  a <> "" -> b <> "" -> mem "/" a = false -> mem "/" b = false ->
  repository input = Manifest.RepoString (a +++ String "/" b) ->
  Manifest.repository manifest = Manifest.RepoString (a +++ String "/" b) ->
  (forall vsix, init input = OK vsix ->
     l_github (v_links vsix) = Some ("https://github.com/" +++ a +++ String "/" b +++ ".git"))
  /\ Markdown.guessBaseUrls manifest = None
  /\ Markdown.noBase (Markdown.mkProcessor manifest name regexp assetType Sample.noOptions)
     = true.
Proof.
  intros Na Nb Ha Hb Ri Rm.
  assert (G : Markdown.guessBaseUrls manifest = None).
  { destruct (Markdown.guessBaseUrls manifest) as [g|] eqn:E; [|reflexivity].
    exfalso. apply guess_needs_two_slashes in E. destruct E as [s [Hs C]].
    rewrite Rm in Hs. destruct Hs as [[= <-]|Hs]; [|discriminate].
    rewrite count_append in C. cbn [count] in C.
    apply count_mem in Ha. apply count_mem in Hb.
    change (Ascii.eqb "/" "/") with true in C. cbv iota in C. lia. }
  split; [|split; [exact G|]].
  - intros vsix E. apply init_links in E. destruct E as [_ L]. rewrite L, Ri.
    assert (U : getUrl (Manifest.RepoString (a +++ String "/" b)) = Some (a +++ String "/" b)).
    { cbn [getUrl]. destruct a; [congruence | reflexivity]. }
    now rewrite (getRepositoryUrl_of_shorthand _ a b U Na Nb Ha Hb).
  - unfold Markdown.noBase, Markdown.mkProcessor. rewrite G. reflexivity.
Qed.

Lemma optEqb_eq (a b : option string) : optEqb a b = true <-> a = b.
Proof.
  destruct a as [x|], b as [y|]; cbn; split; try discriminate; try reflexivity.
  - intros H. apply String.eqb_eq in H. now subst.
  - intros [= ->]. apply String.eqb_refl.
Qed.

(** [/^y$/i] accepts the two answers [y] and [Y]. *)
Lemma yes_iff (answer : string) :
  test flagI reYes answer = true <-> answer = "y" \/ answer = "Y".
Proof.
  change reYes with (RSeqs [RBol; RLit "y"; REol]).
  rewrite (test_whole flagI eq_refl). cbn [ignoreCase flagI].
  destruct answer as [|c [|d w]]; cbn [same].
  - split; [discriminate | now intros [H|H]].
  - rewrite andb_true_r. split.
    + intros H. destruct c as [[] [] [] [] [] [] [] []]; try discriminate H; auto.
    + now intros [[= ->]|[= ->]].
  - rewrite andb_false_r. split; [discriminate | now intros [H|H]].
Qed.

(** X4.  [onEnd] of the Manifest processor rejects the publisher
    [vscode-samples] whatever else the manifest holds.  For another
    publisher a manifest with a repository passes without a question; one
    without a repository passes exactly when the answer at the prompt is [y]
    or [Y]. *)
Theorem manifest_onEnd (read : string -> result string) (manifest : Input) :
  (publisher manifest = Some "vscode-samples" -> isFatal (onEnd read manifest) = true)
  /\ (publisher manifest <> Some "vscode-samples" ->
      (noRepository manifest = false -> onEnd read manifest = OK tt)
      /\ (noRepository manifest = true ->
          forall answer, read "Do you want to continue? [y/N] " = OK answer ->
            (onEnd read manifest = OK tt <-> answer = "y" \/ answer = "Y")
            /\ (onEnd read manifest = OK tt \/ onEnd read manifest = Fatal "Aborted"))).
Proof.
  unfold onEnd. split.
  - intros P. rewrite (proj2 (optEqb_eq _ _) P). reflexivity.
  - intros P.
    destruct (optEqb (publisher manifest) (Some "vscode-samples")) eqn:E;
      [apply optEqb_eq in E; contradiction|].
    split; [now intros ->|]. intros -> answer ->. cbn [bind].
    destruct (test flagI reYes answer) eqn:T; cbn [negb].
    + apply yes_iff in T. split; [now split | now left].
    + split; [|now right]. split; [discriminate|]. intros H. apply yes_iff in H. congruence.
Qed.

End Processor.

Lemma shorthand_repository_split_witness :
  (forall vsix,
     ManifestProcessor.init (Cases.inputOf (Manifest.RepoString "me/repo")) = OK vsix ->
     ManifestProcessor.l_github (ManifestProcessor.v_links vsix)
     = Some "https://github.com/me/repo.git")
  /\ Markdown.guessBaseUrls (Sample.manifestOf (Manifest.RepoString "me/repo")) = None
  /\ Markdown.noBase
       (Markdown.mkProcessor (Sample.manifestOf (Manifest.RepoString "me/repo")) "README.md"
          Markdown.reReadme "Microsoft.VisualStudio.Services.Content.Details"
          Sample.noOptions) = true.
Proof.
  apply (shorthand_repository_split "me" "repo"
           (Cases.inputOf (Manifest.RepoString "me/repo"))
           (Sample.manifestOf (Manifest.RepoString "me/repo")));
    (discriminate || reflexivity).
Defined.

Lemma manifest_onEnd_witness :
  ManifestProcessor.onEnd (fun _ => OK "y") (Cases.inputOf Manifest.RepoAbsent) = OK tt
  <-> "y" = "y" \/ "y" = "Y".
Proof.
  apply (proj2 (proj2 (manifest_onEnd (fun _ => OK "y") (Cases.inputOf Manifest.RepoAbsent))
                  ltac:(discriminate)) eq_refl "y" eq_refl).
Defined.

(** The answers at the prompt of a manifest without a repository. *)
Example manifest_onEnd_answers :
  ManifestProcessor.onEnd (fun _ => OK "Y") (Cases.inputOf Manifest.RepoAbsent) = OK tt
  /\ ManifestProcessor.onEnd (fun _ => OK "yes") (Cases.inputOf Manifest.RepoAbsent)
     = Fatal "Aborted"
  /\ ManifestProcessor.onEnd (fun _ => OK "") (Cases.inputOf (Manifest.RepoString ""))
     = Fatal "Aborted"
  /\ ManifestProcessor.onEnd (fun _ => Fatal "closed")
       (Cases.inputOf (Manifest.RepoObject None)) = OK tt.
Proof. repeat split; reflexivity. Qed.

End RepositoryFacts.
(* ================================================================== *)
(** ** Properties of [validateManifest] *)

Module ValidationFacts.
Import Str StrFacts RegExpFacts MatchFacts Text Validation.

Section Validate.
Variable validatePublisher : option string -> result unit.
Variable validateExtensionName : option string -> result unit.
Variable validateVersion : string -> result unit.
Variable validateEngineCompatibility : string -> result unit.
Variable validateVSCodeTypesCompatibility : string -> string -> result unit.
Variable decodeURI : string -> result string.
Variable urlParse : string -> Markdown.Url.
Variable toLowerCase : string -> string.

Abbreviation validate_ :=
  (validateManifestWith validatePublisher validateExtensionName validateVersion
     validateEngineCompatibility validateVSCodeTypesCompatibility decodeURI urlParse
     toLowerCase).
Abbreviation checkBadge_ := (checkBadge decodeURI urlParse toLowerCase).
Abbreviation checkBadges_ := (checkBadges decodeURI urlParse toLowerCase).

Lemma truthyOpt_some (o : option string) :
  truthyOpt o = true -> exists s, o = Some s /\ s <> "".
Proof.
  destruct o as [[|c s]|]; try discriminate. intros _. eexists. split; [reflexivity|discriminate].
Qed.

Lemma checkBadges_all (trusted : list string) (badges : list Badge) :
  checkBadges_ trusted badges = OK tt ->
  forall badge, In badge badges -> checkBadge_ trusted badge = OK tt.
Proof.
  induction badges as [|b badges IH]; intros H badge Hin; [destruct Hin|].
  cbn [checkBadges] in H.
  destruct (checkBadge_ trusted b) as [[]|] eqn:E; [|discriminate].
  destruct Hin as [<-|Hin]; [exact E | now apply IH].
Qed.

(** The test of an icon or of a path name for the extension [.svg]. *)
Lemma dot_svg_iff (s : string) :
  test flagI Markdown.reDotSvg s = true <->
  exists w e, s = w +++ e /\ same true ".svg" e = true.
Proof. exact (test_suffix flagI eq_refl ".svg" s). Qed.

(** X5.  A manifest that [validateManifest] accepts is returned as it
    is, and it has passed every check: the five checks of [validation.ts]
    that apply, a version and an engine that are not empty, an icon whose
    name does not end in [.svg] (in any case of the letters), badges that
    each pass the badge check, and no dependency named [vscode]. *)
Theorem validateManifest_accepts (trusted : list string) (manifest manifest' : Input) :
  validate_ trusted manifest = OK manifest' ->
  manifest' = manifest
  /\ validatePublisher (publisher manifest) = OK tt
  /\ validateExtensionName (name manifest) = OK tt
  /\ (exists v, version manifest = Some v /\ v <> "" /\ validateVersion v = OK tt)
  /\ (exists e engine,
        engines manifest = Some e /\ JsObject.get "vscode" e = Some engine
        /\ engine <> "" /\ validateEngineCompatibility engine = OK tt
        /\ forall t, entry "@types/vscode" (devDependencies manifest) = Some t -> t <> "" ->
             validateVSCodeTypesCompatibility engine t = OK tt)
  /\ (forall w e, icon manifest = Some (w +++ e) -> same true ".svg" e = false)
  /\ (forall badge, In badge (orNil (badges manifest)) -> checkBadge_ trusted badge = OK tt)
  /\ (forall d, dependencies manifest = Some d -> JsObject.get "vscode" d = None).
Proof.
  unfold validateManifestWith.
  destruct (validatePublisher _) as [[]|] eqn:E1; [|discriminate]. cbn [bind].
  destruct (validateExtensionName _) as [[]|] eqn:E2; [|discriminate]. cbn [bind].
  destruct (truthyOpt (version manifest)) eqn:E3; [|discriminate]. cbn [negb].
  apply truthyOpt_some in E3. destruct E3 as [v [Ev Nv]]. rewrite Ev. cbn [Markdown.strOf].
  destruct (validateVersion v) as [[]|] eqn:E4; [|discriminate]. cbn [bind].
  destruct (engines manifest) as [e|] eqn:E5; [|discriminate].
  destruct (truthyOpt (JsObject.get "vscode" e)) eqn:E6; [|discriminate]. cbn [negb].
  apply truthyOpt_some in E6. destruct E6 as [engine [Ee Ne]]. rewrite Ee.
  cbn [Markdown.strOf].
  destruct (validateEngineCompatibility engine) as [[]|] eqn:E7; [|discriminate]. cbn [bind].
  destruct (if truthyOpt (entry "@types/vscode" (devDependencies manifest)) then _ else _)
    as [[]|] eqn:E8; [|discriminate]. cbn [bind].
  destruct (test flagI Markdown.reDotSvg _) eqn:E9; [discriminate|].
  destruct (checkBadges_ trusted _) as [[]|] eqn:E10; [|discriminate]. cbn [bind].
  destruct (existsb _ _) eqn:E11; [discriminate|].
  intros [= <-].
  split; [reflexivity|]. split; [reflexivity|]. split; [reflexivity|].
  split; [exists v; repeat split; assumption || reflexivity|]. split; [|split; [|split]].
  - exists e, engine. repeat (split; [assumption || reflexivity|]).
    intros t Et Nt. rewrite Et in E8. cbn [truthyOpt Markdown.strOf] in E8.
    now rewrite (truthy_nonempty t Nt) in E8.
  - intros w x Ei. rewrite Ei in E9.
    destruct (same true ".svg" x) eqn:S; [|reflexivity].
    exfalso. assert (T : test flagI Markdown.reDotSvg (w +++ x) = true).
    { apply dot_svg_iff. now exists w, x. }
    congruence.
  - now apply checkBadges_all.
  - intros d Ed. rewrite Ed in E11.
    destruct (JsObject.get "vscode" d) as [x|] eqn:G; [|reflexivity].
    exfalso. apply NLSFacts.keys_complete in G.
    assert (T : existsb (fun dep => String.eqb dep "vscode") (JsObject.keys d) = true).
    { apply existsb_exists. exists "vscode". now split. }
    congruence.
Qed.

(** X6.  A manifest whose icon has a name that ends in [.svg], in any
    case of the letters, is never accepted, whatever the other checks
    say. *)
Theorem svg_icon_rejected (trusted : list string) (manifest : Input) (w e : string) :
  icon manifest = Some (w +++ e) -> same true ".svg" e = true ->
  isFatal (validate_ trusted manifest) = true.
Proof.
  intros Ei S. unfold validateManifestWith.
  destruct (validatePublisher _) as [[]|]; [|reflexivity]. cbn [bind].
  destruct (validateExtensionName _) as [[]|]; [|reflexivity]. cbn [bind].
  destruct (negb (truthyOpt (version manifest))); [reflexivity|].
  destruct (validateVersion _) as [[]|]; [|reflexivity]. cbn [bind].
  destruct (engines manifest) as [x|]; [|reflexivity].
  destruct (negb (truthyOpt (JsObject.get "vscode" x))); [reflexivity|].
  destruct (validateEngineCompatibility _) as [[]|]; [|reflexivity]. cbn [bind].
  destruct (if truthyOpt (entry "@types/vscode" (devDependencies manifest)) then _ else _)
    as [[]|]; [|reflexivity]. cbn [bind].
  rewrite Ei. rewrite (proj2 (dot_svg_iff (w +++ e))); [reflexivity|]. now exists w, e.
Qed.

Lemma data_not_https (s : string) :
  test flagI Markdown.reData s = true -> test flagI Markdown.reHttps s = false.
Proof.
  unfold Markdown.reData, Markdown.reHttps. rewrite !(test_whole flagI eq_refl).
  intros H. apply same_length in H.
  destruct (same (ignoreCase flagI) "https:" s) eqn:S; [|reflexivity].
  apply same_length in S. rewrite H in S. discriminate.
Qed.

(** X7.  A badge URL passes the badge check of [validateManifest]
    exactly when it would pass the image check of the Markdown processor as
    the source of an image. *)
Theorem badge_policy_is_image_policy (p : Markdown.Processor) (trusted : list string)
  (badge : Badge) :
  isFatal (checkBadge_ trusted badge)
  = isFatal (Markdown.checkImage decodeURI urlParse toLowerCase p trusted (b_url badge)).
Proof.
  unfold checkBadge, Markdown.checkImage.
  destruct (decodeURI (b_url badge)) as [u|]; [|reflexivity]. cbn [bind].
  destruct (Markdown.isSvgDataUrl (urlParse u)) eqn:D.
  - unfold Markdown.isSvgDataUrl in D.
    apply andb_true_iff in D. destruct D as [D _].
    apply andb_true_iff in D. destruct D as [D _].
    now rewrite (data_not_https _ D).
  - destruct (negb (test flagI Markdown.reHttps _)); [reflexivity|].
    destruct (test flagI Markdown.reDotSvg _); [|reflexivity].
    destruct (Markdown.isHostTrusted toLowerCase trusted _) as [[]|]; reflexivity.
Qed.

End Validate.

Lemma validateManifest_accepts_witness :
  exists e engine,
    engines (Cases.validInput "images/icon.png") = Some e
    /\ JsObject.get "vscode" e = Some engine
    /\ engine <> "" /\ Cases.accept2 engine = OK tt
    /\ forall t,
         entry "@types/vscode" (devDependencies (Cases.validInput "images/icon.png")) = Some t ->
         t <> "" -> Cases.accept3 engine t = OK tt.
Proof.
  refine (proj1 (proj2 (proj2 (proj2 (proj2
            (validateManifest_accepts Cases.accept1 Cases.accept1 Cases.accept2
               Cases.accept2 Cases.accept3 Lib.decodeURI Lib.urlParse Lib.toLowerCase
               Markdown.TrustedSVGSources (Cases.validInput "images/icon.png")
               (Cases.validInput "images/icon.png") _)))))).
  vm_compute. reflexivity.
Defined.

Lemma svg_icon_rejected_witness :
  isFatal (Cases.validate Markdown.TrustedSVGSources (Cases.validInput "images/icon.SVG"))
  = true.
Proof.
  apply (svg_icon_rejected Cases.accept1 Cases.accept1 Cases.accept2 Cases.accept2
           Cases.accept3 Lib.decodeURI Lib.urlParse Lib.toLowerCase
           Markdown.TrustedSVGSources (Cases.validInput "images/icon.SVG")
           "images/icon" ".SVG"); reflexivity.
Defined.

(** A badge that is an SVG from a host that is not trusted, and a badge
    that is not served over HTTPS. *)
Example badge_examples :
  checkBadge Lib.decodeURI Lib.urlParse Lib.toLowerCase Markdown.TrustedSVGSources
    (Cases.badgeAt "https://example.com/badge.svg")
  = Fatal "Badge SVGs are restricted. Please use other file image formats, such as PNG: https://example.com/badge.svg"
  /\ checkBadge Lib.decodeURI Lib.urlParse Lib.toLowerCase Markdown.TrustedSVGSources
       (Cases.badgeAt "http://img.shields.io/badge.png")
     = Fatal "Badge URLs must come from an HTTPS source: http://img.shields.io/badge.png"
  /\ checkBadge Lib.decodeURI Lib.urlParse Lib.toLowerCase Markdown.TrustedSVGSources
       (Cases.badgeAt "https://IMG.shields.io/badge.SVG") = OK tt.
Proof. repeat split; vm_compute; reflexivity. Qed.

End ValidationFacts.
(* ================================================================== *)
(** ** Properties of the Tags processor *)

Module TagsFacts.
Import Str StrFacts RegExpFacts MatchFacts Text.

Local Arguments Ascii.eqb : simpl never.

(** *** The list helpers *)

Lemma existsb_optEqb (x : option string) (l : list (option string)) :
  existsb (optEqb x) l = true <-> In x l.
Proof.
  rewrite existsb_exists. split.
  - intros [y [Hy E]]. apply RepositoryFacts.optEqb_eq in E. now subst.
  - intros H. exists x. split; [exact H|]. now apply RepositoryFacts.optEqb_eq.
Qed.

Lemma uniqFrom_in (x : option string) (l : list (option string)) :
  forall seen, In x (uniqFrom optEqb seen l) <-> In x l /\ ~ In x seen.
Proof.
  induction l as [|y l IH]; intros seen; cbn [uniqFrom].
  - cbn. tauto.
  - destruct (existsb (optEqb y) seen) eqn:E.
    + apply existsb_optEqb in E. rewrite IH. cbn [In]. split.
      * intros [H N]. split; [now right | exact N].
      * intros [[->|H] N]; [contradiction | now split].
    + assert (N : ~ In y seen).
      { intros H. apply existsb_optEqb in H. congruence. }
      cbn [In]. rewrite IH. cbn [In]. split.
      * intros [<-|[H M]]; [split; [now left | exact N]|]. split; [now right | tauto].
      * intros [[->|H] M]; [now left|].
        destruct (optEqb y x) eqn:D; [apply RepositoryFacts.optEqb_eq in D; now left|].
        right. split; [exact H|]. intros [->|K]; [|contradiction].
        now rewrite (proj2 (RepositoryFacts.optEqb_eq x x) eq_refl) in D.
Qed.

Lemma uniqFrom_nodup (l : list (option string)) :
  forall seen, NoDup (uniqFrom optEqb seen l).
Proof.
  induction l as [|y l IH]; intros seen; cbn [uniqFrom]; [constructor|].
  destruct (existsb (optEqb y) seen); [apply IH|].
  constructor; [|apply IH]. rewrite uniqFrom_in. cbn [In]. tauto.
Qed.

Lemma compact_in (t : string) (l : list (option string)) :
  In t (compact l) <-> t <> "" /\ In (Some t) l.
Proof.
  induction l as [|[s|] l IH]; cbn [compact In].
  - tauto.
  - destruct (truthy s) eqn:T; cbn [In]; rewrite IH.
    + split.
      * intros [->|[N H]]; [|tauto]. split; [now destruct t | now left].
      * intros [N [[= ->]|H]]; [now left | tauto].
    + split; [tauto|]. intros [N [[= ->]|H]]; [|tauto].
      destruct t; [congruence | discriminate].
  - rewrite IH. split; [tauto|]. intros [N [H|H]]; [discriminate | tauto].
Qed.

Lemma compact_nodup (l : list (option string)) : NoDup l -> NoDup (compact l).
Proof.
  induction 1 as [|x l N _ IH]; cbn [compact]; [constructor|].
  destruct x as [s|]; [|exact IH]. destruct (truthy s); [|exact IH].
  constructor; [|exact IH]. rewrite compact_in. tauto.
Qed.

(** A [reduce] that appends is a [flat_map]. *)
Lemma fold_append (A B : Type) (g : A -> list B) (l : list A) :
  forall acc, fold_left (fun r x => r ++ g x) l acc = acc ++ flat_map g l.
Proof.
  induction l as [|x l IH]; intros acc; cbn [fold_left flat_map].
  - now rewrite app_nil_r.
  - now rewrite IH, app_assoc.
Qed.

(** *** Tags of file extensions *)

(** Removing every match of [/\W/g] keeps the word characters. *)
Lemma strip_non_word (s : string) :
  forall prev idx,
    replace_from noFlags reNonWord (fun _ => OK "") prev s idx 0 = OK (keep isWord s).
Proof.
  induction s as [|c s IH]; intros prev idx; [reflexivity|].
  cbn [replace_from]. unfold match_here. cbn [rmatch reNonWord start_state m_rest].
  assert (C : class_ok (ignoreCase noFlags) true [CWord] c = negb (isWord c)).
  { unfold class_ok, item_ok. cbn. now rewrite !orb_false_r. }
  rewrite C. cbn [keep]. destruct (isWord c); cbn [negb].
  - now rewrite IH.
  - cbn [matched bind]. unfold consumed. cbn [m_rest advance start_state String.length].
    replace (S (String.length s) - String.length s) with 1 by lia.
    cbn [take String.length Nat.sub]. rewrite IH. reflexivity.
Qed.

Lemma replaceAll_non_word (s : string) : replaceAll noFlags reNonWord "" s = keep isWord s.
Proof. unfold replaceAll, replace. now rewrite strip_non_word. Qed.

Lemma keep_all (p : ascii -> bool) (s : string) : all p (keep p s) = true.
Proof.
  induction s as [|c s IH]; [reflexivity|]. cbn [keep].
  destruct (p c) eqn:E; [|exact IH]. cbn [all]. now rewrite E, IH.
Qed.

(** X8.  [toExtensionTags] gives one tag per extension that has a
    word character: [__ext_] followed by the word characters of the
    extension, in their order.  An extension without a word character gives
    no tag. *)
Theorem extension_tags (extensions : list string) :
  toExtensionTags extensions
  = map (fun e => "__ext_" +++ keep isWord e)
      (filter (fun e => truthy (keep isWord e)) extensions)
  /\ forall t, In t (toExtensionTags extensions) ->
       exists w, t = "__ext_" +++ w /\ w <> "" /\ all isWord w = true.
Proof.
  assert (E : toExtensionTags extensions
              = map (fun e => "__ext_" +++ keep isWord e)
                  (filter (fun e => truthy (keep isWord e)) extensions)).
  { unfold toExtensionTags. induction extensions as [|e l IH]; [reflexivity|].
    cbn [map filter]. rewrite replaceAll_non_word.
    destruct (truthy (keep isWord e)); cbn [map]; now rewrite IH. }
  split; [exact E|]. intros t H. rewrite E in H. apply in_map_iff in H.
  destruct H as [e [<- H]]. apply filter_In in H. destruct H as [_ T].
  exists (keep isWord e). split; [reflexivity|]. split; [|apply keep_all].
  intros K. rewrite K in T. discriminate.
Qed.

(** *** Tags of language packs *)

Lemma toLanguagePackTags_eq (translations : option (list Manifest.Translation))
  (languageId : string) :
  toLanguagePackTags translations languageId
  = flat_map (fun translation =>
                ["__lp_" +++ Manifest.id translation;
                 "__lp-" +++ languageId +++ "_" +++ Manifest.id translation])
      (orNil translations).
Proof.
  unfold toLanguagePackTags.
  rewrite (fold_append _ _ (fun t : list string => t)). cbn [app].
  unfold orNil. induction (match translations with Some ts => ts | None => [] end)
    as [|x l IH]; [reflexivity|].
  cbn [map flat_map]. now rewrite IH.
Qed.

(** *** Activation events *)

Lemma search_here (f : flags) (r : regex) prev rest idx m :
  match_here f r prev rest idx = Some m -> search f r prev rest idx = Some m.
Proof. intros H. destruct rest; cbn [search]; now rewrite H. Qed.

(** The matcher on a literal that is there. *)
Lemma rmatch_lit (a : string) :
  forall k pv rest cs,
    rmatch noFlags (RLit a) k {| m_prev := pv; m_rest := a +++ rest; m_caps := cs |}
    = k {| m_prev := lastOr pv a; m_rest := rest; m_caps := cs |}.
Proof.
  assert (One : forall x k pv rest cs,
             rmatch noFlags (RChar x) k
               {| m_prev := pv; m_rest := String x rest; m_caps := cs |}
             = k {| m_prev := Some x; m_rest := rest; m_caps := cs |}).
  { intros x k pv rest cs. unfold RChar. apply rmatch_set.
    unfold class_ok, item_ok. cbn. now rewrite Ascii.eqb_refl. }
  induction a as [|x a IH]; intros k pv rest cs; [reflexivity|].
  destruct a as [|y a].
  - cbn [RLit]. exact (One x k pv rest cs).
  - change (RLit (String x (String y a))) with (RSeq (RChar x) (RLit (String y a))).
    cbn [rmatch]. change (String x (String y a) +++ rest)
      with (String x (String y a +++ rest)).
    rewrite One, IH. now rewrite (lastOr_cons pv x (String y a)).
Qed.

Lemma any_not_terminator (X : string) :
  all (class_ok false true [CChar LF; CChar CR]) X
  = all (fun c => negb (isLineTerminator c)) X.
Proof.
  induction X as [|c X IH]; [reflexivity|]. cbn [all]. rewrite IH. f_equal.
  unfold class_ok, item_ok, isLineTerminator. cbn. now rewrite !orb_false_r.
Qed.

(** A literal followed by the rest of the line, the rest being group 1. *)
Lemma exec_literal_rest (lit X : string) :
  all (fun c => negb (isLineTerminator c)) X = true ->
  exec noFlags (RSeqs [RBol; RLit lit; RGroup 1 (RStar RAny); REol]) (lit +++ X)
  = Some {| index := 0; matched := lit +++ X; groups := [(1, X)] |}.
Proof.
  intros A. unfold exec. apply search_here. unfold match_here.
  cbn [RSeqs rmatch atBol start_state m_prev]. unfold start_state.
  rewrite rmatch_lit. cbv beta.
  set (st1 := {| m_prev := lastOr None lit; m_rest := X; m_caps := [] |}).
  assert (M : star_loop (rmatch noFlags RAny) (S (String.length X))
                (fun st' => if atEol noFlags (set_cap 1 st1 st')
                            then Some (set_cap 1 st1 st') else None)
                st1
              = Some {| m_prev := lastOr (lastOr None lit) X; m_rest := "";
                        m_caps := [(1, X)] |}).
  { apply (star_loop_all noFlags true [CChar LF; CChar CR]).
    - cbn [ignoreCase noFlags]. now rewrite any_not_terminator.
    - cbn [atEol m_rest set_cap]. unfold set_cap, consumed, st1.
      cbn [m_rest m_prev m_caps String.length]. now rewrite Nat.sub_0_r, take_all. }
  change (m_rest st1) with X. rewrite M. f_equal. f_equal.
  unfold consumed. cbn [m_rest String.length]. now rewrite Nat.sub_0_r, take_all.
Qed.

(** Conversely a match is the literal followed by one line of text. *)
Lemma exec_literal_rest_inv (lit s : string) (m : match_result) :
  exec noFlags (RSeqs [RBol; RLit lit; RGroup 1 (RStar RAny); REol]) s = Some m ->
  exists X, s = lit +++ X /\ all (fun c => negb (isLineTerminator c)) X = true
            /\ groups m = [(1, X)].
Proof.
  unfold exec. intros E. apply search_sound in E.
  destruct E as [pre [rest [p [-> [M ->]]]]].
  apply match_here_sound in M. destruct M as [st' [D [_ [G _]]]].
  cbn [RSeqs] in D.
  apply den_seq_inv in D. destruct D as [st1 [D1 D]].
  apply den_seq_inv in D. destruct D as [st2 [D2 D]].
  apply den_seq_inv in D. destruct D as [st3 [D3 D4]].
  apply den_bol_inv in D1. destruct D1 as [-> B].
  apply den_eol_inv in D4. destruct D4 as [-> E].
  apply den_lit in D2. destruct D2 as [w [r2 [S [E2 ->]]]].
  apply same_exact in S. subst w.
  apply den_group_inv in D3. destruct D3 as [sa [D3 ->]].
  apply den_star_set in D3. destruct D3 as [X [E3 [A C]]].
  unfold atBol in B. unfold atEol in E. cbn in B, E, E2, E3, C, G.
  destruct (last pre) eqn:L; [discriminate|]. apply last_none in L. subst pre.
  destruct (m_rest sa) eqn:R; [|discriminate]. rewrite append_nil_r in E3. subst r2.
  exists X. split; [exact E2|]. split.
  - now rewrite <- any_not_terminator.
  - rewrite G, C. f_equal. f_equal. cbn [String.length]. now rewrite Nat.sub_0_r, take_all.
Qed.

Section Stage.
Variable regExpTest : string -> string -> string -> bool.
Import Tags.

Abbreviation cleanTags_ := (cleanTags regExpTest).
Abbreviation tags_ := (tags regExpTest).

Lemma cleanTags_in (manifest : Input) (t : string) :
  In t (cleanTags_ manifest) <-> t <> "" /\ In (Some t) (tags_ manifest).
Proof.
  unfold cleanTags. rewrite compact_in. unfold uniq. rewrite uniqFrom_in. cbn [In]. tauto.
Qed.

(** X9.  The tags of [vsix.tags] are the values of the array [tags] that
    are not empty, each of them once: no tag is listed twice and none is
    empty or missing, and [vsix.tags] is their list separated by commas. *)
Theorem tags_clean (manifest : Input) :
  NoDup (cleanTags_ manifest)
  /\ (forall t, In t (cleanTags_ manifest) <-> t <> "" /\ In (Some t) (tags_ manifest))
  /\ onEnd regExpTest manifest = String.concat "," (cleanTags_ manifest).
Proof.
  unfold cleanTags. split; [|split].
  - apply compact_nodup. apply uniqFrom_nodup.
  - intros t. apply cleanTags_in.
  - reflexivity.
Qed.

(** X10.  The activation events give the tag [X] for each event
    [onLanguage:X] in which [X] is one line of text, and nothing else; the
    tag is listed when [X] is not empty. *)
Theorem language_activation_tags (manifest : Input) :
  (forall X, In X (languageActivations manifest) <->
     In ("onLanguage:" +++ X) (orNil (activationEvents manifest))
     /\ all (fun c => negb (isLineTerminator c)) X = true)
  /\ (forall X, In ("onLanguage:" +++ X) (orNil (activationEvents manifest)) ->
        all (fun c => negb (isLineTerminator c)) X = true -> X <> "" ->
        In X (cleanTags_ manifest)).
Proof.
  assert (H : forall X, In X (languageActivations manifest) <->
                In ("onLanguage:" +++ X) (orNil (activationEvents manifest))
                /\ all (fun c => negb (isLineTerminator c)) X = true).
  { intros X. unfold languageActivations. rewrite in_flat_map. split.
    - intros [e [He Hx]]. unfold reOnLanguage in Hx.
      destruct (exec noFlags _ e) as [m|] eqn:E; [|destruct Hx].
      apply exec_literal_rest_inv in E. destruct E as [Y [-> [A G]]].
      destruct Hx as [<-|[]]. unfold groupStr, group. rewrite G. cbn. now split.
    - intros [He A]. exists ("onLanguage:" +++ X). split; [exact He|].
      unfold reOnLanguage. rewrite (exec_literal_rest "onLanguage:" X A). now left. }
  split; [exact H|]. intros X He A N.
  apply cleanTags_in. split; [exact N|].
  unfold tags. rewrite !in_app_iff. do 9 right. left. apply in_map. now apply H.
Qed.

(** X11.  A language pack gives, for each of its localizations, the tag
    [lp-<language>] and, for each translation of it, the two tags
    [__lp_<id>] and [__lp-<language>_<id>]; there are no other localization
    tags, and each of them that is not empty is in [vsix.tags]. *)
Theorem language_pack_tags (manifest : Input) :
  (forall t, In t (localizationContributions manifest) <->
     exists l, In l (contributed (contributes manifest) localizations)
       /\ (t = "lp-" +++ languageId l
           \/ exists translation, In translation (orNil (translations l))
                /\ (t = "__lp_" +++ Manifest.id translation
                    \/ t = "__lp-" +++ languageId l +++ "_" +++ Manifest.id translation)))
  /\ (forall t, In t (localizationContributions manifest) -> In t (cleanTags_ manifest)).
Proof.
  assert (H : forall t, In t (localizationContributions manifest) <->
     exists l, In l (contributed (contributes manifest) localizations)
       /\ (t = "lp-" +++ languageId l
           \/ exists translation, In translation (orNil (translations l))
                /\ (t = "__lp_" +++ Manifest.id translation
                    \/ t = "__lp-" +++ languageId l +++ "_" +++ Manifest.id translation))).
  { intros t. unfold localizationContributions.
    rewrite (fold_append _ _ (fun l => ["lp-" +++ languageId l]
                                       ++ toLanguagePackTags (translations l) (languageId l))).
    cbn [app]. rewrite in_flat_map. split.
    - intros [l [Hl [<-|Ht]]]; exists l; (split; [exact Hl|]); [now left|].
      right. rewrite toLanguagePackTags_eq in Ht. apply in_flat_map in Ht.
      destruct Ht as [tr [Htr [<-|[<-|[]]]]]; exists tr; (split; [exact Htr|]);
        [now left | now right].
    - intros [l [Hl [-> | [tr [Htr Ht]]]]]; exists l; (split; [exact Hl|]); [now left|].
      right. rewrite toLanguagePackTags_eq. apply in_flat_map. exists tr.
      split; [exact Htr|]. destruct Ht as [-> | ->]; [now left | right; now left]. }
  split; [exact H|]. intros t Ht.
  apply cleanTags_in. split.
  - apply H in Ht. destruct Ht as [l [_ [-> | [tr [_ [-> | ->]]]]]]; discriminate.
  - unfold tags. rewrite !in_app_iff. do 7 right. left. now apply in_map.
Qed.

End Stage.

Lemma language_activation_tags_witness :
  In "typescript" (Tags.cleanTags Builtin.regExpTest Cases.tagsInput).
Proof.
  apply (proj2 (language_activation_tags Builtin.regExpTest Cases.tagsInput) "typescript").
  - now left.
  - reflexivity.
  - discriminate.
Defined.

(** The tags of a sample manifest: [theme] is listed once, the grammar
    without a language gives no tag, [github] does not count as the keyword
    [git], and [C++] counts as [c++]. *)
Example tags_example :
  Tags.onEnd Builtin.regExpTest Cases.tagsInput
  = "git,scm,theme,color-theme,icon-theme,typescript,TypeScript,__ext_ts,__ext_dts,c++".
Proof. vm_compute. reflexivity. Qed.

End TagsFacts.
(* ================================================================== *)
(** ** Properties of the table of content types *)

Module ObjectFacts.
Import Str Text.

Lemma get_in (k : string) (o : JsObject.t) :
  In k (map fst o) <-> exists v, JsObject.get k o = Some v.
Proof.
  induction o as [|[k0 v0] o IH]; cbn [map fst In JsObject.get].
  - split; [intros [] | intros [v H]; discriminate].
  - destruct (String.eqb k k0) eqn:E.
    + apply String.eqb_eq in E. subst k0. split; [now exists v0 | now left].
    + rewrite IH. split; [intros [->|H]; [|exact H] | now right].
      now rewrite String.eqb_refl in E.
Qed.

Lemma fst_set (k v : string) (o : JsObject.t) :
  map fst (JsObject.set k v o)
  = if existsb (String.eqb k) (map fst o) then map fst o else map fst o ++ [k].
Proof.
  induction o as [|[k0 v0] o IH]; [reflexivity|]. cbn [JsObject.set map fst existsb].
  destruct (String.eqb k k0) eqn:E; cbn [orb map fst].
  - apply String.eqb_eq in E. now subst.
  - rewrite IH. now destruct (existsb (String.eqb k) (map fst o)).
Qed.

Lemma wf_set (k v : string) (o : JsObject.t) : wf o -> wf (JsObject.set k v o).
Proof.
  unfold wf. intros N. rewrite fst_set.
  destruct (existsb (String.eqb k) (map fst o)) eqn:E; [exact N|].
  apply NoDup_app; [exact N | repeat constructor; intros [] |].
  intros x Hx [<-|[]].
  assert (T : existsb (String.eqb k) (map fst o) = true).
  { apply existsb_exists. exists k. split; [exact Hx | apply String.eqb_refl]. }
  congruence.
Qed.

Lemma wf_fold (A : Type) (g : JsObject.t -> A -> JsObject.t) (l : list A) :
  (forall o x, wf o -> wf (g o x)) -> forall o, wf o -> wf (fold_left g l o).
Proof.
  intros H. induction l as [|x l IH]; intros o W; [exact W|].
  cbn [fold_left]. apply IH. now apply H.
Qed.

Lemma snd_insertIndex (x : string) (n : N) (k : string) (l : list (N * string)) :
  In x (map snd (JsObject.insertIndex n k l)) <-> x = k \/ In x (map snd l).
Proof.
  induction l as [|[n' k'] l IH]; cbn [JsObject.insertIndex map snd In].
  - intuition.
  - destruct (N.leb n n'); cbn [map snd In]; [intuition|]. rewrite IH. intuition.
Qed.

Lemma nodup_insertIndex (n : N) (k : string) (l : list (N * string)) :
  NoDup (map snd l) -> ~ In k (map snd l) ->
  NoDup (map snd (JsObject.insertIndex n k l)).
Proof.
  induction l as [|[n' k'] l IH]; intros N H; cbn [JsObject.insertIndex].
  - repeat constructor. intros [].
  - destruct (N.leb n n'); cbn [map snd].
    + constructor; assumption.
    + cbn [map snd] in N, H. inversion N as [|? ? Hk Nl]; subst.
      constructor.
      * rewrite snd_insertIndex. intros [->|K]; [apply H; now left | contradiction].
      * apply IH; [exact Nl|]. intros K. apply H. now right.
Qed.

Lemma in_indexKeys (x : string) (o : JsObject.t) :
  In x (map snd (JsObject.indexKeys o)) <->
  In x (map fst o) /\ JsObject.arrayIndex x <> None.
Proof.
  induction o as [|[k v] o IH]; cbn [JsObject.indexKeys map fst In].
  - cbn. tauto.
  - destruct (JsObject.arrayIndex k) as [n|] eqn:A.
    + rewrite snd_insertIndex, IH. split.
      * intros [->|[H Nn]]; [split; [now left | congruence] | split; [now right | exact Nn]].
      * intros [[->|H] Nn]; [now left | right; now split].
    + rewrite IH. split.
      * intros [H Nn]. split; [now right | exact Nn].
      * intros [[->|H] Nn]; [congruence | now split].
Qed.

Lemma in_plainKeys (x : string) (o : JsObject.t) :
  In x (map fst (filter (fun kv => match JsObject.arrayIndex (fst kv) with
                                   | Some _ => false
                                   | None => true
                                   end) o)) <->
  In x (map fst o) /\ JsObject.arrayIndex x = None.
Proof.
  rewrite !in_map_iff. split.
  - intros [[k v] [<- H]]. apply filter_In in H. destruct H as [H A]. cbn [fst] in *.
    split; [exists (k, v); now split|]. now destruct (JsObject.arrayIndex k).
  - intros [[[k v] [<- H]] A]. cbn [fst] in A. exists (k, v). split; [reflexivity|].
    apply filter_In. split; [exact H|]. cbn [fst]. now rewrite A.
Qed.

(** [Object.keys] lists the keys of the object, each of them once. *)
Lemma in_keys (x : string) (o : JsObject.t) : In x (JsObject.keys o) <-> In x (map fst o).
Proof.
  unfold JsObject.keys. rewrite in_app_iff, in_indexKeys, in_plainKeys.
  destruct (JsObject.arrayIndex x); split; try tauto.
  intros H. left. split; [exact H | discriminate].
Qed.

Lemma nodup_keys (o : JsObject.t) : wf o -> NoDup (JsObject.keys o).
Proof.
  unfold wf, JsObject.keys. intros W. apply NoDup_app.
  - induction o as [|[k v] o IH]; cbn [JsObject.indexKeys]; [constructor|].
    cbn [map fst] in W. inversion W as [|? ? Hk Wo]; subst.
    destruct (JsObject.arrayIndex k); [|now apply IH].
    apply nodup_insertIndex; [now apply IH|].
    rewrite in_indexKeys. tauto.
  - induction o as [|[k v] o IH]; cbn [filter]; [constructor|].
    cbn [map fst] in W. inversion W as [|? ? Hk Wo]; subst. cbn [fst].
    destruct (JsObject.arrayIndex k); [now apply IH|].
    cbn [map fst]. constructor; [|now apply IH].
    rewrite in_plainKeys. tauto.
  - intros x H1 H2. apply in_indexKeys in H1. apply in_plainKeys in H2. tauto.
Qed.

Lemma keys_single (k v : string) : JsObject.keys [(k, v)] = [k].
Proof.
  unfold JsObject.keys. cbn [JsObject.indexKeys filter fst].
  now destruct (JsObject.arrayIndex k).
Qed.

End ObjectFacts.

Module ContentTypesFacts.
Import Str Text ObjectFacts ContentTypes.

Lemma spread_single (r : JsObject.t) (k v : string) :
  spread r [(k, v)] = JsObject.set k v r.
Proof.
  unfold spread. rewrite keys_single. cbn [fold_left JsObject.get].
  now rewrite String.eqb_refl.
Qed.

Lemma spread_defaults (r : JsObject.t) :
  spread r defaultExtensions
  = JsObject.set ".vsixmanifest" "text/xml" (JsObject.set ".json" "application/json" r).
Proof. reflexivity. Qed.

Section Table.
Variable extname : string -> string.
Variable toLowerCase : string -> string.
Variable lookup : string -> string.

Abbreviation keyOf := (fun f : IFile => toLowerCase (extname (path f))).
Abbreviation keyBy_ := (keyBy extname toLowerCase).
Abbreviation extensions_ := (extensions extname toLowerCase lookup).
Abbreviation all_ := (allExtensions extname toLowerCase lookup).

Lemma in_keyBy (k : string) (files : list IFile) :
  forall o,
    In k (map fst (fold_left (fun o f => JsObject.set (keyOf f) (path f) o) files o))
    <-> In k (map fst o) \/ exists f, In f files /\ keyOf f = k.
Proof.
  induction files as [|f files IH]; intros o; cbn [fold_left].
  - split; [now left | intros [H|[f [[] _]]]; exact H].
  - rewrite IH, fst_set.
    destruct (existsb (String.eqb (keyOf f)) (map fst o)) eqn:E.
    + apply existsb_exists in E. destruct E as [x [Hx E]]. apply String.eqb_eq in E.
      split.
      * intros [H|[g [Hg Eg]]]; [now left | right; exists g; split; [now right | exact Eg]].
      * intros [H|[g [[<-|Hg] Eg]]]; [now left | left; congruence | right; now exists g].
    + rewrite in_app_iff. cbn [In]. split.
      * intros [[H|[H|[]]]|[g [Hg Eg]]];
          [now left | right; exists f; split; [now left | exact H]
          | right; exists g; split; [now right | exact Eg]].
      * intros [H|[g [[<-|Hg] Eg]]];
          [left; now left | left; right; now left | right; now exists g].
Qed.

Lemma get_extensions (k : string) (ks : list string) :
  forall o,
    JsObject.get k (fold_left (fun r e => spread r [(e, lookup e)]) ks o)
    = if existsb (String.eqb k) ks then Some (lookup k) else JsObject.get k o.
Proof.
  induction ks as [|e ks IH]; intros o; cbn [fold_left existsb]; [reflexivity|].
  rewrite IH, spread_single, NLSFacts.get_set.
  destruct (String.eqb k e) eqn:E; cbn [orb].
  - apply String.eqb_eq in E. subst e. now destruct (existsb (String.eqb k) ks).
  - reflexivity.
Qed.

Lemma wf_all (files : list IFile) : wf (all_ files).
Proof.
  unfold allExtensions. rewrite spread_defaults. apply wf_set, wf_set.
  unfold extensions. apply wf_fold; [|constructor].
  intros o x W. rewrite spread_single. now apply wf_set.
Qed.

(** The type recorded for an extension. *)
Lemma get_all (k : string) (files : list IFile) :
  JsObject.get k (all_ files)
  = if String.eqb k ".vsixmanifest" then Some "text/xml"
    else if String.eqb k ".json" then Some "application/json"
    else if truthy k && existsb (fun f => String.eqb k (keyOf f)) files
         then Some (lookup k) else None.
Proof.
  unfold allExtensions. rewrite spread_defaults, !NLSFacts.get_set.
  destruct (String.eqb k ".vsixmanifest"); [reflexivity|].
  destruct (String.eqb k ".json"); [reflexivity|].
  unfold extensions. rewrite get_extensions. cbn [JsObject.get].
  assert (E : existsb (String.eqb k) (filter truthy (JsObject.keys (keyBy_ files)))
              = truthy k && existsb (fun f => String.eqb k (keyOf f)) files).
  { apply eq_true_iff_eq. rewrite andb_true_iff, !existsb_exists. split.
    - intros [x [Hx E]]. apply String.eqb_eq in E. subst x.
      apply filter_In in Hx. destruct Hx as [Hx T]. split; [exact T|].
      apply in_keys in Hx. unfold keyBy in Hx. apply in_keyBy in Hx.
      destruct Hx as [[]|[f [Hf Ef]]]. exists f. split; [exact Hf|].
      rewrite Ef. apply String.eqb_refl.
    - intros [T [f [Hf E]]]. apply String.eqb_eq in E. exists k.
      split; [|apply String.eqb_refl]. apply filter_In. split; [|exact T].
      apply in_keys. unfold keyBy. apply in_keyBy. right. exists f. now split. }
  now rewrite E.
Qed.

(** X12.  The table of content types lists each extension once.
    It always has [.json] as [application/json] and [.vsixmanifest] as
    [text/xml], whatever [mime] says of them; besides these it has exactly
    the lower-case extensions of the files that have one, each with the type
    that [mime] gives. *)
Theorem content_types_table (files : list IFile) :
  let table := contentTypes extname toLowerCase lookup files in
  NoDup (map extension table)
  /\ In {| extension := ".json"; contentType := Some "application/json" |} table
  /\ In {| extension := ".vsixmanifest"; contentType := Some "text/xml" |} table
  /\ (forall e, e <> ".json" -> e <> ".vsixmanifest" ->
        (In e (map extension table) <->
           e <> "" /\ exists f, In f files /\ toLowerCase (extname (path f)) = e)
        /\ (In e (map extension table) ->
            In {| extension := e; contentType := Some (lookup e) |} table)).
Proof.
  cbv zeta. unfold contentTypes.
  assert (K : forall e, In e (JsObject.keys (all_ files)) <->
              JsObject.get e (all_ files) <> None).
  { intros e. rewrite in_keys, get_in. split.
    - intros [v H]. congruence.
    - intros H. destruct (JsObject.get e (all_ files)) as [v|]; [now exists v | congruence]. }
  assert (M : forall e v, JsObject.get e (all_ files) = Some v ->
              In {| extension := e; contentType := Some v |}
                (map (fun extension =>
                        {| extension := extension;
                           contentType := JsObject.get extension (all_ files) |})
                     (JsObject.keys (all_ files)))).
  { intros e v H. apply in_map_iff. exists e. rewrite H. split; [reflexivity|].
    apply K. congruence. }
  split; [|split; [|split]].
  - rewrite map_map. cbn [extension]. rewrite map_id. apply nodup_keys, wf_all.
  - apply M. now rewrite get_all.
  - apply M. now rewrite get_all.
  - intros e N1 N2. rewrite map_map. cbn [extension]. rewrite map_id, K.
    pose proof (get_all e files) as G.
    apply String.eqb_neq in N1. apply String.eqb_neq in N2. rewrite N1, N2 in G.
    split.
    + rewrite G. destruct (truthy e) eqn:T; cbn [andb].
      * destruct (existsb _ files) eqn:X.
        -- split; [|discriminate]. intros _. split; [now destruct e|].
           apply existsb_exists in X. destruct X as [f [Hf E]].
           apply String.eqb_eq in E. now exists f.
        -- split; [congruence|]. intros [_ [f [Hf E]]]. exfalso.
           assert (Y : existsb (fun f => String.eqb e (keyOf f)) files = true).
           { apply existsb_exists. exists f. split; [exact Hf|].
             rewrite E. apply String.eqb_refl. }
           cbv beta in Y. congruence.
      * split; [congruence|]. intros [Ne _]. destruct e; [congruence | discriminate].
    + intros H. apply M. rewrite G in *.
      now destruct (truthy e && existsb (fun f => String.eqb e (keyOf f)) files).
Qed.

End Table.

(** The table for five files; the key [7] is an array index and comes
    first. *)
Example content_types_example :
  map extension
    (contentTypes Lib.extname Lib.toLowerCase (fun e => "type/" +++ e)
       [Sample.fileAt "a.JSON"; Sample.fileAt "b.png"; Sample.fileAt "LICENSE";
        Sample.fileAt "c.PNG"; Sample.fileAt "d.7"])
  = [".json"; ".png"; ".7"; ".vsixmanifest"].
Proof. vm_compute. reflexivity. Qed.

End ContentTypesFacts.
(* ================================================================== *)
(** ** The default filter of the License processor *)

Module DefaultLicenseFacts.
Import Str StrFacts RegExpFacts MatchFacts Text License.


Section Stage.
Variable newRegExp : string -> result regex.


End Stage.

End DefaultLicenseFacts.


(* ================================================================== *)
(** ** The License processor over a list of files *)

Module LicenseFilesFacts.
Import Str License LicenseFiles.

Section Stage.
Variable normalize : string -> string.
Variable extname : string -> string.

Abbreviation step_ := (step normalize extname).
Abbreviation processed_ := (processed normalize extname).

(** Once a license is found the processor passes every file on. *)
Lemma fold_latched (st : State) (files : list IFile) :
  didFindLicense st = true ->
  forall acc, fold_left step_ files (st, acc) = (st, acc ++ files).
Proof.
  intros D. induction files as [|f files IH]; intros acc; cbn [fold_left].
  - now rewrite app_nil_r.
  - unfold step at 2. unfold onFile. cbn [fst snd]. rewrite D. cbn [negb fst snd].
    rewrite IH. now rewrite <- app_assoc.
Qed.

Lemma fold_no_match (st : State) (files : list IFile) :
  (forall g, In g files -> filter st (normalize (path g)) = false) ->
  forall acc, fold_left step_ files (st, acc) = (st, acc ++ files).
Proof.
  induction files as [|f files IH]; intros H acc; cbn [fold_left].
  - now rewrite app_nil_r.
  - unfold step at 2. unfold onFile. cbn [fst snd].
    rewrite (H f (or_introl eq_refl)).
    destruct (negb (didFindLicense st)); cbn [fst snd];
      (rewrite IH; [now rewrite <- app_assoc | intros g Hg; apply H; now right]).
Qed.

Lemma fold_app (files1 files2 : list IFile) (acc : State * list IFile) :
  fold_left step_ (files1 ++ files2) acc = fold_left step_ files2 (fold_left step_ files1 acc).
Proof. apply fold_left_app. Qed.

(** X13.  The License processor registers the first file, in the order
    of arrival, whose normalized path passes its filter, and no other: the
    files before it and after it are passed on as they are, the state keeps
    one license asset and [vsix.license] is its path.  The file is renamed
    with [.txt] exactly when its normalized path has no extension, and the
    asset has its path changed in the same way.  When no file passes the
    filter, nothing is registered. *)
Theorem license_first_match (st : State) (files : list IFile) :
  didFindLicense st = false ->
  ((forall g, In g files -> filter st (normalize (path g)) = false) ->
   processed_ st files = (st, files))
  /\ (forall pre f post,
        files = pre ++ f :: post ->
        (forall g, In g pre -> filter st (normalize (path g)) = false) ->
        filter st (normalize (path f)) = true ->
        processed_ st files
        = ({| filter := filter st;
              didFindLicense := true;
              assets := assets st ++ [licenseAsset (licensePath normalize extname f)];
              vsixLicense := Some (licensePath normalize extname f) |},
           pre ++ (if truthy (extname (normalize (path f))) then f
                   else {| path := path f +++ ".txt"; contents := contents f |}) :: post)).
Proof.
  intros D. unfold processed. split.
  - intros H. now rewrite fold_no_match.
  - intros pre f post -> Hpre Hf.
    rewrite fold_app, (fold_no_match st pre Hpre). cbn [app fold_left].
    unfold step at 2. unfold onFile. cbn [fst snd]. rewrite D, Hf. cbn [negb].
    unfold licensePath, licenseAsset.
    destruct (truthy (extname (normalize (path f)))); cbn [negb fst snd];
      (rewrite fold_latched; [|reflexivity]); now rewrite <- app_assoc.
Qed.

End Stage.

Lemma license_first_match_witness :
  processed Lib.normalize Lib.extname Cases.defaultLicense Cases.licenseFiles
  = ({| filter := filter Cases.defaultLicense;
        didFindLicense := true;
        assets := [licenseAsset "extension/LICENSE.txt"];
        vsixLicense := Some "extension/LICENSE.txt" |},
     [Sample.fileAt "extension/package.json"; Sample.fileAt "extension/LICENSE.txt";
      Sample.fileAt "extension/license.md"]).
Proof.
  apply (proj2 (license_first_match Lib.normalize Lib.extname Cases.defaultLicense
                  Cases.licenseFiles eq_refl)
           [Sample.fileAt "extension/package.json"] (Sample.fileAt "extension/LICENSE")
           [Sample.fileAt "extension/license.md"]).
  - reflexivity.
  - intros g [<-|[]]. reflexivity.
  - reflexivity.
Defined.

End LicenseFilesFacts.

(* ================================================================== *)
(** ** Properties of [collectAllFiles] *)

Module CollectFacts.
Import Str StrFacts RegExpFacts Text Collect.

Local Arguments Ascii.eqb : simpl never.

(** Replacing every match of [/\\/g] by a slash leaves no backslash. *)
Lemma slashes_from (s : string) :
  forall prev idx,
    exists t, replace_from noFlags reBackslash (fun _ => OK "/") prev s idx 0 = OK t
              /\ mem "\" t = false /\ String.length t = String.length s.
Proof.
  induction s as [|c s IH]; intros prev idx; [now exists ""|].
  cbn [replace_from]. unfold match_here.
  cbn [rmatch reBackslash RChar start_state m_rest].
  assert (C : class_ok (ignoreCase noFlags) false [CChar "\"] c = Ascii.eqb c "\").
  { unfold class_ok, item_ok. cbn. now rewrite !orb_false_r. }
  rewrite C. destruct (Ascii.eqb c "\") eqn:E.
  - cbn [matched bind]. unfold consumed. cbn [m_rest advance start_state String.length].
    replace (S (String.length s) - String.length s) with 1 by lia.
    cbn [take String.length Nat.sub].
    destruct (IH (Some c) (S idx)) as [t [-> [M L]]]. cbn [bind Nat.eqb].
    exists (String "/" t). cbn [String.append mem String.length].
    split; [reflexivity|]. split; [|now rewrite L].
    change (Ascii.eqb "\" "/") with false. exact M.
  - destruct (IH (Some c) (S idx)) as [t [-> [M L]]]. cbn [bind].
    exists (String c t). cbn [mem String.length]. split; [reflexivity|].
    split; [|now rewrite L]. rewrite Ascii.eqb_sym, E. exact M.
Qed.

Lemma replaceAll_slashes (s : string) :
  mem "\" (replaceAll noFlags reBackslash "/" s) = false.
Proof.
  unfold replaceAll, replace. destruct (slashes_from s None 0) as [t [-> [M _]]]. exact M.
Qed.

Lemma allOK_in (A : Type) (l : list (result A)) (xs : list A) :
  allOK l = OK xs -> forall x, In x xs -> In (OK x) l.
Proof.
  revert xs. induction l as [|r l IH]; intros xs H x Hx; cbn [allOK] in H.
  - injection H as <-. destruct Hx.
  - destruct r as [y|]; [|discriminate]. cbn [bind] in H.
    destruct (allOK l) as [ys|]; [|discriminate]. cbn [bind] in H. injection H as <-.
    destruct Hx as [<-|Hx]; [now left | right; now apply (IH ys)].
Qed.

Section Files.
Variable getDependencies : result (list string).
Variable glob : string -> result (list string).
Variable relative : string -> string -> string.
Variable join : string -> string -> string.
Variable minimatch : string -> string -> bool.
Variable cwd : string.

Abbreviation collectAllFiles_ := (collectAllFiles getDependencies glob relative join cwd).
Abbreviation packageFiles_ :=
  (packageFiles getDependencies glob relative join minimatch cwd).

Lemma collectAllFiles_in (files : list string) (f : string) :
  collectAllFiles_ = OK files -> In f files ->
  exists deps dep found g,
    getDependencies = OK deps /\ In dep deps /\ glob dep = OK found /\ In g found
    /\ f = replaceAll noFlags reBackslash "/" (relative cwd (join dep g)).
Proof.
  unfold collectAllFiles. destruct getDependencies as [deps|]; [|discriminate].
  cbn [bind]. destruct (allOK _) as [lists|] eqn:A; [|discriminate]. cbn [bind].
  intros [= <-] H. apply in_concat in H. destruct H as [l [Hl Hf]].
  apply (allOK_in _ _ _ A) in Hl. apply in_map_iff in Hl.
  destruct Hl as [dep [E Hdep]]. unfold filesOf in E.
  destruct (glob dep) as [found|] eqn:G; [|discriminate]. cbn [bind] in E.
  injection E as <-. rewrite map_map in Hf. apply in_map_iff in Hf.
  destruct Hf as [g [<- Hg]]. now exists deps, dep, found, g.
Qed.

(** X14.  Every path that [collect] hands to the processors is
    [extension/] followed by a path that comes from a file found by [glob]
    in one of the dependencies that [getDependencies] returned, has no
    backslash, and has no carriage return at the end of a line. *)
Theorem package_paths (ign : Ignore.readResult) (paths : list string) :
  packageFiles_ ign = OK paths ->
  forall p, In p paths ->
    exists f deps dep found g,
      p = "extension/" +++ f
      /\ mem "\" f = false
      /\ Ignore.hasCarriageReturn f = false
      /\ getDependencies = OK deps /\ In dep deps
      /\ glob dep = OK found /\ In g found
      /\ f = replaceAll noFlags reBackslash "/" (relative cwd (join dep g)).
Proof.
  unfold packageFiles, collectFiles.
  destruct collectAllFiles_ as [files|] eqn:A; [|discriminate]. cbn [bind].
  unfold Ignore.collectFiles.
  destruct (match ign with
            | Ignore.FileContent s => OK s
            | Ignore.NotFound => OK ""
            | Ignore.ReadError msg => Fatal msg
            end) as [raw|]; [|discriminate]. cbn [bind].
  intros [= <-] p H. apply in_map_iff in H. destruct H as [f [<- H]].
  apply filter_In in H. destruct H as [H _].
  apply filter_In in H. destruct H as [H CRf]. apply negb_true_iff in CRf.
  destruct (collectAllFiles_in files f A H) as [deps [dep [found [g [Hd [Hdep [G [Hg E]]]]]]]].
  exists f, deps, dep, found, g. repeat split; try assumption.
  rewrite E. apply replaceAll_slashes.
Qed.

End Files.

Lemma package_paths_witness :
  exists f deps dep found g,
    "extension/src/a.js" = "extension/" +++ f
    /\ mem "\" f = false
    /\ Ignore.hasCarriageReturn f = false
    /\ OK ["/ext"] = OK deps /\ In dep deps
    /\ (fun _ : string => OK ["package.json"; "src\a.js"]) dep = OK found /\ In g found
    /\ f = replaceAll noFlags reBackslash "/" (Builtin.relative "/ext" (Builtin.join dep g)).
Proof.
  apply (package_paths (OK ["/ext"]) (fun _ => OK ["package.json"; "src\a.js"])
           Builtin.relative Builtin.join Glob.minimatch "/ext" Ignore.NotFound
           ["extension/package.json"; "extension/src/a.js"]).
  - vm_compute. reflexivity.
  - right. now left.
Defined.

End CollectFacts.
(* ================================================================== *)
(** ** More properties of the ignore engine *)

Module IgnoreMore.
Import Str StrFacts RegExpFacts MatchFacts Text Ignore IgnoreFacts.

Local Arguments Ascii.eqb : simpl never.
Local Arguments isWhite : simpl never.

(** *** The lines of the ignore file *)

Lemma splitLines_cons (s : string) : exists l ls, splitLines s = l :: ls.
Proof.
  destruct s as [|c s]; [now exists "", []|]. cbn [splitLines].
  destruct (isLineTerminator c); [now eexists; eexists|].
  destruct (splitLines s); now eexists; eexists.
Qed.

Lemma splitLines_app (a : string) (c : ascii) (b : string) :
  isLineTerminator c = true ->
  splitLines (a +++ String c b) = splitLines a ++ splitLines b.
Proof.
  intros T. induction a as [|x a IH].
  - cbn [String.append splitLines]. now rewrite T.
  - change (String x a +++ String c b) with (String x (a +++ String c b)).
    cbn [splitLines]. rewrite IH.
    destruct (isLineTerminator x); [reflexivity|].
    destruct (splitLines_cons a) as [l [ls ->]]. reflexivity.
Qed.

Lemma parseIgnore_app (a : string) (c : ascii) (b : string) :
  isLineTerminator c = true ->
  parseIgnore (a +++ String c b) = parseIgnore a ++ parseIgnore b.
Proof.
  intros T. unfold parseIgnore. now rewrite (splitLines_app a c b T), map_app, !filter_app.
Qed.

Lemma comment_test (t : string) : test noFlags reComment (String "#" t) = true.
Proof.
  apply test_den. exists "", (String "#" t), (advance "#" t (start_state None (String "#" t))).
  split; [reflexivity|]. unfold reComment. cbn [RSeqs].
  apply den_seq with (start_state None (String "#" t)); [now constructor|].
  apply den_seq with (start_state None (String "#" t)); [apply den_star_nil|].
  now constructor.
Qed.

(** A line that is blank or a comment gives no rule. *)
Lemma parseIgnore_comment (line : string) :
  all (fun c => negb (isLineTerminator c)) line = true ->
  trim line = "" \/ (exists t, trim line = String "#" t) ->
  parseIgnore line = [].
Proof.
  intros A H. unfold parseIgnore. rewrite (splitLines_single line A). cbn [map].
  destruct H as [->|[t ->]]; [reflexivity|]. cbn [filter truthy].
  now rewrite comment_test.
Qed.

(** *** Rules as sets *)

Lemma in_addFolders (x : string) (l : list string) :
  In x (addFolders l) <->
  In x l \/ exists i, In i l /\ test noFlags reGlobName i = false
                      /\ x = (if test noFlags reTrailingSlash i
                              then i +++ "**" else i +++ "/**").
Proof.
  unfold addFolders. rewrite in_app_iff, in_map_iff. split.
  - intros [H|[i [<- H]]]; [now left|]. apply filter_In in H. destruct H as [H G].
    apply negb_true_iff in G. right. now exists i.
  - intros [H|[i [H [G ->]]]]; [now left|]. right. exists i. split; [reflexivity|].
    apply filter_In. split; [exact H|]. now rewrite G.
Qed.

Lemma existsb_same (A : Type) (g : A -> bool) (l1 l2 : list A) :
  (forall x, In x l1 <-> In x l2) -> existsb g l1 = existsb g l2.
Proof.
  intros H. apply eq_true_iff_eq. rewrite !existsb_exists. split;
    intros [x [Hx G]]; exists x; (split; [now apply H | exact G]).
Qed.

Section Collect.
Variable minimatch : string -> string -> bool.

Abbreviation collect_ := (collectFiles minimatch).

(** The result depends on the ignore file through its set of rules. *)
Lemma collect_same_rules (files : list string) (raw1 raw2 : string) :
  (forall x, In x (parseIgnore raw1) <-> In x (parseIgnore raw2)) ->
  collect_ files (FileContent raw1) = collect_ files (FileContent raw2).
Proof.
  intros H. rewrite !collectFiles_content. f_equal. apply filter_ext. intros f.
  assert (F : forall x, In x (addFolders (parseIgnore raw1))
                        <-> In x (addFolders (parseIgnore raw2))).
  { intros x. rewrite !in_addFolders. split.
    - intros [K|[i [K R]]]; [left; now apply H | right; exists i; split; [now apply H | exact R]].
    - intros [K|[i [K R]]]; [left; now apply H | right; exists i; split; [now apply H | exact R]]. }
  unfold keep, excluded, reincluded. rewrite !ignoreOf_eq, !negateOf_eq, !existsb_app.
  rewrite (existsb_same _ (fun i => minimatch f i)
             (filter isIgnore (addFolders (parseIgnore raw1)))
             (filter isIgnore (addFolders (parseIgnore raw2)))).
  - rewrite (existsb_same _ (fun i => minimatch f (drop 1 i))
               (filter (fun i => negb (isIgnore i)) (addFolders (parseIgnore raw1)))
               (filter (fun i => negb (isIgnore i)) (addFolders (parseIgnore raw2))));
      [reflexivity|].
    intros x. rewrite !filter_In. now rewrite F.
  - intros x. rewrite !filter_In. now rewrite F.
Qed.

(** X15.  The order of the lines of the ignore file and their repetition
    do not matter: two ignore files with the same set of rules give the same
    result, so that a negated pattern re-includes a file wherever it
    stands.  In particular two blocks of lines can change places, and a
    block that is written twice counts once. *)
Theorem rule_order_irrelevant (files : list string) (raw1 raw2 : string) :
  ((forall x, In x (parseIgnore raw1) <-> In x (parseIgnore raw2)) ->
   collect_ files (FileContent raw1) = collect_ files (FileContent raw2))
  /\ collect_ files (FileContent (raw1 +++ String LF raw2))
     = collect_ files (FileContent (raw2 +++ String LF raw1))
  /\ collect_ files (FileContent (raw1 +++ String LF raw1))
     = collect_ files (FileContent raw1).
Proof.
  split; [apply collect_same_rules|].
  split; apply collect_same_rules; intros x;
    rewrite !(parseIgnore_app _ LF) by reflexivity; rewrite !in_app_iff; tauto.
Qed.

(** X16.  A line of the ignore file that is blank, or whose first
    character after white space is [#], has no effect. *)
Theorem comment_lines_ignored (files : list string) (a line b : string) :
  all (fun c => negb (isLineTerminator c)) line = true ->
  trim line = "" \/ (exists t, trim line = String "#" t) ->
  collect_ files (FileContent (a +++ String LF (line +++ String LF b)))
  = collect_ files (FileContent (a +++ String LF b)).
Proof.
  intros A H. apply collect_same_rules. intros x.
  rewrite !(parseIgnore_app _ LF) by reflexivity.
  now rewrite (parseIgnore_comment line A H).
Qed.

(** X17.  The three line ends are read alike: an ignore file with the
    lines separated by a carriage return and a line feed, or by a carriage
    return alone, gives the result of the file with line feeds. *)
Theorem line_ends_alike (files : list string) (a b : string) :
  collect_ files (FileContent (a +++ String CR (String LF b)))
  = collect_ files (FileContent (a +++ String LF b))
  /\ collect_ files (FileContent (a +++ String CR b))
     = collect_ files (FileContent (a +++ String LF b)).
Proof.
  split; apply collect_same_rules; intros x.
  - rewrite (parseIgnore_app a CR), (parseIgnore_app a LF) by reflexivity.
    change (String LF b) with ("" +++ String LF b).
    now rewrite (parseIgnore_app "" LF) by reflexivity.
  - now rewrite (parseIgnore_app a CR), (parseIgnore_app a LF) by reflexivity.
Qed.

(** X18.  Without an ignore file the result is the one for an empty
    ignore file: a candidate is kept when it has no carriage return at a
    line end and either matches none of the default patterns or matches
    [package.json].  A failure to read the file other than its absence is
    the failure of [collectFiles]. *)
Theorem no_ignore_file (files : list string) :
  collect_ files NotFound
  = OK (filter (fun f => negb (hasCarriageReturn f)
                         && (negb (existsb (fun i => minimatch f i) defaultIgnore)
                             || minimatch f "package.json"))
          files)
  /\ collect_ files NotFound = collect_ files (FileContent "")
  /\ forall msg, collect_ files (ReadError msg) = Fatal msg.
Proof.
  split; [|split; [reflexivity | reflexivity]].
  rewrite collectFiles_not_found, collectFiles_content, filter_filter.
  f_equal. apply filter_ext. intros f. f_equal.
  unfold keep, excluded, reincluded.
  change (ignoreOf "") with defaultIgnore. change (negateOf "") with ["!package.json"].
  cbn [existsb drop]. now rewrite orb_false_r.
Qed.

End Collect.

(** *** Folder twins *)

Lemma mem_split (c : ascii) (s : string) :
  mem c s = true -> exists u v, s = u +++ String c v.
Proof.
  induction s as [|x s IH]; [discriminate|]. cbn [mem].
  destruct (Ascii.eqb c x) eqn:E.
  - apply Ascii.eqb_eq in E. subst x. intros _. now exists "", s.
  - cbn [orb]. intros H. destruct (IH H) as [u [v ->]]. now exists (String x u), v.
Qed.

Lemma lastSegment_cut (s : string) :
  mem "/" (lastSegment s) = false
  /\ (lastSegment s = s \/ exists p, s = p +++ String "/" (lastSegment s)).
Proof.
  induction s as [|c s [M IH]]; [now split; [|left]|]. cbn [lastSegment].
  destruct (mem "/" s) eqn:S.
  - split; [exact M|]. right. destruct IH as [E|[p E]].
    + rewrite E in M. congruence.
    + exists (String c p). cbn [String.append]. now rewrite <- E.
  - destruct (Ascii.eqb c "/") eqn:E.
    + apply Ascii.eqb_eq in E. subst c. split; [exact S|]. right. now exists "".
    + split; [|now left]. cbn [mem]. now rewrite Ascii.eqb_sym, E, S.
Qed.

Lemma glob_tail (pv : option ascii) (cs : list (nat * string)) (u v : string) :
  mem "/" u = false -> mem "/" v = false ->
  exists st',
    den noFlags
      (RSeqs [RStar (RSet true [CChar "/"]); RChar "*"; RStar (RSet true [CChar "/"]); REol])
      {| m_prev := pv; m_rest := u +++ String "*" v; m_caps := cs |} st'.
Proof.
  intros Hu Hv. eexists. cbn [RSeqs].
  eapply den_seq; [apply den_star_run; now apply not_char_class|].
  eapply den_seq.
  { apply (den_set noFlags false [CChar "*"] "*" v); reflexivity. }
  eapply den_seq.
  { unfold advance. cbn [m_caps].
    rewrite <- (append_nil_r v) at 1. apply den_star_run. now apply not_char_class. }
  now constructor.
Qed.

(** The two tests of [addFolders] in terms of the text of the pattern. *)
Lemma glob_name_iff (s : string) :
  test noFlags reGlobName s = mem "*" (lastSegment s).
Proof.
  destruct (mem "*" (lastSegment s)) eqn:M; [|now apply not_glob_name].
  destruct (lastSegment_cut s) as [Sl Cut].
  destruct (mem_split _ _ M) as [u [v E]]. rewrite E in Sl, Cut.
  rewrite mem_append in Sl. cbn [mem] in Sl.
  apply orb_false_iff in Sl. destruct Sl as [Hu Hv].
  apply orb_false_iff in Hv. destruct Hv as [_ Hv].
  apply test_den. unfold reGlobName.
  change (RSeqs [RGroup 1 (RAlt RBol (RChar "/")); RStar (RSet true [CChar "/"]); RChar "*";
                 RStar (RSet true [CChar "/"]); REol])
    with (RSeq (RGroup 1 (RAlt RBol (RChar "/")))
            (RSeqs [RStar (RSet true [CChar "/"]); RChar "*";
                    RStar (RSet true [CChar "/"]); REol])).
  destruct Cut as [<-|[p ->]].
  - destruct (glob_tail None [(1, "")] u v Hu Hv) as [st' D].
    exists "", (u +++ String "*" v), st'. split; [reflexivity|].
    eapply den_seq; [|exact D].
    replace {| m_prev := None; m_rest := u +++ String "*" v; m_caps := [(1, "")] |}
      with (set_cap 1 (start_state None (u +++ String "*" v))
              (start_state None (u +++ String "*" v))).
    + apply den_group, den_alt_l. now constructor.
    + unfold set_cap, consumed. cbn [start_state m_rest m_prev m_caps].
      now rewrite Nat.sub_diag.
  - destruct (glob_tail (Some "/"%char) [(1, "/")] u v Hu Hv) as [st' D].
    exists p, (String "/" (u +++ String "*" v)), st'. split; [reflexivity|].
    eapply den_seq; [|exact D].
    replace {| m_prev := Some "/"%char; m_rest := u +++ String "*" v; m_caps := [(1, "/")] |}
      with (set_cap 1 (start_state (last p) (String "/" (u +++ String "*" v)))
              (advance "/" (u +++ String "*" v)
                 (start_state (last p) (String "/" (u +++ String "*" v))))).
    + apply den_group, den_alt_r. now constructor.
    + unfold set_cap, consumed. cbn [start_state advance m_rest m_prev m_caps String.length].
      replace (S (String.length (u +++ String "*" v)) - String.length (u +++ String "*" v))
        with 1 by lia.
      reflexivity.
Qed.

Lemma trailing_slash_iff (s : string) :
  test noFlags reTrailingSlash s
  = match last s with Some c => Ascii.eqb c "/" | None => false end.
Proof.
  destruct (last s) as [c|] eqn:L.
  - destruct (Ascii.eqb c "/") eqn:E; [|now apply not_trailing_slash with c].
    apply Ascii.eqb_eq in E. subst c. apply last_some_snoc in L. destruct L as [a ->].
    change reTrailingSlash with (RSeq (RLit "/") REol).
    apply (test_suffix noFlags eq_refl). now exists a, "/".
  - apply last_none in L. now subst s.
Qed.

(** X19.  [addFolders] gives a pattern a twin for the content of a folder
    unless the text after its last slash has a star: the twin is the
    pattern followed by [**] when the pattern ends with a slash, and by
    [/**] otherwise.  The patterns themselves are all kept, before the
    twins. *)
Theorem folder_twins (ignore : list string) :
  addFolders ignore
  = ignore
    ++ flat_map (fun i => if mem "*" (lastSegment i) then []
                          else match last i with
                               | Some "/"%char => [i +++ "**"]
                               | _ => [i +++ "/**"]
                               end)
         ignore.
Proof.
  unfold addFolders. f_equal. induction ignore as [|i l IH]; [reflexivity|].
  cbn [filter flat_map]. rewrite glob_name_iff.
  destruct (mem "*" (lastSegment i)); cbn [negb app]; [exact IH|].
  cbn [map]. rewrite IH, trailing_slash_iff. f_equal.
  destruct (last i) as [c|]; [|reflexivity].
  destruct (Ascii.eqb c "/") eqn:E.
  - apply Ascii.eqb_eq in E. now subst c.
  - destruct c as [[] [] [] [] [] [] [] []]; try reflexivity. discriminate.
Qed.

Lemma negate_test (s : string) : test noFlags reNegate (String "!" s) = true.
Proof.
  apply test_den. exists "", (String "!" s), (advance "!" s (start_state None (String "!" s))).
  split; [reflexivity|]. unfold reNegate. cbn [RSeqs].
  apply den_seq with (start_state None (String "!" s)); [now constructor|].
  apply den_seq with (start_state None (String "!" s)); [apply den_star_nil|].
  now constructor.
Qed.

Section Reinclude.
Variable minimatch : string -> string -> bool.

(** X20.  A line [!d] of the ignore file, where [d] has no star after
    its last slash and does not end with a slash, re-includes the folder
    [d] with its content: a candidate that matches [d] or [d/**] is kept
    whatever the other rules exclude. *)
Theorem negated_folder_reincluded (files : list string) (raw d f : string) :
  In (String "!" d) (parseIgnore raw) ->
  mem "*" (lastSegment (String "!" d)) = false ->
  (forall c, last d = Some c -> c <> "/"%char) ->
  In f files -> hasCarriageReturn f = false ->
  minimatch f d = true \/ minimatch f (d +++ "/**") = true ->
  exists out, collectFiles minimatch files (FileContent raw) = OK out /\ In f out.
Proof.
  intros Hd G Sl Hf Cr M. eexists. split; [apply collectFiles_content|].
  apply filter_In. split; [apply filter_In; split; [exact Hf | now rewrite Cr]|].
  unfold keep. apply orb_true_iff. right. unfold reincluded. apply existsb_exists.
  rewrite negateOf_eq.
  assert (T : test noFlags reTrailingSlash (String "!" d) = false).
  { rewrite trailing_slash_iff, last_cons.
    destruct (last d) as [c|] eqn:L; [|reflexivity].
    apply Ascii.eqb_neq. now apply Sl. }
  destruct M as [M|M].
  - exists (String "!" d). split; [|exact M].
    apply in_or_app. left. apply filter_In. split.
    + apply in_addFolders. now left.
    + unfold isIgnore. now rewrite negate_test.
  - exists (String "!" d +++ "/**"). split; [|exact M].
    apply in_or_app. left. apply filter_In. split.
    + apply in_addFolders. right. exists (String "!" d).
      split; [exact Hd|]. split; [now rewrite glob_name_iff|]. now rewrite T.
    + unfold isIgnore. change (String "!" d +++ "/**") with (String "!" (d +++ "/**")).
      now rewrite negate_test.
Qed.

End Reinclude.

Lemma rule_order_irrelevant_witness :
  collectFiles Glob.minimatch ["out/main.js"; "out/lib.js"; "src/a.ts"]
    (FileContent ("out" +++ Sample.lineFeed +++ "!out/main.js"))
  = collectFiles Glob.minimatch ["out/main.js"; "out/lib.js"; "src/a.ts"]
      (FileContent ("!out/main.js" +++ Sample.lineFeed +++ "out" +++ Sample.lineFeed +++ "out")).
Proof.
  apply (proj1 (rule_order_irrelevant Glob.minimatch
                  ["out/main.js"; "out/lib.js"; "src/a.ts"]
                  ("out" +++ Sample.lineFeed +++ "!out/main.js")
                  ("!out/main.js" +++ Sample.lineFeed +++ "out" +++ Sample.lineFeed +++ "out"))).
  intros x. vm_compute. tauto.
Defined.

Lemma comment_lines_ignored_witness :
  collectFiles Glob.minimatch ["out/main.js"; "a.map"; "src/a.ts"]
    (FileContent ("out" +++ String LF ("  # build output" +++ String LF "*.map")))
  = collectFiles Glob.minimatch ["out/main.js"; "a.map"; "src/a.ts"]
      (FileContent ("out" +++ String LF "*.map")).
Proof.
  apply (comment_lines_ignored Glob.minimatch).
  - reflexivity.
  - right. now exists " build output".
Defined.

Lemma negated_folder_reincluded_witness :
  exists out,
    collectFiles Glob.minimatch ["out/main.js"; "out/x/y.js"; "src/a.ts"]
      (FileContent ("out/**" +++ Sample.lineFeed +++ "!out/x")) = OK out
    /\ In "out/x/y.js" out.
Proof.
  apply (negated_folder_reincluded Glob.minimatch
           ["out/main.js"; "out/x/y.js"; "src/a.ts"]
           ("out/**" +++ Sample.lineFeed +++ "!out/x") "out/x" "out/x/y.js").
  - vm_compute. right. now left.
  - reflexivity.
  - intros c [= <-]. discriminate.
  - right. now left.
  - reflexivity.
  - right. reflexivity.
Defined.

(** Patterns and their twins. *)
Example folder_twins_example :
  addFolders ["out"; "src/"; "*.map"; "test/*/fixtures"; "!out/main.js"]
  = ["out"; "src/"; "*.map"; "test/*/fixtures"; "!out/main.js";
     "out/**"; "src/**"; "test/*/fixtures/**"; "!out/main.js/**"].
Proof. vm_compute. reflexivity. Qed.

End IgnoreMore.
(* ================================================================== *)
(** ** Ignore rules only take away, negated rules only bring back *)

Module Monotone.
Import Str StrFacts RegExpFacts MatchFacts Text Ignore IgnoreFacts IgnoreMore.

Local Arguments Ascii.eqb : simpl never.
Local Arguments isWhite : simpl never.

(** *** More rules, fewer files *)

Lemma trimStart_head (s : string) :
  trimStart s = "" \/ exists c t, trimStart s = String c t /\ isWhite c = false.
Proof.
  induction s as [|c s IH]; [now left|]. cbn [trimStart].
  destruct (isWhite c) eqn:W; [exact IH|]. right. now exists c, s.
Qed.

Lemma trim_head (s : string) :
  trim s = "" \/ exists c t, trim s = String c t /\ isWhite c = false.
Proof.
  unfold trim. destruct (trimStart_head s) as [->|[c [t [-> W]]]]; [now left|].
  right. cbn [trimEnd]. rewrite W. destruct (trimEnd t); now eexists; eexists.
Qed.

(** A rule of the ignore file starts with a character that is not white
    space. *)
Lemma parse_head (raw i : string) :
  In i (parseIgnore raw) -> exists c t, i = String c t /\ isWhite c = false.
Proof.
  unfold parseIgnore. intros H. apply filter_In in H. destruct H as [H _].
  apply filter_In in H. destruct H as [H T]. apply in_map_iff in H.
  destruct H as [s [<- _]]. destruct (trim_head s) as [E|[c [t [E W]]]].
  - rewrite E in T. discriminate.
  - now exists c, t.
Qed.

Lemma isIgnore_head (c : ascii) (t : string) :
  isWhite c = false -> isIgnore (String c t) = negb (Ascii.eqb c "!").
Proof.
  intros W. unfold isIgnore. f_equal. destruct (Ascii.eqb c "!") eqn:E.
  - apply Ascii.eqb_eq in E. subst c. apply negate_test.
  - unfold reNegate. now apply anchored_white_then.
Qed.

(** The rules that a block of lines adds, with their twins. *)
Lemma folders_of_block (raw x : string) :
  In x (addFolders (parseIgnore raw)) ->
  exists c t u, x = String c (t +++ u) /\ isWhite c = false
                /\ In (String c t) (parseIgnore raw).
Proof.
  intros H. apply in_addFolders in H. destruct H as [H|[i [H [_ ->]]]].
  - destruct (parse_head raw x H) as [c [t [-> W]]]. exists c, t, "".
    now rewrite append_nil_r.
  - destruct (parse_head raw i H) as [c [t [-> W]]].
    destruct (test noFlags reTrailingSlash (String c t)); [exists c, t, "**" | exists c, t, "/**"];
      now repeat split.
Qed.

Lemma existsb_incl (A : Type) (g : A -> bool) (l1 l2 : list A) :
  (forall x, In x l1 -> In x l2) -> existsb g l1 = true -> existsb g l2 = true.
Proof.
  intros H E. apply existsb_exists in E. destruct E as [x [Hx G]].
  apply existsb_exists. exists x. split; [now apply H | exact G].
Qed.

Section Collect.
Variable minimatch : string -> string -> bool.

(** X27.  Lines of the ignore file that are not negated only take files
    away, and negated lines only bring files back: when a block of lines
    without a negated pattern is added to an ignore file, every file of the
    new result was in the old one; when a block of negated patterns is
    added, every file of the old result is in the new one. *)
Theorem rules_monotone (files : list string) (a b : string) :
  exists out out',
    collectFiles minimatch files (FileContent a) = OK out
    /\ collectFiles minimatch files (FileContent (a +++ String LF b)) = OK out'
    /\ ((forall c t, In (String c t) (parseIgnore b) -> c <> "!"%char) ->
        forall f, In f out' -> In f out)
    /\ ((forall c t, In (String c t) (parseIgnore b) -> c = "!"%char) ->
        forall f, In f out -> In f out').
Proof.
  eexists. eexists. split; [apply collectFiles_content|].
  split; [apply collectFiles_content|].
  assert (P : parseIgnore (a +++ String LF b) = parseIgnore a ++ parseIgnore b)
    by now apply parseIgnore_app.
  assert (F : forall x, In x (addFolders (parseIgnore (a +++ String LF b))) <->
                In x (addFolders (parseIgnore a)) \/ In x (addFolders (parseIgnore b))).
  { intros x. rewrite P, !in_addFolders, in_app_iff. split.
    - intros [[H|H]|[i [H R]]]; [left; now left | right; now left|].
      apply in_app_iff in H. destruct H as [H|H]; [left | right]; right; now exists i.
    - intros [[H|[i [H R]]]|[H|[i [H R]]]].
      + left. now left.
      + right. exists i. split; [apply in_app_iff; now left | exact R].
      + left. now right.
      + right. exists i. split; [apply in_app_iff; now right | exact R]. }
  split.
  - intros Hb f. rewrite !filter_In. intros [Hf K]. split; [exact Hf|].
    unfold keep in *. apply orb_true_iff in K. apply orb_true_iff.
    destruct K as [K|K]; [left | right].
    + apply negb_true_iff in K. apply negb_true_iff.
      destruct (excluded minimatch (ignoreOf a) f) eqn:E; [|reflexivity].
      rewrite <- K. symmetry. unfold excluded in *. revert E. apply existsb_incl.
      intros x. rewrite !ignoreOf_eq, !in_app_iff, !filter_In, F. tauto.
    + unfold reincluded in *. revert K. apply existsb_incl.
      intros x. rewrite !negateOf_eq, !in_app_iff, !filter_In, F.
      intros [[[H|H] N]|H]; [left; now split | | now right]. exfalso.
      destruct (folders_of_block b x H) as [c [t [u [-> [W Hi]]]]].
      rewrite (isIgnore_head c _ W) in N. apply negb_true_iff in N.
      apply negb_false_iff in N. apply Ascii.eqb_eq in N. now apply (Hb c t).
  - intros Hb f. rewrite !filter_In. intros [Hf K]. split; [exact Hf|].
    unfold keep in *. apply orb_true_iff in K. apply orb_true_iff.
    destruct K as [K|K]; [left | right].
    + apply negb_true_iff in K. apply negb_true_iff.
      destruct (excluded minimatch (ignoreOf (a +++ String LF b)) f) eqn:E; [|reflexivity].
      rewrite <- K. symmetry. unfold excluded in *. revert E. apply existsb_incl.
      intros x. rewrite !ignoreOf_eq, !in_app_iff, !filter_In, F.
      intros [H|[[H|H] N]]; [now left | right; now split|]. exfalso.
      destruct (folders_of_block b x H) as [c [t [u [-> [W Hi]]]]].
      rewrite (isIgnore_head c _ W), (Hb c t Hi) in N. discriminate.
    + unfold reincluded in *. revert K. apply existsb_incl.
      intros x. rewrite !negateOf_eq, !in_app_iff, !filter_In, F. tauto.
Qed.

End Collect.

Lemma rules_monotone_witness :
  exists out out',
    collectFiles Glob.minimatch ["out/main.js"; "a.map"; "src/a.ts"] (FileContent "out") = OK out
    /\ collectFiles Glob.minimatch ["out/main.js"; "a.map"; "src/a.ts"]
         (FileContent ("out" +++ String LF "*.map")) = OK out'
    /\ (forall f, In f out' -> In f out).
Proof.
  destruct (rules_monotone Glob.minimatch ["out/main.js"; "a.map"; "src/a.ts"] "out" "*.map")
    as [out [out' [E1 [E2 [M _]]]]].
  exists out, out'. split; [exact E1|]. split; [exact E2|]. apply M.
  intros c t H. vm_compute in H. destruct H as [H|[]]. injection H as <- _.
  discriminate.
Defined.

End Monotone.

(* ================================================================== *)
(** ** More properties of the Markdown processor *)

Module MarkdownMore.
Import Str StrFacts RegExpFacts MatchFacts Text Markdown.

(** *** The base URLs inferred from a GitHub address *)

Lemma search_skip (f : flags) (r : regex) prev c rest idx :
  match_here f r prev (String c rest) idx = None ->
  search f r prev (String c rest) idx = search f r (Some c) rest (S idx).
Proof. intros H. cbn [search]. now rewrite H. Qed.

(** A match of [reGitHubPath] starts with the letter [g]. *)
Lemma github_first prev c rest idx :
  Ascii.eqb c "g" = false -> match_here noFlags reGitHubPath prev (String c rest) idx = None.
Proof.
  intros E. destruct (match_here noFlags reGitHubPath prev (String c rest) idx) as [m|] eqn:M;
    [|reflexivity].
  exfalso. apply match_here_sound in M. destruct M as [st' [D _]].
  unfold reGitHubPath in D. cbn [RSeqs] in D.
  apply den_seq_inv in D. destruct D as [st1 [D1 _]].
  apply den_lit in D1. destruct D1 as [w [r1 [S [E1 _]]]].
  apply same_exact in S. subst w. cbn in E1. injection E1 as -> _.
  discriminate.
Qed.

Lemma same_size_append (a b x y : string) :
  a +++ b = x +++ y -> String.length b = String.length y -> a = x /\ b = y.
Proof.
  revert x. induction a as [|c a IH]; intros [|d x] E L; cbn in E.
  - now split.
  - exfalso. subst b. cbn in L. rewrite length_append in L. lia.
  - exfalso. subst y. cbn in L. rewrite length_append in L. lia.
  - injection E as -> E. destruct (IH x E L) as [-> ->]. now split.
Qed.

Lemma append_inj_l (a x y : string) : a +++ x = a +++ y -> x = y.
Proof. induction a as [|c a IH]; cbn; [trivial|]. intros [= H]. now apply IH. Qed.

(** The match of [reGitHubPath] right at [github.com/A/R]. *)
Lemma github_here (A R : string) prev idx :
  A <> "" -> R <> "" -> mem "/" A = false -> mem "/" R = false ->
  exists m,
    match_here noFlags reGitHubPath prev ("github.com/" +++ A +++ String "/" R) idx = Some m
    /\ group 1 m = Some A /\ group 2 m = Some R.
Proof.
  intros Na Nr Ha Hr.
  destruct A as [|a A]; [congruence|]. destruct R as [|r R]; [congruence|].
  set (s := "github.com/" +++ String a A +++ String "/" (String r R)).
  destruct (match_here noFlags reGitHubPath prev s idx) as [m|] eqn:M.
  - exists m. split; [reflexivity|].
    apply match_here_sound in M. destruct M as [st' [D [_ [G _]]]].
    unfold reGitHubPath in D. cbn [RSeqs] in D.
    apply den_seq_inv in D. destruct D as [st1 [D1 D]].
    apply den_seq_inv in D. destruct D as [st2 [D2 D]].
    apply den_seq_inv in D. destruct D as [st3 [D3 D]].
    apply den_seq_inv in D. destruct D as [st4 [D4 D5]].
    apply den_lit in D1. destruct D1 as [w [r1 [S [E1 ->]]]].
    apply same_exact in S. subst w.
    apply den_group_inv in D2. destruct D2 as [sa [D2 ->]].
    apply den_plus_set in D2. destruct D2 as [c1 [w1 [E2 [C1 [A1 P1]]]]].
    apply den_char_inv in D3; [|reflexivity]. destruct D3 as [r3 [E3 ->]].
    apply den_group_inv in D4. destruct D4 as [sb [D4 ->]].
    apply den_plus_set in D4. destruct D4 as [c2 [w2 [E4 [C2 [A2 P2]]]]].
    apply den_group_inv in D5. destruct D5 as [sc [D5 ->]].
    apply den_groupFree in D5 as P3; [|reflexivity].
    unfold set_cap, advance in E2, E3, E4, P1, P2, P3, G.
    cbn [m_rest m_prev m_caps start_state] in E1, E2, E3, E4, P1, P2, P3, G.
    unfold s in E1. apply append_inj_l in E1.
    assert (Hg1 : mem "/" (String c1 w1) = false).
    { apply (IgnoreFacts.class_not_char false). cbn [all]. apply andb_true_iff. now split. }
    assert (Hg2 : mem "/" (String c2 w2) = false).
    { apply (IgnoreFacts.class_not_char false). cbn [all]. apply andb_true_iff. now split. }
    assert (X : String a A = String c1 w1 /\ String r R = r3).
    { apply RepositoryFacts.first_slash; try assumption.
      rewrite E1, E2, E3. reflexivity. }
    destruct X as [XA XR].
    assert (Y : String c2 w2 = String r R /\ m_rest sb = "").
    { rewrite XR, E4.
      apply den_alt_inv in D5. destruct D5 as [D5|D5].
      - exfalso. apply den_char_inv in D5; [|reflexivity]. destruct D5 as [r5 [E5 _]].
        unfold set_cap in E5. cbn [m_rest] in E5.
        rewrite XR, E4, E5 in Hr.
        rewrite mem_append in Hr. cbn [mem] in Hr.
        rewrite Ascii.eqb_refl in Hr. rewrite !orb_true_r in Hr. discriminate.
      - apply den_eol_inv in D5. destruct D5 as [_ E5]. unfold atEol, set_cap in E5.
        cbn [multiline noFlags andb m_rest] in E5.
        destruct (m_rest sb); [now rewrite append_nil_r | discriminate]. }
    destruct Y as [Y Eb].
    unfold group. rewrite G, P3, P2, P1. cbn [lookup Nat.eqb]. split; f_equal.
    + rewrite XA. apply consumed_append. cbn [m_rest]. exact E2.
    + rewrite <- Y. apply consumed_append. cbn [m_rest]. now rewrite E4.
  - exfalso. revert M. apply match_here_complete with
      {| m_prev := lastOr (Some "/"%char) (String r R); m_rest := "";
         m_caps := [(3, ""); (2, String r R); (1, String a A)] |}.
    unfold reGitHubPath. cbn [RSeqs].
    apply den_seq with {| m_prev := Some "/"%char;
                          m_rest := String a A +++ String "/" (String r R); m_caps := [] |}.
    { apply den_lit. exists "github.com/", (String a A +++ String "/" (String r R)).
      split; [reflexivity|]. split; reflexivity. }
    apply den_seq with {| m_prev := lastOr (Some "/"%char) (String a A);
                          m_rest := String "/" (String r R);
                          m_caps := [(1, String a A)] |}.
    { replace {| m_prev := lastOr (Some "/"%char) (String a A);
                 m_rest := String "/" (String r R); m_caps := [(1, String a A)] |}
        with (set_cap 1
                {| m_prev := Some "/"%char;
                   m_rest := String a A +++ String "/" (String r R); m_caps := [] |}
                {| m_prev := lastOr (Some "/"%char) (String a A);
                   m_rest := String "/" (String r R); m_caps := [] |}).
      - apply den_group. apply den_plus_run. now apply not_char_class.
      - unfold set_cap. cbn [m_prev m_rest m_caps]. f_equal. f_equal. f_equal.
        now apply consumed_append. }
    apply den_seq with {| m_prev := Some "/"%char; m_rest := String r R;
                          m_caps := [(1, String a A)] |}.
    { now apply (den_set noFlags false [CChar "/"] "/" (String r R)
                   {| m_prev := lastOr (Some "/"%char) (String a A);
                      m_rest := String "/" (String r R); m_caps := [(1, String a A)] |}). }
    apply den_seq with {| m_prev := lastOr (Some "/"%char) (String r R); m_rest := "";
                          m_caps := [(2, String r R); (1, String a A)] |}.
    { replace {| m_prev := lastOr (Some "/"%char) (String r R); m_rest := "";
                 m_caps := [(2, String r R); (1, String a A)] |}
        with (set_cap 2
                {| m_prev := Some "/"%char; m_rest := String r R;
                   m_caps := [(1, String a A)] |}
                {| m_prev := lastOr (Some "/"%char) (String r R); m_rest := "";
                   m_caps := [(1, String a A)] |}).
      - apply den_group. rewrite <- (append_nil_r (String r R)) at 1.
        apply den_plus_run. now apply not_char_class.
      - unfold set_cap. cbn [m_prev m_rest m_caps]. f_equal. f_equal. f_equal.
        apply consumed_append. cbn [m_rest]. now rewrite append_nil_r. }
    replace {| m_prev := lastOr (Some "/"%char) (String r R); m_rest := "";
               m_caps := [(3, ""); (2, String r R); (1, String a A)] |}
      with (set_cap 3
              {| m_prev := lastOr (Some "/"%char) (String r R); m_rest := "";
                 m_caps := [(2, String r R); (1, String a A)] |}
              {| m_prev := lastOr (Some "/"%char) (String r R); m_rest := "";
                 m_caps := [(2, String r R); (1, String a A)] |}) by reflexivity.
    apply den_group, den_alt_r. now constructor.
Qed.

Lemma github_exec (A R : string) :
  A <> "" -> R <> "" -> mem "/" A = false -> mem "/" R = false ->
  exists m,
    exec noFlags reGitHubPath ("https://github.com/" +++ A +++ String "/" R) = Some m
    /\ group 1 m = Some A /\ group 2 m = Some R.
Proof.
  intros Na Nr Ha Hr. unfold exec.
  change ("https://github.com/" +++ A +++ String "/" R)
    with (String "h" (String "t" (String "t" (String "p" (String "s" (String ":"
            (String "/" (String "/" ("github.com/" +++ A +++ String "/" R))))))))).
  do 8 (rewrite search_skip by (apply github_first; reflexivity)).
  destruct (github_here A R (Some "/"%char) 8 Na Nr Ha Hr) as [m [M G]].
  exists m. split; [|exact G]. now apply TagsFacts.search_here.
Qed.

Lemma drop_length (s : string) : drop (String.length s) s = "".
Proof. induction s as [|c s IH]; [reflexivity | exact IH]. Qed.

(** Removing [.git] from the end of a name. *)
Lemma strip_git (R e : string) :
  same true ".git" e = true -> replaceFirst flagI reDotGit "" (R +++ e) = R.
Proof.
  intros S. unfold replaceFirst.
  assert (T : test flagI reDotGit (R +++ e) = true).
  { apply (test_suffix flagI eq_refl). now exists R, e. }
  unfold test in T. destruct (exec flagI reDotGit (R +++ e)) as [m|] eqn:E; [|discriminate].
  unfold exec in E. apply search_sound in E. destruct E as [pre [rest [p [Es [M _]]]]].
  apply match_here_sound in M. destruct M as [st' [D [I [_ Er]]]].
  unfold reDotGit in D. apply den_seq_inv in D. destruct D as [st1 [D1 D2]].
  apply den_eol_inv in D2. destruct D2 as [-> Eo]. unfold atEol in Eo.
  cbn [multiline flagI andb] in Eo.
  apply den_lit in D1. destruct D1 as [w [r1 [Sw [E1 ->]]]].
  cbn [m_rest start_state] in *. destruct r1; [|discriminate].
  rewrite append_nil_r in *. subst rest. subst w.
  apply same_length in S. apply same_length in Sw.
  destruct (same_size_append R e pre (matched m) Es) as [-> ->]; [congruence|].
  rewrite I. cbn [Nat.add String.append]. rewrite take_append.
  replace (String.length pre + String.length (matched m))
    with (String.length (pre +++ matched m)) by apply length_append.
  now rewrite drop_length, append_nil_r.
Qed.

Lemma keep_git (R : string) :
  (forall w e, R = w +++ e -> same true ".git" e = false) ->
  replaceFirst flagI reDotGit "" R = R.
Proof.
  intros H. unfold replaceFirst.
  destruct (exec flagI reDotGit R) as [m|] eqn:E; [|reflexivity].
  exfalso. assert (T : test flagI reDotGit R = true) by (unfold test; now rewrite E).
  apply (test_suffix flagI eq_refl) in T. destruct T as [w [e [-> S]]].
  specialize (H w e eq_refl). cbn [ignoreCase flagI] in S. congruence.
Qed.

Lemma charOk_slash (ic : bool) (x : ascii) : charOk ic x "/" = true -> x = "/"%char.
Proof.
  unfold charOk, class_ok, item_ok. cbn [existsb item_has xorb].
  change (upperChar "/") with "/"%char. change (lowerChar "/") with "/"%char.
  intros H. destruct (Ascii.eqb "/" x) eqn:E; [now apply Ascii.eqb_eq in E|].
  now destruct ic.
Qed.

Lemma same_no_slash (ic : bool) (a : string) :
  forall e, same ic a e = true -> mem "/" a = false -> mem "/" e = false.
Proof.
  induction a as [|x a IH]; intros [|c e] S M; try discriminate; [reflexivity|].
  cbn [same] in S. apply andb_true_iff in S. destruct S as [C S].
  cbn [mem] in M |- *. apply orb_false_iff in M. destruct M as [M1 M2].
  rewrite (IH e S M2), orb_false_r.
  destruct (Ascii.eqb "/" c) eqn:E; [|reflexivity].
  apply Ascii.eqb_eq in E. subst c. apply charOk_slash in C. subst x.
  now rewrite Ascii.eqb_refl in M1.
Qed.

Lemma guess_of (A R' : string) (manifest : Manifest) :
  A <> "" -> R' <> "" -> mem "/" A = false -> mem "/" R' = false ->
  Manifest.repository manifest
    = Manifest.RepoString ("https://github.com/" +++ A +++ String "/" R')
  \/ Manifest.repository manifest
     = Manifest.RepoObject (Some ("https://github.com/" +++ A +++ String "/" R')) ->
  guessBaseUrls manifest = Some (basesOf A (replaceFirst flagI reDotGit "" R')).
Proof.
  intros Na Nr Ha Hr Hm. unfold guessBaseUrls.
  destruct (github_exec A R' Na Nr Ha Hr) as [m [E [G1 G2]]].
  destruct Hm as [-> | ->]; cbn [truthyOpt truthy String.append negb];
    change (String "h" (String "t" (String "t" (String "p" (String "s" (String ":"
              (String "/" (String "/" (String "g" (String "i" (String "t" (String "h"
              (String "u" (String "b" (String "." (String "c" (String "o" (String "m"
              (String "/" (A +++ String "/" R'))))))))))))))))))))
      with ("https://github.com/" +++ A +++ String "/" R');
    rewrite E; unfold groupStr; rewrite G1, G2; reflexivity.
Qed.

(** X21.  From a repository [https://github.com/A/R.git], given as a
    string or as the [url] of an object, the Markdown processor infers the
    base URLs of the account [A] and the repository [R]: the content base
    [https://github.com/A/R/blob/master], the image base
    [https://github.com/A/R/raw/master] and the repository
    [https://github.com/A/R].  The ending [.git] may be absent, and may be
    written in capital letters. *)
Theorem guess_github_url (A R : string) (manifest : Manifest) :
  A <> "" -> R <> "" -> mem "/" A = false -> mem "/" R = false ->
  (forall e,
     same true ".git" e = true ->
     Manifest.repository manifest
       = Manifest.RepoString ("https://github.com/" +++ A +++ String "/" (R +++ e))
     \/ Manifest.repository manifest
        = Manifest.RepoObject (Some ("https://github.com/" +++ A +++ String "/" (R +++ e))) ->
     guessBaseUrls manifest = Some (basesOf A R))
  /\ ((forall w e, R = w +++ e -> same true ".git" e = false) ->
      Manifest.repository manifest
        = Manifest.RepoString ("https://github.com/" +++ A +++ String "/" R)
      \/ Manifest.repository manifest
         = Manifest.RepoObject (Some ("https://github.com/" +++ A +++ String "/" R)) ->
      guessBaseUrls manifest = Some (basesOf A R)).
Proof.
  intros Na Nr Ha Hr. split.
  - intros e S Hm.
    assert (He : mem "/" e = false) by now apply (same_no_slash true ".git").
    rewrite (guess_of A (R +++ e) manifest Na); try assumption.
    + now rewrite (strip_git R e S).
    + destruct R; [congruence | discriminate].
    + now rewrite mem_append, Hr, He.
  - intros K Hm. rewrite (guess_of A R manifest Na Nr Ha Hr Hm). now rewrite (keep_git R K).
Qed.

(** *** The files a Markdown processor takes *)

Lemma any_class (c : ascii) :
  class_ok true true [CChar LF; CChar CR] c = negb (isLineTerminator c).
Proof. destruct c as [[] [] [] [] [] [] [] []]; reflexivity. Qed.

(** A name, any character but a line terminator, and [md]. *)
Lemma dotted_name_iff (name s : string) :
  test flagI (RSeqs [RBol; RLit name; RAny; RLit "md"; REol]) s = true <->
  exists a c b, s = a +++ String c b /\ same true name a = true
                /\ isLineTerminator c = false /\ same true "md" b = true.
Proof.
  rewrite test_den. cbn [RSeqs]. split.
  - intros [pre [rest [st' [-> D]]]].
    apply den_seq_inv in D. destruct D as [st1 [D1 D]].
    apply den_seq_inv in D. destruct D as [st2 [D2 D]].
    apply den_seq_inv in D. destruct D as [st3 [D3 D]].
    apply den_seq_inv in D. destruct D as [st4 [D4 D5]].
    apply den_bol_inv in D1. destruct D1 as [-> B].
    apply den_eol_inv in D5. destruct D5 as [-> E].
    apply den_lit in D2. destruct D2 as [a [r2 [Sa [E2 ->]]]].
    apply den_set_inv in D3. destruct D3 as [c [r3 [E3 [C ->]]]].
    apply den_lit in D4. destruct D4 as [b [r4 [Sb [E4 ->]]]].
    unfold atBol in B. unfold atEol in E.
    cbn [m_rest m_prev start_state advance multiline flagI andb ignoreCase] in *.
    destruct (last pre) eqn:L; [discriminate|]. apply last_none in L. subst pre.
    destruct r4; [|discriminate]. rewrite append_nil_r in E4. subst r3 r2.
    exists a, c, b. cbn [String.append]. split; [exact E2|]. split; [exact Sa|].
    split; [|exact Sb]. rewrite any_class in C. now apply negb_true_iff in C.
  - intros [a [c [b [-> [Sa [C Sb]]]]]].
    exists "", (a +++ String c b),
      {| m_prev := lastOr (Some c) b; m_rest := ""; m_caps := [] |}.
    split; [reflexivity|].
    apply den_seq with (start_state None (a +++ String c b)); [now constructor|].
    apply den_seq with {| m_prev := lastOr None a; m_rest := String c b; m_caps := [] |}.
    { apply den_lit. now exists a, (String c b). }
    apply den_seq with {| m_prev := Some c; m_rest := b; m_caps := [] |}.
    { apply (den_set flagI true [CChar LF; CChar CR] c b
               {| m_prev := lastOr None a; m_rest := String c b; m_caps := [] |});
        [reflexivity|].
      cbn [ignoreCase flagI]. rewrite any_class. now rewrite C. }
    apply den_seq with {| m_prev := lastOr (Some c) b; m_rest := ""; m_caps := [] |}.
    { apply den_lit. exists b, "". cbn [m_rest m_prev m_caps ignoreCase flagI].
      now rewrite append_nil_r. }
    now constructor.
Qed.

(** X22.  The README processor takes the files whose normalized path
    is [extension/readme], one character that is not a line terminator, and
    [md], in any case of the letters; the CHANGELOG processor the same with
    [extension/changelog].  A file of that name in a folder of the extension
    is not taken. *)
Theorem markdown_file_names (manifest : Manifest) (options : IPackageOptions) (s : string) :
  (test flagI (regexp (ReadmeProcessor manifest options)) s = true <->
   exists a c b, s = a +++ String c b /\ same true "extension/readme" a = true
                 /\ isLineTerminator c = false /\ same true "md" b = true)
  /\ (test flagI (regexp (ChangelogProcessor manifest options)) s = true <->
      exists a c b, s = a +++ String c b /\ same true "extension/changelog" a = true
                    /\ isLineTerminator c = false /\ same true "md" b = true)
  /\ (s <> "" ->
      test flagI (regexp (ReadmeProcessor manifest options))
        ("extension/" +++ s +++ "/README.md") = false
      /\ test flagI (regexp (ChangelogProcessor manifest options))
           ("extension/" +++ s +++ "/CHANGELOG.md") = false).
Proof.
  split; [apply dotted_name_iff|]. split; [apply dotted_name_iff|].
  intros N.
  assert (L : forall name t,
            test flagI (RSeqs [RBol; RLit name; RAny; RLit "md"; REol]) t = true ->
            String.length t = String.length name + 3).
  { intros name t T. apply dotted_name_iff in T. destruct T as [a [c [b [-> [Sa [_ Sb]]]]]].
    apply same_length in Sa. apply same_length in Sb.
    rewrite length_append. cbn [String.length] in *. lia. }
  assert (K : 0 < String.length s) by (destruct s; [congruence | cbn; lia]).
  split.
  - destruct (test flagI _ ("extension/" +++ s +++ "/README.md")) eqn:T; [|reflexivity].
    apply L in T. rewrite !length_append in T. cbn [String.length] in T. lia.
  - destruct (test flagI _ ("extension/" +++ s +++ "/CHANGELOG.md")) eqn:T; [|reflexivity].
    apply L in T. rewrite !length_append in T. cbn [String.length] in T. lia.
Qed.

(** *** Text without links *)

(** A match of the link pattern has a bracket, one of the issue pattern a
    hash sign. *)
Lemma link_has_bracket prev rest idx m :
  match_here noFlags markdownPathRegex prev rest idx = Some m -> mem "[" rest = true.
Proof.
  intros M. apply match_here_sound in M. destruct M as [st' [D _]].
  unfold markdownPathRegex in D. cbn [RSeqs] in D.
  apply den_seq_inv in D. destruct D as [st1 [D1 D]].
  apply den_seq_inv in D. destruct D as [st2 [D2 _]].
  apply den_rest in D1. destruct D1 as [w1 E1].
  apply den_char_inv in D2; [|reflexivity]. destruct D2 as [r2 [E2 _]].
  cbn [m_rest start_state] in E1. rewrite E1, E2, mem_append. cbn [mem].
  rewrite Ascii.eqb_refl. now rewrite orb_true_r.
Qed.

Lemma issue_has_hash prev rest idx m :
  match_here noFlags markdownIssueRegex prev rest idx = Some m -> mem "#" rest = true.
Proof.
  intros M. apply match_here_sound in M. destruct M as [st' [D _]].
  unfold markdownIssueRegex in D. cbn [RSeqs] in D.
  apply den_seq_inv in D. destruct D as [st1 [D1 D]].
  apply den_seq_inv in D. destruct D as [st2 [D2 D]].
  apply den_seq_inv in D. destruct D as [st3 [D3 _]].
  apply den_rest in D1. destruct D1 as [w1 E1].
  apply den_rest in D2. destruct D2 as [w2 E2].
  apply den_char_inv in D3; [|reflexivity]. destruct D3 as [r3 [E3 _]].
  cbn [m_rest start_state] in E1. rewrite E1, E2, E3, !mem_append. cbn [mem].
  rewrite Ascii.eqb_refl. now rewrite !orb_true_r.
Qed.

Lemma no_match_without (c : ascii) (r : regex) (s : string) :
  (forall prev rest idx m, match_here noFlags r prev rest idx = Some m -> mem c rest = true) ->
  mem c s = false -> forall m, ~ In m (matchAll noFlags r s).
Proof.
  intros H M m Hm. unfold matchAll in Hm. apply scan_sound in Hm.
  destruct Hm as [pre [rest [p [i [-> K]]]]]. apply H in K.
  rewrite mem_append, K, orb_true_r in M. discriminate.
Qed.

Section Plain.
Variable urljoin : list string -> string.
Variable p : Processor.

(** X23.  A text without an opening bracket goes through the rewriting
    of links as it is, and a text without a hash sign through the rewriting
    of issue references, whatever the base URLs are, even if there are
    none. *)
Theorem plain_text_unchanged (s : string) :
  (mem "[" s = false -> replaceLinks urljoin p s = OK s)
  /\ (mem "#" s = false -> replaceIssues urljoin p s = OK s).
Proof.
  split; intros M.
  - unfold replaceLinks. destruct (String.length s) as [|n]; [reflexivity|].
    cbn [rewriteLinks]. apply replace_id. intros m Hm. exfalso.
    exact (no_match_without "[" markdownPathRegex s link_has_bracket M m Hm).
  - unfold replaceIssues. apply replace_id. intros m Hm. exfalso.
    exact (no_match_without "#" markdownIssueRegex s issue_has_hash M m Hm).
Qed.

End Plain.

(** *** What an accepted file guarantees *)

Section Stage.
Variable urljoin : list string -> string.
Variable normalize : string -> string.
Variable imgSources : string -> list string.
Variable hasSvgTag : string -> bool.
Variable decodeURI : string -> result string.
Variable urlParse : string -> Url.
Variable toLowerCase : string -> string.

Abbreviation onFileWith_ :=
  (onFileWith urljoin normalize imgSources hasSvgTag decodeURI urlParse toLowerCase).
Abbreviation checkImage_ := (checkImage decodeURI urlParse toLowerCase).
Abbreviation checkImages_ := (checkImages decodeURI urlParse toLowerCase).

Lemma checkImages_all (p : Processor) (trusted srcs : list string) :
  checkImages_ p trusted srcs = OK tt ->
  forall src, In src srcs -> checkImage_ p trusted src = OK tt.
Proof.
  induction srcs as [|s srcs IH]; intros H src Hin; [destruct Hin|].
  cbn [checkImages] in H.
  destruct (checkImage_ p trusted s) as [[]|] eqn:E; [|discriminate].
  destruct Hin as [<-|Hin]; [exact E | now apply IH].
Qed.

(** X24.  A file that the Markdown stage lets through keeps its path.
    If its normalized path is not the one of the processor, the file and the
    assets are unchanged.  Otherwise one asset is added for it, its text is
    not the README template, the text that is passed on has no [svg]
    element, and each of its images has a source with the protocol [https:]
    that is not an SVG data URL and, if its path name ends in [.svg], comes
    from a trusted host. *)
Theorem markdown_file_accepted (p : Processor) (trusted : list string)
  (assets assets' : list IAsset) (file file' : IFile) :
  onFileWith_ p trusted assets file = OK (file', assets') ->
  path file' = path file
  /\ ((test flagI (regexp p) (normalize (path file)) = false
       /\ file' = file /\ assets' = assets)
      \/ (test flagI (regexp p) (normalize (path file)) = true
          /\ assets' = assets ++ [{| a_type := assetType p;
                                     a_path := normalize (path file) |}]
          /\ (forall pre post,
                contents file
                <> pre +++ "This is the README for your extension " +++ post)
          /\ hasSvgTag (contents file') = false
          /\ forall src, In src (imgSources (contents file')) ->
               exists src',
                 decodeURI src = OK src'
                 /\ same true "https:" (strOf (u_protocol (urlParse src'))) = true
                 /\ isSvgDataUrl (urlParse src') = false
                 /\ (forall w e,
                       strOf (u_pathname (urlParse src')) = w +++ e ->
                       same true ".svg" e = true ->
                       exists host, u_host (urlParse src') = Some host
                                    /\ In (toLowerCase host) trusted))).
Proof.
  unfold onFileWith. destruct (test flagI (regexp p) (normalize (path file))) eqn:T;
    cbn [negb].
  2:{ intros [= <- <-]. split; [reflexivity|]. now left. }
  destruct (test noFlags rePlaceholder (contents file)) eqn:P; [discriminate|].
  destruct (replaceLinks urljoin p (contents file)) as [t1|]; [|discriminate]. cbn [bind].
  destruct (replaceIssues urljoin p t1) as [t2|]; [|discriminate]. cbn [bind].
  destruct (validate imgSources hasSvgTag decodeURI urlParse toLowerCase p trusted t2)
    as [[]|] eqn:V; [|discriminate]. cbn [bind].
  intros [= <- <-]. cbn [path contents]. split; [reflexivity|]. right.
  split; [reflexivity|]. split; [reflexivity|]. split; [|split].
  - intros pre post E.
    assert (X : test noFlags rePlaceholder (contents file) = true).
    { apply test_contains. exists pre, "This is the README for your extension ", post.
      split; [exact E | reflexivity]. }
    congruence.
  - unfold validate in V. destruct (checkImages_ p trusted _) as [[]|]; [|discriminate].
    cbn [bind] in V. now destruct (hasSvgTag t2).
  - intros src Hsrc. unfold validate in V.
    destruct (checkImages_ p trusted (imgSources t2)) as [[]|] eqn:C; [|discriminate].
    pose proof (checkImages_all p trusted _ C src Hsrc) as K. unfold checkImage in K.
    destruct (decodeURI src) as [src'|]; [|discriminate]. cbn [bind] in K.
    exists src'. split; [reflexivity|].
    destruct (isSvgDataUrl (urlParse src')); [discriminate|].
    destruct (test flagI reHttps (strOf (u_protocol (urlParse src')))) eqn:H;
      [|discriminate]. cbn [negb] in K.
    unfold reHttps in H. rewrite (test_whole flagI eq_refl) in H.
    split; [exact H|]. split; [reflexivity|]. intros w e Ep Se.
    assert (S : test flagI reDotSvg (strOf (u_pathname (urlParse src'))) = true).
    { apply (test_suffix flagI eq_refl). now exists w, e. }
    rewrite S in K. unfold isHostTrusted in K.
    destruct (u_host (urlParse src')) as [host|]; [|discriminate]. cbn [bind] in K.
    destruct (existsb (String.eqb (toLowerCase host)) trusted) eqn:X; [|discriminate].
    exists host. split; [reflexivity|]. apply existsb_exists in X.
    destruct X as [x [Hx Ex]]. apply String.eqb_eq in Ex. now subst x.
Qed.

End Stage.

Lemma guess_github_url_witness :
  guessBaseUrls Sample.gitHubManifest = Some (basesOf "me" "repo").
Proof.
  apply (proj1 (guess_github_url "me" "repo" Sample.gitHubManifest
                  ltac:(discriminate) ltac:(discriminate) eq_refl eq_refl) ".git").
  - reflexivity.
  - left. reflexivity.
Defined.

(** The address may come with another scheme in front of [github.com]. *)
Example guess_github_url_npm :
  guessBaseUrls (Sample.manifestOf
                   (Manifest.RepoObject (Some "git+https://github.com/me/repo.git")))
  = Some (basesOf "me" "repo").
Proof. vm_compute. reflexivity. Qed.

Lemma plain_text_unchanged_witness :
  replaceLinks Lib.urljoin
    (ReadmeProcessor (Sample.manifestOf Manifest.RepoAbsent) Sample.noOptions)
    "Version 1.0 (see docs/guide.md)" = OK "Version 1.0 (see docs/guide.md)".
Proof.
  apply (proj1 (plain_text_unchanged Lib.urljoin
                  (ReadmeProcessor (Sample.manifestOf Manifest.RepoAbsent) Sample.noOptions)
                  "Version 1.0 (see docs/guide.md)")).
  reflexivity.
Defined.

Lemma markdown_file_accepted_witness :
  path {| path := "extension/README.md";
          contents := "[guide](https://github.com/me/repo/blob/master/docs/guide.md) <img src='https://img.shields.io/badge.svg'>" |}
  = path Cases.readmeWithBadge.
Proof.
  refine (proj1 (markdown_file_accepted Lib.urljoin Lib.normalize Lib.imgSources
                   Lib.hasSvgTag Lib.decodeURI Lib.urlParse Lib.toLowerCase
                   (ReadmeProcessor Sample.gitHubManifest Sample.noOptions)
                   TrustedSVGSources []
                   [{| a_type := "Microsoft.VisualStudio.Services.Content.Details";
                       a_path := "extension/README.md" |}]
                   Cases.readmeWithBadge _ _)).
  vm_compute. reflexivity.
Defined.

End MarkdownMore.
(* ================================================================== *)
(** ** Properties of [escapeRegExp] *)

Module EscapeFacts.
Import Str StrFacts RegExpFacts MatchFacts Text RegExpSyntax.

Local Arguments Ascii.eqb : simpl never.

(** The characters that [escapeRegExp] escapes. *)
Abbreviation special c := (mem c ".*+?^${}()|[]\").

Lemma escape_head (k : string) :
  match escapeRegExp k with
  | String c _ => Ascii.eqb c "\" = true \/ special c = false
  | EmptyString => True
  end.
Proof.
  destruct k as [|c k]; [exact I|]. cbn [escapeRegExp].
  destruct (special c) eqn:E; [left; reflexivity | now right].
Qed.

(** No quantifier follows an escaped text. *)
Lemma quantified_escaped (r : regex) (k : string) (n : nat) :
  quantified r (escapeRegExp k) n = Parsed r (escapeRegExp k) n.
Proof.
  pose proof (escape_head k) as H. unfold quantified.
  destruct (escapeRegExp k) as [|q rest]; [reflexivity|].
  destruct H as [H|H].
  - apply Ascii.eqb_eq in H. subst q. reflexivity.
  - cbn [mem] in H. repeat (apply orb_false_iff in H; destruct H as [? H]).
    repeat match goal with
           | E : Ascii.eqb ?a ?b = false |- _ => rewrite E; clear E
           end.
    reflexivity.
Qed.

Lemma term_escaped (c : ascii) (k : string) (fuel n : nat) :
  parseTerm (S fuel) (escapeRegExp (String c k)) n = Parsed (RChar c) (escapeRegExp k) n.
Proof.
  cbn [escapeRegExp]. destruct (special c) eqn:E.
  - cbn [parseTerm]. change (Ascii.eqb "\" "^") with false.
    change (Ascii.eqb "\" "$") with false. change (Ascii.eqb "\" ".") with false.
    change (Ascii.eqb "\" "*") with false. change (Ascii.eqb "\" "+") with false.
    change (Ascii.eqb "\" "?") with false. change (Ascii.eqb "\" "{") with false.
    change (Ascii.eqb "\" "}") with false. change (Ascii.eqb "\" "\") with true.
    cbn [orb].
    assert (A : atomEscape c = Some (RChar c)).
    { cbn [mem] in E.
      repeat (apply orb_true_iff in E; destruct E as [E|E]);
        try (apply Ascii.eqb_eq in E; subst c; reflexivity).
      discriminate. }
    rewrite A. apply quantified_escaped.
  - cbn [parseTerm]. cbn [mem] in E.
    repeat (apply orb_false_iff in E; destruct E as [? E]).
    repeat match goal with
           | H : Ascii.eqb ?a ?b = false |- _ => rewrite H; clear H
           end.
    cbn [orb]. apply quantified_escaped.
Qed.

Lemma mkSeq_lit (c : ascii) (k : string) : mkSeq (RChar c) (RLit k) = RLit (String c k).
Proof. destruct k as [|d [|e k]]; reflexivity. Qed.

Lemma parseAlternative_step (fuel : nat) (c : ascii) (s : string) (n : nat) :
  parseAlternative (S fuel) (String c s) n
  = if Ascii.eqb c "|" || Ascii.eqb c ")" then Parsed REmpty (String c s) n
    else match parseTerm fuel (String c s) n with
         | Parsed r1 rest1 n1 =>
             match parseAlternative fuel rest1 n1 with
             | Parsed r2 rest2 n2 => Parsed (mkSeq r1 r2) rest2 n2
             | e => e
             end
         | e => e
         end.
Proof. reflexivity. Qed.

Lemma alternative_escaped (k : string) :
  forall fuel n,
    String.length k + 2 <= fuel ->
    parseAlternative fuel (escapeRegExp k) n = Parsed (RLit k) "" n.
Proof.
  induction k as [|c k IH]; intros fuel n F.
  - destruct fuel as [|fuel]; [cbn in F; lia | reflexivity].
  - destruct fuel as [|[|fuel]]; try (cbn in F; lia).
    pose proof (term_escaped c k fuel n) as T.
    assert (A : parseAlternative (S fuel) (escapeRegExp k) n = Parsed (RLit k) "" n).
    { apply IH. cbn in F. lia. }
    cbn [escapeRegExp] in T |- *. destruct (special c) eqn:E.
    + rewrite parseAlternative_step. change (Ascii.eqb "\" "|") with false.
      change (Ascii.eqb "\" ")") with false. cbn [orb].
      rewrite T, A. now rewrite mkSeq_lit.
    + rewrite parseAlternative_step. cbn [mem] in E.
      repeat (apply orb_false_iff in E; destruct E as [? E]).
      repeat match goal with
             | H : Ascii.eqb c "|" = false |- _ => rewrite H
             | H : Ascii.eqb c ")" = false |- _ => rewrite H
             end.
      cbn [orb]. rewrite T, A. now rewrite mkSeq_lit.
Qed.

Lemma length_escaped (k : string) : String.length k <= String.length (escapeRegExp k).
Proof.
  induction k as [|c k IH]; [reflexivity|]. cbn [escapeRegExp].
  destruct (special c); cbn [String.length]; lia.
Qed.

(** X25.  The text that [escapeRegExp] gives for [k] compiles to the
    regular expression that matches [k] and nothing else: a test with it
    succeeds exactly on the texts in which [k] occurs. *)
Theorem escapeRegExp_literal (k : string) :
  newRegExp (escapeRegExp k) = OK (RLit k)
  /\ forall s, test noFlags (RLit k) s = true <-> exists pre post, s = pre +++ k +++ post.
Proof.
  split.
  - unfold newRegExp, parse.
    pose proof (length_escaped k) as L.
    set (fuel := 3 * String.length (escapeRegExp k) + 3).
    assert (F : fuel = S (S (fuel - 2))) by (unfold fuel; lia).
    rewrite F. cbn [parseDisjunction].
    rewrite (alternative_escaped k (S (fuel - 2)) 0) by (unfold fuel; lia).
    reflexivity.
  - intros s. rewrite test_contains. split.
    + intros [pre [w [post [-> S]]]]. apply same_exact in S. subst w. now exists pre, post.
    + intros [pre [post ->]]. exists pre, k, post. split; [reflexivity | apply same_refl].
Qed.

End EscapeFacts.

(* ================================================================== *)
(** ** The syntax trees of the other literals against their source text *)

Module MoreSources.
Import RegExpSyntax.

Example reShorthand_source : sourceOf "^[^\/]+\/[^\/]+$" reShorthand.
Proof. reflexivity. Qed.

Example reYes_source : sourceOf "^y$" ManifestProcessor.reYes.
Proof. reflexivity. Qed.

Example reNonWord_source : sourceOf "\W" reNonWord.
Proof. reflexivity. Qed.

Example reOnLanguage_source : sourceOf "^onLanguage:(.*)$" Tags.reOnLanguage.
Proof. reflexivity. Qed.

Example reBackslash_source : sourceOf "\\" Collect.reBackslash.
Proof. reflexivity. Qed.

(** The pattern of a keyword without its look-ahead. *)
Example keywordPattern_source :
  sourceOf (Str.take 11 (Tags.keywordPattern "c++")) (RSeq RWordB (RLit "c++")).
Proof. reflexivity. Qed.

End MoreSources.
(* ================================================================== *)
(** ** Patterns of plain characters and dots *)

Module DotFacts.
Import Str StrFacts RegExpFacts RegExpSyntax Dots EscapeFacts IgnoreFacts.

Local Arguments Ascii.eqb : simpl never.

Ltac not_special H :=
  unfold plainOrDot in H; apply negb_true_iff in H; cbn [mem] in H;
  repeat (apply orb_false_iff in H; destruct H as [? H]).

Ltac use_not_special :=
  repeat match goal with
         | E : Ascii.eqb ?a ?b = false |- _ => rewrite E; clear E
         end.

Lemma quantified_plain (r : regex) (s : string) (n : nat) :
  plainHead s -> quantified r s n = Parsed r s n.
Proof.
  destruct s as [|q rest]; [reflexivity|]. cbn [plainHead]. intros [H| ->]; [|reflexivity].
  not_special H. unfold quantified. use_not_special. reflexivity.
Qed.

Lemma term_plain (c : ascii) (rest : string) (fuel n : nat) :
  plainOrDot c = true -> plainHead rest ->
  parseTerm (S fuel) (String c rest) n = Parsed (atom c) rest n.
Proof.
  intros H P. cbn [parseTerm]. unfold atom. not_special H.
  destruct (Ascii.eqb c ".") eqn:D.
  - use_not_special. now apply quantified_plain.
  - use_not_special. cbn [orb]. now apply quantified_plain.
Qed.

Lemma mkSeq_pattern (r : regex) (w : string) :
  mkSeq r (pattern w REol) = RSeq r (pattern w REol).
Proof. destruct w; reflexivity. Qed.

Lemma plainHead_dollar (w : string) :
  all plainOrDot w = true -> plainHead (w +++ "$").
Proof.
  destruct w as [|c w]; cbn [String.append plainHead all]; [now right|].
  intros H. apply andb_true_iff in H. now left.
Qed.

Lemma alternative_dots (w : string) :
  forall fuel n,
    all plainOrDot w = true ->
    String.length w + 2 <= fuel ->
    parseAlternative fuel (w +++ "$") n = Parsed (pattern w REol) "" n.
Proof.
  induction w as [|c w IH]; intros fuel n A F.
  - destruct fuel as [|[|fuel]]; try (cbn in F; lia). reflexivity.
  - destruct fuel as [|[|fuel]]; try (cbn in F; lia).
    cbn [all] in A. apply andb_true_iff in A. destruct A as [C A].
    change (String c w +++ "$") with (String c (w +++ "$")).
    rewrite parseAlternative_step.
    rewrite (term_plain c (w +++ "$") fuel n C (plainHead_dollar w A)).
    rewrite (IH (S fuel) n A) by (cbn in F; lia).
    cbn [pattern]. rewrite mkSeq_pattern.
    not_special C. use_not_special. reflexivity.
Qed.

(** The pattern of the License processor for a name of plain characters and
    dots. *)
Lemma newRegExp_dots (X : string) :
  all plainOrDot X = true ->
  newRegExp ("^extension/" +++ X +++ "$") = OK (RSeq RBol (pattern ("extension/" +++ X) REol)).
Proof.
  intros A. unfold newRegExp, parse.
  set (fuel := 3 * String.length ("^extension/" +++ X +++ "$") + 3).
  assert (F : String.length ("extension/" +++ X) + 4 <= fuel).
  { unfold fuel. rewrite !length_append. cbn [String.length]. lia. }
  destruct fuel as [|[|fuel]]; try lia.
  cbn [parseDisjunction]. change ("^extension/" +++ X +++ "$") with (String "^" (("extension/" +++ X) +++ "$")).
  rewrite parseAlternative_step. change (Ascii.eqb "^" "|" || Ascii.eqb "^" ")") with false.
  cbv iota.
  assert (T : parseTerm fuel (String "^" (("extension/" +++ X) +++ "$")) 0
              = Parsed RBol (("extension/" +++ X) +++ "$") 0).
  { destruct fuel as [|fuel]; [lia|]. reflexivity. }
  rewrite T. rewrite alternative_dots; [| |lia].
  - now rewrite mkSeq_pattern.
  - rewrite all_append, A. reflexivity.
Qed.

(** The matcher on such a pattern. *)
Lemma rmatch_dots (w : string) :
  forall pv s cs,
    match rmatch noFlags (pattern w REol) Some {| m_prev := pv; m_rest := s; m_caps := cs |} with
    | Some _ => true
    | None => false
    end = reads w s.
Proof.
  induction w as [|c w IH]; intros pv s cs.
  - cbn [pattern rmatch atEol m_rest multiline noFlags andb reads]. now destruct s.
  - cbn [pattern reads]. change (rmatch noFlags (RSeq (atom c) (pattern w REol)) Some ?st)
      with (rmatch noFlags (atom c) (rmatch noFlags (pattern w REol) Some) st).
    destruct s as [|d s]; [unfold atom; now destruct (Ascii.eqb c ".")|].
    assert (Kd : class_ok (ignoreCase noFlags) true [CChar LF; CChar CR] d
                 = negb (isLineTerminator d)).
    { unfold class_ok, item_ok, isLineTerminator.
      cbn [ignoreCase noFlags existsb item_has andb xorb]. now rewrite ?orb_false_r. }
    assert (Kc : class_ok (ignoreCase noFlags) false [CChar c] d = Ascii.eqb d c).
    { unfold class_ok, item_ok.
      cbn [ignoreCase noFlags existsb item_has andb xorb]. now rewrite ?orb_false_r. }
    unfold atom. destruct (Ascii.eqb c "."); cbn [RAny RChar rmatch m_rest].
    + rewrite Kd. destruct (negb (isLineTerminator d)); [|reflexivity].
      cbn [andb]. unfold advance. cbn [m_caps]. apply IH.
    + rewrite Kc. destruct (Ascii.eqb d c); [|reflexivity].
      cbn [andb]. unfold advance. cbn [m_caps]. apply IH.
Qed.

Lemma test_dots (w s : string) :
  test noFlags (RSeq RBol (pattern w REol)) s = reads w s.
Proof.
  unfold test, exec. rewrite <- (rmatch_dots w None s []).
  destruct s as [|d s]; cbn [search]; unfold match_here;
    cbn [rmatch atBol start_state m_prev];
    destruct (rmatch noFlags (pattern w REol) Some _); try reflexivity.
  now rewrite search_anchored_none.
Qed.

End DotFacts.

(* ================================================================== *)
(** ** The license file that [SEE LICENSE IN X] selects *)

Module LicensePattern.
Import Str License LicenseFiles LicenseFacts LicenseFilesFacts DotFacts.

(** C9.  For a license [SEE LICENSE IN X] (with [X] not empty and on one
    line) the constructor compiles the text [^extension/X$], with [X] put in
    as it is, and fails when that text does not compile.  The processor then
    tests the normalized path of each included file against the compiled
    expression and registers the first one that matches, and nothing when
    none matches.  With the pattern compiler of the model and a name [X]
    made of plain characters and dots, the filter accepts the paths that
    read as [extension/X] with each dot of [X] standing for any character
    but a line terminator.  So for [X = LICENSE.md] the file
    [extension/LICENSE-md], and every other file whose name differs from
    [extension/LICENSE.md] in that one character, is registered as the
    license. *)
Theorem license_pattern_unescaped :
  (forall (newRegExp : string -> result regex) (normalize extname : string -> string)
          (manifest : Manifest) (X : string) (regexp : regex),
     Manifest.license manifest = Some ("SEE LICENSE IN " +++ X) ->
     X <> "" ->
     all (fun c => negb (isLineTerminator c)) X = true ->
     newRegExp ("^extension/" +++ X +++ "$") = OK regexp ->
     exists st,
       init newRegExp manifest = OK st
       /\ filter st = test noFlags regexp
       /\ forall files,
            ((forall g, In g files -> test noFlags regexp (normalize (path g)) = false) ->
             processed normalize extname st files = (st, files)
             /\ assets st = [] /\ vsixLicense st = None)
            /\ (forall pre f post,
                  files = pre ++ f :: post ->
                  (forall g, In g pre -> test noFlags regexp (normalize (path g)) = false) ->
                  test noFlags regexp (normalize (path f)) = true ->
                  assets (fst (processed normalize extname st files))
                  = [licenseAsset (licensePath normalize extname f)]
                  /\ vsixLicense (fst (processed normalize extname st files))
                     = Some (licensePath normalize extname f)))
  /\ (forall (newRegExp : string -> result regex) (manifest : Manifest) (X msg : string),
        Manifest.license manifest = Some ("SEE LICENSE IN " +++ X) ->
        X <> "" ->
        all (fun c => negb (isLineTerminator c)) X = true ->
        newRegExp ("^extension/" +++ X +++ "$") = Fatal msg ->
        init newRegExp manifest = Fatal msg)
  /\ (forall (manifest : Manifest) (X : string),
        Manifest.license manifest = Some ("SEE LICENSE IN " +++ X) ->
        X <> "" ->
        all (fun c => negb (isLineTerminator c)) X = true ->
        all Dots.plainOrDot X = true ->
        exists st,
          init RegExpSyntax.newRegExp manifest = OK st
          /\ forall name, filter st name = Dots.reads ("extension/" +++ X) name)
  /\ (forall c,
        match init RegExpSyntax.newRegExp Sample.seeLicenseManifest with
        | OK st =>
            assets (fst (processed Lib.normalize Lib.extname st
                           [Sample.fileAt "extension/package.json";
                            Sample.fileAt ("extension/LICENSE" +++ String c "md")]))
            = if isLineTerminator c then []
              else [licenseAsset
                      (licensePath Lib.normalize Lib.extname
                         (Sample.fileAt ("extension/LICENSE" +++ String c "md")))]
        | Fatal _ => False
        end).
Proof.
  split; [|split; [|split]].
  - intros newRegExp normalize extname manifest X regexp HL Ne A C.
    unfold init. rewrite (licenseFilter_see newRegExp manifest X HL Ne A), C. cbn [bind].
    eexists. split; [reflexivity|]. split; [reflexivity|].
    intros files. split.
    + intros H. unfold processed. rewrite fold_no_match by exact H. now repeat split.
    + intros pre f post -> Hpre Hf. unfold processed.
      set (st0 := {| filter := test noFlags regexp; didFindLicense := false;
                     assets := []; vsixLicense := None |}).
      assert (P : fst (fold_left (step normalize extname) (pre ++ f :: post) (st0, []))
                  = {| filter := test noFlags regexp; didFindLicense := true;
                       assets := [licenseAsset (licensePath normalize extname f)];
                       vsixLicense := Some (licensePath normalize extname f) |}).
      { rewrite fold_app, (fold_no_match normalize extname st0 pre) by exact Hpre.
        cbn [app fold_left]. unfold step at 2. unfold onFile. cbn [fst snd].
        subst st0. cbn [didFindLicense filter negb assets app]. rewrite Hf.
        unfold licensePath, licenseAsset.
        destruct (truthy (extname (normalize (path f)))); cbn [negb fst snd];
          (rewrite fold_latched; [|reflexivity]); reflexivity. }
      rewrite P. split; reflexivity.
  - intros newRegExp manifest X msg HL Ne A C.
    unfold init. now rewrite (licenseFilter_see newRegExp manifest X HL Ne A), C.
  - intros manifest X HL Ne A P. unfold init.
    rewrite (licenseFilter_see RegExpSyntax.newRegExp manifest X HL Ne A),
      (newRegExp_dots X P).
    cbn [bind]. eexists. split; [reflexivity|]. intros name. cbn [filter].
    apply test_dots.
  - intros c. destruct c as [[] [] [] [] [] [] [] []]; vm_compute; reflexivity.
Qed.

Lemma license_pattern_unescaped_witness :
  exists st,
    init RegExpSyntax.newRegExp Sample.seeLicenseManifest = OK st
    /\ assets (fst (processed Lib.normalize Lib.extname st
                      [Sample.fileAt "extension/package.json";
                       Sample.fileAt "extension/LICENSE-md";
                       Sample.fileAt "extension/LICENSE.md"]))
       = [licenseAsset "extension/LICENSE-md.txt"].
Proof.
  destruct (proj1 license_pattern_unescaped RegExpSyntax.newRegExp Lib.normalize Lib.extname
              Sample.seeLicenseManifest "LICENSE.md"
              (match RegExpSyntax.newRegExp "^extension/LICENSE.md$" with
               | OK r => r
               | Fatal _ => REmpty
               end) eq_refl) as [st [I [_ H]]].
  - discriminate.
  - reflexivity.
  - vm_compute. reflexivity.
  - exists st. split; [exact I|].
    destruct (H [Sample.fileAt "extension/package.json"; Sample.fileAt "extension/LICENSE-md";
                 Sample.fileAt "extension/LICENSE.md"]) as [_ K].
    apply (K [Sample.fileAt "extension/package.json"] (Sample.fileAt "extension/LICENSE-md")
             [Sample.fileAt "extension/LICENSE.md"]).
    + reflexivity.
    + intros g [<-|[]]. vm_compute. reflexivity.
    + vm_compute. reflexivity.
Defined.

End LicensePattern.

